(** * multi_protocol_bot: provider-fallback swap execution and pacing loop

    A shallow embedding of [src/multi_protocol_bot.ts] (the multi-provider
    bot) and of the single-provider variant of the same script
    ([fetchWithRetry] and its [executeSwap]), with the properties of the
    provider chain, the daily counter, the trading window and the hedge leg.

    Conventions of the embedding:
    - a JavaScript [number] that the code computes with fractions (amounts,
      random draws, delays before truncation) is a binary64 [float];
      a [number] that only ever counts (the daily counter, a loop index, a
      timer delay in whole milliseconds) is a [Z];
    - [async] code is sequential here: every [await] is a call of the monad
      [M], which threads the outside world, the two mutable fields of the
      bot and a ghost trace of what was done;
    - what the code cannot decide itself (the clock, [Math.random], the HTTP
      exchanges, the broadcast, library functions on opaque data) is a field
      of [Env]; theorems hold for every [Env]. *)

From Stdlib Require Import ZArith List String Ascii Bool Floats Lia Permutation.
Import ListNotations.
Local Open Scope Z_scope.
Set Warnings "-inexact-float,-register-all".

(** ** JavaScript numbers *)

Module JsNum.

Definition number := float.

(** An integer below 2^53 in absolute value, as a [number] (exact). *)
Definition of_Z (z : Z) : number :=
  if z <? 0 then PrimFloat.opp (PrimFloat.of_uint63 (Uint63.of_Z (- z)))
  else PrimFloat.of_uint63 (Uint63.of_Z z).

(** [Math.floor]: NaN, the infinities and the zeros are returned as they
    are; so is a finite value with a non-negative binary exponent, which is
    an integer already. *)
Definition Math_floor (x : number) : number :=
  match Prim2SF x with
  | S754_finite s m e =>
      if 0 <=? e then x
      else
        let q := Z.pos m / 2 ^ (- e) in
        let r := Z.pos m mod 2 ^ (- e) in
        if s then (if r =? 0 then x else of_Z (- (q + 1)))
        else of_Z q
  | _ => x
  end.

(** The integer a [number] denotes, when it denotes a non-negative one:
    the property keys [arr[x]] can hit. *)
Definition to_index (x : number) : option Z :=
  match Prim2SF x with
  | S754_zero _ => Some 0
  | S754_finite false m e =>
      if 0 <=? e then Some (Z.pos m * 2 ^ e)
      else if Z.pos m mod 2 ^ (- e) =? 0 then Some (Z.pos m / 2 ^ (- e))
      else None
  | _ => None
  end.

(** [arr[x]]: [undefined] ([None]) unless [x] is an index of the array. *)
Definition array_get {A : Type} (arr : list A) (x : number) : option A :=
  match to_index x with
  | Some i => nth_error arr (Z.to_nat i)
  | None => None
  end.

(** The delay a timer really waits: the runtime replaces a delay that is
    not in [1, 2^31 - 1] (NaN included) by 1 and truncates the others to
    whole milliseconds. *)
Definition timer_delay (x : number) : Z :=
  if (PrimFloat.leb 1 x && PrimFloat.leb x 2147483647)%bool
  then match to_index (Math_floor x) with Some z => z | None => 1 end
  else 1.

(** The same rule on a delay that is a whole number already. *)
Definition timer_delay_Z (z : Z) : Z :=
  if ((1 <=? z) && (z <=? 2147483647))%bool then z else 1.

(** The [number] nearest to the fraction [n / d], ties to even, for
    [0 < n < 2^100] and [0 < d < 2^60]: what [Number] returns on a decimal
    numeral. *)
Definition nearest_fraction (n d : Z) : number :=
  let K := 180 in
  let q := (n * 2 ^ K) / d in
  let sticky := negb ((n * 2 ^ K) mod d =? 0) in
  let sh := Z.log2 q + 1 - 53 in
  let m := Z.shiftr q sh in
  let rem := q mod 2 ^ sh in
  let half := 2 ^ (sh - 1) in
  let up := ((half <? rem) || ((rem =? half) && (sticky || Z.odd m)))%bool in
  let m' := if up then m + 1 else m in
  Z.ldexp (of_Z m') (sh - K).

(** [Number(x.toFixed(6))]. [toFixed] prints NaN, the infinities and a
    value of magnitude 1e21 or more as [String] does, and [Number] reads
    that back as the same value; below, it prints the integer [n] nearest
    to [|x| * 10^6] (the larger one on a tie) over six decimals, which
    [Number] rounds to the nearest [number]. *)
Definition Number_toFixed6 (x : number) : number :=
  match Prim2SF x with
  | S754_zero _ => PrimFloat.zero
  | S754_finite s m e =>
      if PrimFloat.leb 1e21 (PrimFloat.abs x) then x
      else
        let n := if 0 <=? e then Z.pos m * 2 ^ e * 1000000
                 else (2 * Z.pos m * 1000000 + 2 ^ (- e)) / (2 * 2 ^ (- e)) in
        if n =? 0 then (if s then PrimFloat.neg_zero else PrimFloat.zero)
        else
          let v := nearest_fraction n 1000000 in
          if s then PrimFloat.opp v else v
  | _ => x
  end.

End JsNum.
Import JsNum.

(** ** JSON values and thrown values *)

Inductive Json : Type :=
| JUndefined
| JNull
| JBool (b : bool)
| JNum (x : number)
| JStr (s : string)
| JArr (items : list Json)
| JObj (fields : list (string * Json)).

(** Truthiness, as [if (x)], [!x] and [x ? a : b] use it. *)
Definition truthy (j : Json) : bool :=
  match j with
  | JUndefined | JNull => false
  | JBool b => b
  | JNum x => negb (PrimFloat.is_zero x || PrimFloat.is_nan x)
  | JStr s => negb (s =? "")%string
  | JArr _ | JObj _ => true
  end.

Fixpoint lookup_field (fields : list (string * Json)) (k : string) : Json :=
  match fields with
  | [] => JUndefined
  | (k', v) :: rest => if (k' =? k)%string then v else lookup_field rest k
  end.

(** [j?.k] for a key [k] that is not an index and not a built-in property:
    [undefined] on everything but an object that has the key. *)
Definition opt_field (j : Json) (k : string) : Json :=
  match j with
  | JObj fields => lookup_field fields k
  | _ => JUndefined
  end.

(** [j?.[0]]. *)
Definition opt_first (j : Json) : Json :=
  match j with
  | JArr (x :: _) => x
  | JStr (String c _) => JStr (String c "")
  | JObj fields => lookup_field fields "0"
  | _ => JUndefined
  end.

(** What a [throw] carries and a [catch] receives. Every [throw] of the
    program and every rejection of a library call carries an error object,
    with its [message] and, for a rejected HTTP exchange that got an answer,
    [response.data] ([JUndefined] when there is none). *)
Record Error : Type := mkError { message : string; response_data : Json }.

(** The one other thrown value the code can produce is [undefined]
    ([throw lastError] before any error was stored). *)
Inductive Thrown : Type :=
| ThrowUndefined
| ThrowError (e : Error).

(** Reading a property of [undefined] or [null]. *)
Definition TypeError (what : string) : Error :=
  mkError ("Cannot read properties of " ++ what)%string JUndefined.

(** [j.k], which throws on [undefined] and [null]. *)
Definition field (j : Json) (k : string) : Error + Json :=
  match j with
  | JUndefined => inl (TypeError "undefined")
  | JNull => inl (TypeError "null")
  | _ => inr (opt_field j k)
  end.

(** ** The bot's data *)

(** [toISODate()] of a luxon [DateTime]: the calendar day, here by its
    number since the epoch. Two days have the same ISO date exactly when
    they have the same number; the empty string the field starts with is
    [NoDate]. *)
Inductive IsoDate : Type :=
| NoDate
| Day (n : Z).

Definition IsoDate_eqb (a b : IsoDate) : bool :=
  match a, b with
  | NoDate, NoDate => true
  | Day n, Day m => n =? m
  | _, _ => false
  end.

Definition Agent := string.

Inductive Method : Type := GET | POST.

(** The argument of an [axios] call. *)
Record HttpRequest : Type := mkRequest {
  method : Method;
  url : string;
  params : list (string * Json);
  data : Json;
  headers : list (string * string);
  httpsAgent : option Agent;
  timeout : Z
}.

(** [interface WalletContext]. The key pair is known by its public key; the
    [Connection] by the RPC endpoint it was built for, its transport being
    the wallet's own [agent]. *)
Record WalletContext : Type := mkWallet {
  keypair : string;
  agent : option Agent;
  connection : string;
  label : string
}.

(** The lines the bot prints, one constructor per [console.log] or
    [console.error] of the source. *)
Inductive LogLine : Type :=
| LogChannels (active : list string)
| LogDateSwitch (today : IsoDate) (yesterday_count : Z)
| LogTry (wallet provider : string)
| LogOk (wallet usedProvider : string) (count : Z) (txid : string)
| LogFail (wallet provider msg : string)
| LogAllFailed (wallet : string)
| LogBanner
| LogStart (wallets : nat)
| LogRest
| LogCap (count : Z)
| LogPlan (wallet target : string) (amount : number)
| LogSellBack (wallet : string) (wait : number)
| LogRoundEnd (count : Z) (loopWait : number)
| LogRetry (wallet msg : string) (attempt maxRetries : Z)
| LogFinalFailure (wallet msg : string)
| LogInteraction (wallet txid : string).

(** What the bot's own methods do, in the order they do it: the lines they
    print, the timers they wait for, the broadcasts. [EvGetSwap],
    [EvExecuteSwap] and [EvOperation] are ghost marks: a call of a provider's
    [getSwap], the entry of [executeSwap], and a call of the [operation]
    handed to [fetchWithRetry] (with the loop index it is made at). *)
Inductive Event : Type :=
| EvLog (line : LogLine)
| EvSleep (ms : Z)
| EvSend (wallet : string)
| EvOperation (attempt : Z)
| EvGetSwap (provider from to : string) (amountLamports : number) (signer : string)
| EvExecuteSwap (wallet from to : string) (amount : number).

(** ** The outside world *)

Record Env (W Tx : Type) : Type := mkEnv {
  (** [DateTime.now()] and [new Date()]: milliseconds since the epoch *)
  Date_now : W -> Z;
  (** [Math.random()] *)
  Math_random : W -> number * W;
  (** [await new Promise(r => setTimeout(r, ms))] *)
  setTimeout : Z -> W -> W;
  (** [await axios(...)]: [res.data] when it resolves *)
  axios : HttpRequest -> W -> (Error + Json) * W;
  (** [await connection.sendRawTransaction(bytes, {skipPreflight, maxRetries: 3})] *)
  sendRawTransaction : WalletContext -> string -> W -> (Error + string) * W;
  (** [VersionedTransaction.deserialize(Buffer.from(x, 'base64'))] *)
  deserialize : Json -> Error + Tx;
  (** [transaction.sign([keypair])] *)
  sign : Tx -> string -> Error + Tx;
  (** [transaction.serialize()] *)
  serialize : Tx -> string;
  JSON_stringify : Json -> string;
  Number_toString : number -> string;
  URLSearchParams_toString : list (string * string) -> string;
  Date_toISOString : Z -> string;
  hmac_sha256_base64 : string -> string -> string
}.

Arguments Date_now {W Tx}.
Arguments Math_random {W Tx}.
Arguments setTimeout {W Tx}.
Arguments axios {W Tx}.
Arguments sendRawTransaction {W Tx}.
Arguments deserialize {W Tx}.
Arguments sign {W Tx}.
Arguments serialize {W Tx}.
Arguments JSON_stringify {W Tx}.
Arguments Number_toString {W Tx}.
Arguments URLSearchParams_toString {W Tx}.
Arguments Date_toISOString {W Tx}.
Arguments hmac_sha256_base64 {W Tx}.

(** ** The monad of the bot: world, mutable fields, trace, exceptions *)

Record St (W : Type) : Type := mkSt {
  world : W;
  dailyTxCount : Z;
  lastResetDate : IsoDate;
  trace : list (Z * Event)
}.

Arguments mkSt {W}.
Arguments world {W}.
Arguments dailyTxCount {W}.
Arguments lastResetDate {W}.
Arguments trace {W}.

Inductive Res (A : Type) : Type :=
| Ok (a : A)
| Throw (t : Thrown).

Arguments Ok {A}.
Arguments Throw {A}.

Definition M (W A : Type) : Type := St W -> Res A * St W.

Definition ret {W A} (a : A) : M W A := fun s => (Ok a, s).

Definition bind {W A B} (m : M W A) (k : A -> M W B) : M W B :=
  fun s => match m s with
           | (Ok a, s') => k a s'
           | (Throw t, s') => (Throw t, s')
           end.

Definition throw {W A} (t : Thrown) : M W A := fun s => (Throw t, s).

(** [try { body } catch (e) { handler e }] *)
Definition try_catch {W A} (body : M W A) (handler : Thrown -> M W A) : M W A :=
  fun s => match body s with
           | (Ok a, s') => (Ok a, s')
           | (Throw t, s') => handler t s'
           end.

Declare Scope bot_scope.
Delimit Scope bot_scope with bot.
Notation "x <- m ;; k" := (bind m (fun x => k))
  (at level 61, m at next level, right associativity) : bot_scope.
Notation "m ;; k" := (bind m (fun _ => k))
  (at level 61, right associativity) : bot_scope.
Local Open Scope bot_scope.

Definition of_sum {W A} (r : Error + A) : M W A :=
  match r with
  | inl e => throw (ThrowError e)
  | inr a => ret a
  end.

(** Library calls: they see and change the world only, and reject with an
    error object. *)
Definition IO (W A : Type) : Type := W -> (Error + A) * W.

Definition io_ret {W A} (a : A) : IO W A := fun w => (inr a, w).

Definition io_bind {W A B} (m : IO W A) (k : A -> IO W B) : IO W B :=
  fun w => match m w with
           | (inr a, w') => k a w'
           | (inl e, w') => (inl e, w')
           end.

Definition io_throw {W A} (e : Error) : IO W A := fun w => (inl e, w).

Definition io_of_sum {W A} (r : Error + A) : IO W A :=
  match r with
  | inl e => io_throw e
  | inr a => io_ret a
  end.

Declare Scope io_scope.
Delimit Scope io_scope with io.
Notation "x <- m ;; k" := (io_bind m (fun x => k))
  (at level 61, m at next level, right associativity) : io_scope.

(** [new Error(msg)] *)
Definition new_Error (msg : string) : Error := mkError msg JUndefined.

(** [interface SwapResult], [interface SwapProvider] *)
Record SwapResult (Tx : Type) : Type := mkSwapResult {
  transaction : Tx;
  provider : string
}.

Arguments mkSwapResult {Tx}.
Arguments transaction {Tx}.
Arguments provider {Tx}.

Record SwapProvider (W Tx : Type) : Type := mkProvider {
  name : string;
  available : bool;
  getSwap : string -> string -> number -> string -> option Agent ->
            IO W (SwapResult Tx)
}.

Arguments mkProvider {W Tx}.
Arguments name {W Tx}.
Arguments available {W Tx}.
Arguments getSwap {W Tx}.

Module MINTS.
Definition SOL : string := "So11111111111111111111111111111111111111112".
Definition JitoSOL : string := "J1toso1uCk3RLmjorhTtrVwY9HJ7X8V9yYac6Y7kGCPn".
Definition mSOL : string := "mSoLzYCxHdYgdzU16g5QSh3i5K3z3KZK7ytfqcJm7So".
Definition bSOL : string := "bSo13r4TkiE4KumL71LsHTPpL2euBYLFx6h9HP3piy1".
End MINTS.

Record ProtocolMint : Type := mkMint { mint : string; mint_name : string }.

Definition PROTOCOL_MINTS : list ProtocolMint :=
  [ mkMint "J1toso1uCk3RLmjorhTtrVwY9HJ7X8V9yYac6Y7kGCPn" "JitoSOL";
    mkMint "mSoLzYCxHdYgdzU16g5QSh3i5K3z3KZK7ytfqcJm7So" "mSOL";
    mkMint "bSo13r4TkiE4KumL71LsHTPpL2euBYLFx6h9HP3piy1" "bSOL" ].

Definition LAMPORTS_PER_SOL : number := 1000000000%float.

(** ** The providers *)

Section Providers.

Context {W Tx : Type} (E : Env W Tx).
Local Open Scope string_scope.

(** [process.env] *)
Variable process_env : string -> option string.

(** [process.env.K || fallback] *)
Definition env_or (k fallback : string) : string :=
  match process_env k with
  | Some v => if (v =? "")%string then fallback else v
  | None => fallback
  end.

(** [!!process.env.K] *)
Definition env_set (k : string) : bool :=
  match process_env k with
  | Some v => negb (v =? "")%string
  | None => false
  end.

Definition DFLOW_API : string := env_or "DFLOW_API" "https://quote-api.dflow.net".
Definition JUP_API : string := env_or "JUP_API" "https://api.jup.ag".
Definition JUP_API_KEY : string := env_or "JUP_API_KEY" "".
Definition RAYDIUM_API : string := env_or "RAYDIUM_API" "https://transaction-v1.raydium.io".

Definition axios_get (u : string) (ps : list (string * Json))
    (hs : list (string * string)) (a : option Agent) : IO W Json :=
  axios E (mkRequest GET u ps JUndefined hs a 15000).

Definition axios_post (u : string) (body : Json)
    (hs : list (string * string)) (a : option Agent) : IO W Json :=
  axios E (mkRequest POST u [] body hs a 15000).

(** [Math.floor(Math.random() * 50) + 30] *)
Definition random_slippage : IO W number :=
  fun w => let (r, w') := Math_random E w in
           (inr (Math_floor (r * 50) + 30)%float, w').

Definition DFlow_getSwap (from to : string) (amountLamports : number)
    (signer : string) (a : option Agent) : IO W (SwapResult Tx) :=
  (res <- axios_get (DFLOW_API ++ "/order")
            [("inputMint", JStr from); ("outputMint", JStr to);
             ("amount", JNum amountLamports); ("signer", JStr signer)] [] a;;
   if negb (truthy (opt_field res "transaction"))
   then io_throw (new_Error "DFlow 未返回 transaction")
   else
     tx <- io_of_sum (deserialize E (opt_field res "transaction"));;
     io_ret (mkSwapResult tx "DFlow"))%io.

Definition DFlowProvider : SwapProvider W Tx :=
  mkProvider "DFlow" true DFlow_getSwap.

Definition Raydium_getSwap (from to : string) (amountLamports : number)
    (signer : string) (a : option Agent) : IO W (SwapResult Tx) :=
  (slippage <- random_slippage;;
   quoteRes <- axios_get (RAYDIUM_API ++ "/compute/swap-base-in")
                 [("inputMint", JStr from); ("outputMint", JStr to);
                  ("amount", JNum amountLamports);
                  ("slippageBps", JNum slippage); ("txVersion", JStr "V0")] [] a;;
   if negb (truthy (opt_field quoteRes "success"))
   then io_throw (new_Error ("Raydium 报价失败: " ++ JSON_stringify E quoteRes))
   else
     swapRes <- axios_post (RAYDIUM_API ++ "/transaction/swap-base-in")
                  (JObj [("computeUnitPriceMicroLamports", JStr "50000");
                         ("swapResponse", quoteRes); ("txVersion", JStr "V0");
                         ("wallet", JStr signer); ("wrapSol", JBool true);
                         ("unwrapSol", JBool true)]) [] a;;
     if negb (truthy (opt_field swapRes "success"))
     then io_throw (new_Error ("Raydium 构建交易失败: " ++ JSON_stringify E swapRes))
     else
       let txBase64 := opt_field (opt_first (opt_field swapRes "data")) "transaction" in
       if negb (truthy txBase64)
       then io_throw (new_Error ("Raydium 未返回 transaction: " ++ JSON_stringify E swapRes))
       else
         tx <- io_of_sum (deserialize E txBase64);;
         io_ret (mkSwapResult tx "Raydium"))%io.

Definition RaydiumProvider : SwapProvider W Tx :=
  mkProvider "Raydium" true Raydium_getSwap.

Definition Jupiter_getSwap (from to : string) (amountLamports : number)
    (signer : string) (a : option Agent) : IO W (SwapResult Tx) :=
  (slippage <- random_slippage;;
   let headers := if negb (JUP_API_KEY =? "")%string
                  then [("x-api-key", JUP_API_KEY)] else [] in
   quoteRes <- axios_get (JUP_API ++ "/quote")
                 [("inputMint", JStr from); ("outputMint", JStr to);
                  ("amount", JNum amountLamports);
                  ("slippageBps", JNum slippage)] headers a;;
   swapRes <- axios_post (JUP_API ++ "/swap")
                (JObj [("quoteResponse", quoteRes); ("userPublicKey", JStr signer);
                       ("wrapAndUnwrapSol", JBool true);
                       ("dynamicComputeUnitLimit", JBool true);
                       ("prioritizationFeeLamports", JStr "auto")]) headers a;;
   swapTransaction <- io_of_sum (field swapRes "swapTransaction");;
   tx <- io_of_sum (deserialize E swapTransaction);;
   io_ret (mkSwapResult tx "Jupiter"))%io.

Definition JupiterProvider : SwapProvider W Tx :=
  mkProvider "Jupiter" true Jupiter_getSwap.

(** [okxSign], [okxHeaders] *)
Definition okxSign (timestamp method path body : string) : string :=
  hmac_sha256_base64 E (env_or "OKX_SECRET_KEY" "")
    (timestamp ++ method ++ path ++ body).

Definition okxHeaders (method path body : string) : IO W (list (string * string)) :=
  fun w =>
    let ts := Date_toISOString E (Date_now E w) in
    (inr [("OK-ACCESS-KEY", env_or "OKX_API_KEY" "");
          ("OK-ACCESS-TIMESTAMP", ts);
          ("OK-ACCESS-PASSPHRASE", env_or "OKX_PASSPHRASE" "");
          ("OK-ACCESS-SIGN", okxSign ts method path body);
          ("Content-Type", "application/json"%string)], w).

Definition OKX_available : bool :=
  (env_set "OKX_API_KEY" && env_set "OKX_SECRET_KEY" && env_set "OKX_PASSPHRASE")%bool.

Definition OKX_getSwap (from to : string) (amountLamports : number)
    (signer : string) (a : option Agent) : IO W (SwapResult Tx) :=
  if negb OKX_available then io_throw (new_Error "OKX DEX 未配置 API Key")
  else
    (let path := "/api/v5/dex/aggregator/swap"%string in
     let ps := URLSearchParams_toString E
                 [("chainId", "501"); ("fromTokenAddress", from);
                  ("toTokenAddress", to);
                  ("amount", Number_toString E amountLamports);
                  ("slippage", "0.005"); ("userWalletAddress", signer)]%string in
     let fullPath := (path ++ "?" ++ ps)%string in
     hs <- okxHeaders "GET" fullPath "";;
     res <- axios_get ("https://www.okx.com" ++ fullPath) [] hs a;;
     let txData := opt_field (opt_field (opt_first (opt_field res "data")) "tx") "data" in
     if negb (truthy txData)
     then io_throw (new_Error "OKX DEX 未返回 tx data")
     else
       tx <- io_of_sum (deserialize E txData);;
       io_ret (mkSwapResult tx "OKX DEX"))%io.

Definition OKXDexProvider : SwapProvider W Tx :=
  mkProvider "OKX DEX" OKX_available OKX_getSwap.

End Providers.

(** ** Clock arithmetic

    [TIME_ZONE] is Asia/Shanghai, which is UTC+8 the whole year. *)

Definition local_ms (t : Z) : Z := t + 8 * 3600000.

(** [DateTime.now().setZone(TIME_ZONE).hour] *)
Definition hour_of (t : Z) : Z := (local_ms t / 3600000) mod 24.

(** [DateTime.now().setZone(TIME_ZONE).toISODate()] *)
Definition iso_date_of (t : Z) : IsoDate := Day (local_ms t / 86400000).

(** ** The bot *)

Section Bot.

Context {W Tx : Type} (E : Env W Tx).

(** *** Primitive actions *)

Definition emit (ev : Event) : M W unit :=
  fun s => (Ok tt, mkSt (world s) (dailyTxCount s) (lastResetDate s)
                        (trace s ++ [(Date_now E (world s), ev)])).

Definition console_log (line : LogLine) : M W unit := emit (EvLog line).

Definition now : M W Z := fun s => (Ok (Date_now E (world s)), s).

Definition random : M W number :=
  fun s => let (r, w') := Math_random E (world s) in
           (Ok r, mkSt w' (dailyTxCount s) (lastResetDate s) (trace s)).

(** [await new Promise(r => setTimeout(r, ms))] *)
Definition sleep (ms : Z) : M W unit :=
  fun s => (Ok tt, mkSt (setTimeout E ms (world s)) (dailyTxCount s) (lastResetDate s)
                        (trace s ++ [(Date_now E (world s), EvSleep ms)])).

(** A library call made by the bot. *)
Definition call {A} (io : IO W A) : M W A :=
  fun s => match io (world s) with
           | (inr a, w') => (Ok a, mkSt w' (dailyTxCount s) (lastResetDate s) (trace s))
           | (inl e, w') => (Throw (ThrowError e),
                             mkSt w' (dailyTxCount s) (lastResetDate s) (trace s))
           end.

Definition get_dailyTxCount : M W Z := fun s => (Ok (dailyTxCount s), s).

Definition set_dailyTxCount (c : Z) : M W unit :=
  fun s => (Ok tt, mkSt (world s) c (lastResetDate s) (trace s)).

Definition get_lastResetDate : M W IsoDate := fun s => (Ok (lastResetDate s), s).

Definition set_lastResetDate (d : IsoDate) : M W unit :=
  fun s => (Ok tt, mkSt (world s) (dailyTxCount s) d (trace s)).

(** *** [isWorkTime], [resetDailyCounter] *)

Definition isWorkTime : M W bool :=
  t <- now;;
  ret ((8 <=? hour_of t) && (hour_of t <? 24))%bool.

Definition resetDailyCounter : M W unit :=
  t <- now;;
  let today := iso_date_of t in
  last <- get_lastResetDate;;
  if negb (IsoDate_eqb today last) then
    c <- get_dailyTxCount;;
    console_log (LogDateSwitch today c);;
    set_dailyTxCount 0;;
    set_lastResetDate today
  else ret tt.

(** *** [executeSwap] *)

(** The [try] block of the loop body; it ends in [return true]. *)
Definition attempt (ctx : WalletContext) (p : SwapProvider W Tx)
    (from to : string) (amountLamports : number) (signer : string) : M W bool :=
  console_log (LogTry (label ctx) (name p));;
  emit (EvGetSwap (name p) from to amountLamports signer);;
  r <- call (getSwap p from to amountLamports signer (agent ctx));;
  tx <- of_sum (sign E (transaction r) (keypair ctx));;
  emit (EvSend (label ctx));;
  txid <- call (sendRawTransaction E ctx (serialize E tx));;
  c <- get_dailyTxCount;;
  set_dailyTxCount (c + 1);;
  console_log (LogOk (label ctx) (provider r) (c + 1) txid);;
  ret true.

(** The [catch] block: [msg] is [e.response?.data ? JSON.stringify(e.response.data) : e.message];
    the loop goes on after it. *)
Definition on_failure (ctx : WalletContext) (p : SwapProvider W Tx)
    (e : Thrown) : M W bool :=
  match e with
  | ThrowUndefined => throw (ThrowError (TypeError "undefined"))
  | ThrowError err =>
      let msg := if truthy (response_data err)
                 then JSON_stringify E (response_data err)
                 else message err in
      console_log (LogFail (label ctx) (name p) msg);;
      ret false
  end.

(** [for (const provider of this.providers) { ... }] and what follows it. *)
Fixpoint tryProviders (ctx : WalletContext) (from to : string)
    (amountLamports : number) (signer : string)
    (ps : list (SwapProvider W Tx)) : M W bool :=
  match ps with
  | [] =>
      console_log (LogAllFailed (label ctx));;
      ret false
  | p :: rest =>
      if negb (available p) then tryProviders ctx from to amountLamports signer rest
      else
        done <- try_catch (attempt ctx p from to amountLamports signer)
                          (on_failure ctx p);;
        if done then ret true
        else tryProviders ctx from to amountLamports signer rest
  end.

Definition executeSwap (providers : list (SwapProvider W Tx))
    (ctx : WalletContext) (from to : string) (amount : number) : M W bool :=
  emit (EvExecuteSwap (label ctx) from to amount);;
  let amountLamports := Math_floor (amount * LAMPORTS_PER_SOL)%float in
  let signer := keypair ctx in
  tryProviders ctx from to amountLamports signer providers.

(** *** The shuffle: [[...this.wallets].sort(() => Math.random() - 0.5)]

    [sort] is a built-in: the language leaves to the engine which pairs it
    hands to the comparator. The model is an insertion sort, the scheme
    engines run on short arrays: each element is moved left past the
    neighbours the comparator says are greater ([order > 0]), and stops at
    the first that is not. The comparator ignores its arguments. The spread
    copy makes the sort work on a fresh array, so [this.wallets] is never
    reordered. *)

Definition comparefn : M W number :=
  r <- random;;
  ret (r - 0.5)%float.

(** [placed] is the sorted part, nearest neighbour first. *)
Fixpoint insert_left {A} (element : A) (placed : list A) : M W (list A) :=
  match placed with
  | [] => ret [element]
  | tmp :: rest =>
      order <- comparefn;;
      if PrimFloat.ltb 0 order then
        moved <- insert_left element rest;;
        ret (tmp :: moved)
      else ret (element :: tmp :: rest)
  end.

Fixpoint insertion_sort {A} (placed todo : list A) : M W (list A) :=
  match todo with
  | [] => ret (rev placed)
  | element :: rest =>
      placed' <- insert_left element placed;;
      insertion_sort placed' rest
  end.

Definition shuffle {A} (wallets : list A) : M W (list A) :=
  insertion_sort [] wallets.

(** *** [start] *)

Definition delay (ms : number) : M W unit := sleep (timer_delay ms).

Fixpoint for_each {A} (items : list A) (body : A -> M W unit) : M W unit :=
  match items with
  | [] => ret tt
  | x :: rest => body x;; for_each rest body
  end.

(** The body of [for (const wallet of shuffled)]. Reading [target.name] of
    an [undefined] target throws. *)
Definition trade (providers : list (SwapProvider W Tx)) (wallet : WalletContext)
    : M W unit :=
  r1 <- random;;
  let target := array_get PROTOCOL_MINTS (Math_floor (r1 * 3)%float) in
  r2 <- random;;
  let amount := Number_toFixed6 (r2 * (0.001 - 0.0001) + 0.0001)%float in
  match target with
  | None => throw (ThrowError (TypeError "undefined"))
  | Some target =>
      console_log (LogPlan (label wallet) (mint_name target) amount);;
      ok <- executeSwap providers wallet MINTS.SOL (mint target) amount;;
      (if ok then
         r3 <- random;;
         let wait := (Math_floor (r3 * 240) + 120)%float in
         console_log (LogSellBack (label wallet) wait);;
         delay (wait * 1000)%float;;
         _ <- executeSwap providers wallet (mint target) MINTS.SOL (amount * 0.995)%float;;
         ret tt
       else ret tt);;
      r4 <- random;;
      delay ((r4 * 40 + 20) * 1000)%float
  end.

(** One turn of [while (true)]. *)
Definition round (providers : list (SwapProvider W Tx))
    (wallets : list WalletContext) : M W unit :=
  resetDailyCounter;;
  open <- isWorkTime;;
  if negb open then
    console_log LogRest;;
    delay 600000%float
  else
    c <- get_dailyTxCount;;
    if 120 <=? c then
      console_log (LogCap c);;
      delay 600000%float
    else
      shuffled <- shuffle wallets;;
      for_each shuffled (trade providers);;
      r <- random;;
      let loopWait := (Math_floor (r * 120) + 480)%float in
      c' <- get_dailyTxCount;;
      console_log (LogRoundEnd c' loopWait);;
      delay (loopWait * 1000)%float.

Fixpoint rounds (n : nat) (providers : list (SwapProvider W Tx))
    (wallets : list WalletContext) : M W unit :=
  match n with
  | O => ret tt
  | S k => round providers wallets;; rounds k providers wallets
  end.

(** [start], cut after [n] turns of its loop (it has no exit of its own). *)
Definition start (n : nat) (providers : list (SwapProvider W Tx))
    (wallets : list WalletContext) : M W unit :=
  console_log LogBanner;;
  console_log (LogStart (List.length wallets));;
  rounds n providers wallets.

(** *** The constructor *)

Variable process_env : string -> option string.

Definition bot_providers : list (SwapProvider W Tx) :=
  [ DFlowProvider E process_env; RaydiumProvider E process_env;
    JupiterProvider E process_env; OKXDexProvider E process_env ].

(** The fields as the constructor leaves them, with the line it prints. *)
Definition construct (w : W) : St W :=
  mkSt w 0 NoDate
    [(Date_now E w,
      EvLog (LogChannels (map name (filter available bot_providers))))].

End Bot.

(** ** The single-provider variant: [fetchWithRetry] and its [executeSwap] *)

(** [s.toLowerCase()], on the ASCII letters (the words looked for below are
    ASCII). *)
Definition lower_ascii (c : ascii) : ascii :=
  let n := nat_of_ascii c in
  if ((65 <=? n)%nat && (n <=? 90)%nat)%bool then ascii_of_nat (n + 32) else c.

Fixpoint toLowerCase (s : string) : string :=
  match s with
  | EmptyString => EmptyString
  | String c rest => String (lower_ascii c) (toLowerCase rest)
  end.

(** [s.includes(word)] *)
Fixpoint includes (s word : string) : bool :=
  (String.prefix word s ||
   match s with
   | EmptyString => false
   | String _ rest => includes rest word
   end)%bool.

(** The test of [fetchWithRetry] on the lower-cased message: network,
    timeout and proxy errors. *)
Definition is_network_error (msg : string) : bool :=
  (includes msg "socket" || includes msg "timeout" || includes msg "proxy" ||
   includes msg "network" || includes msg "econnreset" ||
   includes msg "econnrefused")%bool.

Module SingleProtocol.
Section Bot.

Context {W Tx : Type} (E : Env W Tx).
Variable process_env : string -> option string.

(** The turns [i, i+1, ...] of [for (let i = 0; i < maxRetries; i++)] that
    are left, [remaining] of them. *)
Fixpoint retry_from {T} (ctx : WalletContext) (operation : IO W T)
    (maxRetries : Z) (remaining : nat) (i : Z) (lastError : Thrown) : M W T :=
  match remaining with
  | O => throw lastError
  | S k =>
      emit E (EvOperation i);;
      try_catch (call operation)
        (fun thrown =>
           match thrown with
           | ThrowUndefined => throw (ThrowError (TypeError "undefined"))
           | ThrowError error =>
               let msg := toLowerCase (message error) in
               if is_network_error msg then
                 console_log E (LogRetry (label ctx) (message error) (i + 1) maxRetries);;
                 sleep E (timer_delay_Z (2000 * (i + 1)));;
                 retry_from ctx operation maxRetries k (i + 1) (ThrowError error)
               else throw (ThrowError error)
           end)
  end.

Definition fetchWithRetry {T} (ctx : WalletContext) (operation : IO W T)
    (maxRetries : Z) : M W T :=
  retry_from ctx operation maxRetries (Z.to_nat maxRetries) 0 ThrowUndefined.

(** The default value of the parameter, which every call of the source
    takes. *)
Definition default_maxRetries : Z := 3.

(** [`${process.env.K}`] *)
Definition env_text (k : string) : string :=
  match process_env k with
  | Some v => v
  | None => "undefined"
  end.

Definition executeSwap (ctx : WalletContext) (from to : string) (amount : number)
    : M W bool :=
  try_catch
    (slippage <- call (random_slippage E);;
     quoteRes <- fetchWithRetry ctx
       (axios E (mkRequest GET (env_text "JUP_API" ++ "/quote")%string
          [("inputMint", JStr from); ("outputMint", JStr to);
           ("amount", JNum (Math_floor (amount * LAMPORTS_PER_SOL)%float));
           ("slippageBps", JNum slippage)]%string JUndefined [] (agent ctx) 15000))
       default_maxRetries;;
     swapRes <- fetchWithRetry ctx
       (axios E (mkRequest POST (env_text "JUP_API" ++ "/swap")%string []
          (JObj [("quoteResponse", quoteRes); ("userPublicKey", JStr (keypair ctx));
                 ("wrapAndUnwrapSol", JBool true);
                 ("dynamicComputeUnitLimit", JBool true);
                 ("prioritizationFeeLamports", JStr "auto")]%string)
          [] (agent ctx) 15000))
       default_maxRetries;;
     swapTransaction <- of_sum (field swapRes "swapTransaction");;
     transaction <- of_sum (deserialize E swapTransaction);;
     tx <- of_sum (sign E transaction (keypair ctx));;
     emit E (EvSend (label ctx));;
     txid <- call (sendRawTransaction E ctx (serialize E tx));;
     console_log E (LogInteraction (label ctx) txid);;
     ret true)
    (fun e =>
       match e with
       | ThrowUndefined => throw (ThrowError (TypeError "undefined"))
       | ThrowError err =>
           let apiError := if truthy (response_data err)
                           then JSON_stringify E (response_data err)
                           else message err in
           console_log E (LogFinalFailure (label ctx) apiError);;
           ret false
       end).

End Bot.
End SingleProtocol.

(** ** Reading a trace *)

(** What a run added to the trace. *)
Definition new_events {W} (before after : St W) : list (Z * Event) :=
  skipn (List.length (trace before)) (trace after).

Definition pick {A} (f : Event -> list A) (tr : list (Z * Event)) : list A :=
  flat_map (fun te => f (snd te)) tr.

(** The providers whose [getSwap] was called, in order. *)
Definition invoked : list (Z * Event) -> list string :=
  pick (fun ev => match ev with EvGetSwap p _ _ _ _ => [p] | _ => [] end).

(** The failures recorded: provider and reason of each failure line. *)
Definition failures : list (Z * Event) -> list (string * string) :=
  pick (fun ev => match ev with EvLog (LogFail _ p msg) => [(p, msg)] | _ => [] end).

Definition failed (tr : list (Z * Event)) : list string := map fst (failures tr).

(** The successes reported: the provider named on each success line. *)
Definition succeeded : list (Z * Event) -> list string :=
  pick (fun ev => match ev with EvLog (LogOk _ p _ _) => [p] | _ => [] end).

(** The "all channels failed" lines. *)
Definition exhausted : list (Z * Event) -> list string :=
  pick (fun ev => match ev with EvLog (LogAllFailed w) => [w] | _ => [] end).

(** The calls of [executeSwap]: wallet, source, destination, amount. *)
Definition swaps : list (Z * Event) -> list (string * string * string * number) :=
  pick (fun ev => match ev with
                  | EvExecuteSwap w from to amount => [(w, from, to, amount)]
                  | _ => []
                  end).

(** The wallets of the forward swaps (those that sell SOL), in order. *)
Definition forward_wallets (tr : list (Z * Event)) : list string :=
  map (fun x => fst (fst (fst x)))
      (filter (fun x => (snd (fst (fst x)) =? MINTS.SOL)%string) (swaps tr)).

(** The timers waited for. *)
Definition sleeps : list (Z * Event) -> list Z :=
  pick (fun ev => match ev with EvSleep ms => [ms] | _ => [] end).

(** The loop indices at which [fetchWithRetry] called its operation. *)
Definition operations : list (Z * Event) -> list Z :=
  pick (fun ev => match ev with EvOperation i => [i] | _ => [] end).

(** The broadcasts. *)
Definition broadcasts : list (Z * Event) -> list string :=
  pick (fun ev => match ev with EvSend w => [w] | _ => [] end).

(** A step of a swap attempt: entering [executeSwap], asking a provider,
    broadcasting. *)
Definition is_swap_attempt (ev : Event) : bool :=
  match ev with
  | EvExecuteSwap _ _ _ _ | EvGetSwap _ _ _ _ _ | EvSend _ => true
  | _ => false
  end.

(** The clock readings at which the swap attempts of a trace were made. *)
Definition attempt_times (tr : list (Z * Event)) : list Z :=
  map fst (filter (fun te => is_swap_attempt (snd te)) tr).

Definition in_window (t : Z) : bool := ((8 <=? hour_of t) && (hour_of t <? 24))%bool.

(** The bot's side of the state is as it was: nothing printed or done,
    both fields unchanged (the world may have moved). *)
Definition same_bot {W} (s s' : St W) : Prop :=
  trace s' = trace s /\ dailyTxCount s' = dailyTxCount s /\
  lastResetDate s' = lastResetDate s.

(** The count a round starts from, once it has looked at the date. *)
Definition count_after_reset {W Tx} (E : Env W Tx) (s : St W) : Z :=
  if IsoDate_eqb (iso_date_of (Date_now E (world s))) (lastResetDate s)
  then dailyTxCount s else 0.

(** The loop indices [i, i+1, ...], [n] of them. *)
Fixpoint indices (i : Z) (n : nat) : list Z :=
  match n with
  | O => []
  | S m => i :: indices (i + 1) m
  end.

(** The wait of [fetchWithRetry] after the failed call of turn [i]. *)
Definition backoff (i : Z) : Z := timer_delay_Z (2000 * (i + 1)).

(** ** What one provider's turn comes to

    The [try] block at the level of the library calls: the broadcast
    resolves when [getSwap], [sign] and [sendRawTransaction] all do. *)

Definition submits {W Tx} (E : Env W Tx) (ctx : WalletContext) (p : SwapProvider W Tx)
    (from to : string) (amountLamports : number) (signer : string) (w : W) : bool :=
  match getSwap p from to amountLamports signer (agent ctx) w with
  | (inl _, _) => false
  | (inr r, w1) =>
      match sign E (transaction r) (keypair ctx) with
      | inl _ => false
      | inr tx =>
          match sendRawTransaction E ctx (serialize E tx) w1 with
          | (inl _, _) => false
          | (inr _, _) => true
          end
      end
  end.

(** What a run of the chain leaves in the trace, against the providers it
    was given: [pre] are the providers that failed, in order, each at its
    turn; on success the next eligible provider [p] is the last one asked,
    its turn went through to the broadcast, and the success line names the
    provider that the result of [p]'s own call names. *)
Definition chain_shape {W Tx} (E : Env W Tx) (ctx : WalletContext) (from to : string)
    (amountLamports : number) (signer : string)
    (ps : list (SwapProvider W Tx)) (ok : bool) (new : list (Z * Event)) : Prop :=
  exists pre,
    failed new = map name pre /\
    Forall (fun q => exists w, submits E ctx q from to amountLamports signer w = false) pre /\
    ((ok = true /\
      exists p post r w w',
        filter available ps = pre ++ p :: post /\
        invoked new = map name pre ++ [name p] /\
        submits E ctx p from to amountLamports signer w = true /\
        getSwap p from to amountLamports signer (agent ctx) w = (inr r, w') /\
        succeeded new = [provider r]) \/
     (ok = false /\ filter available ps = pre /\ invoked new = map name pre /\
      succeeded new = [])).

(** ** The two legs of an identity's turn

    [plan] is what [trade] draws first: the target (if the index drawn hits
    the table), the amount, and the world after the two draws. The forward
    leg runs in [forward_state], after the line that announces it; when it
    succeeds, the hedge leg runs in [hedge_state], after the dwell. *)

Definition plan {W Tx} (E : Env W Tx) (s : St W) : option ProtocolMint * number * W :=
  let (r1, w1) := Math_random E (world s) in
  let (r2, w2) := Math_random E w1 in
  (array_get PROTOCOL_MINTS (Math_floor (r1 * 3)%float),
   Number_toFixed6 (r2 * (0.001 - 0.0001) + 0.0001)%float, w2).

Definition forward_state {W Tx} (E : Env W Tx) (wallet : WalletContext) (s : St W)
    (target : ProtocolMint) (amount : number) (w2 : W) : St W :=
  mkSt w2 (dailyTxCount s) (lastResetDate s)
    (trace s ++ [(Date_now E w2, EvLog (LogPlan (label wallet) (mint_name target) amount))]).

Definition hedge_state {W Tx} (E : Env W Tx) (wallet : WalletContext) (sf : St W) : St W :=
  let (r3, w3) := Math_random E (world sf) in
  let wait := (Math_floor (r3 * 240) + 120)%float in
  mkSt (setTimeout E (timer_delay (wait * 1000)%float) w3) (dailyTxCount sf)
    (lastResetDate sf)
    ((trace sf ++ [(Date_now E w3, EvLog (LogSellBack (label wallet) wait))]) ++
     [(Date_now E w3, EvSleep (timer_delay (wait * 1000)%float))]).

(** ** Five claims of the specification, as they are worded

    Each is the reading of the sentence on one swap request or one trace;
    the code does not meet them (see the counterexamples). *)

(** "Stopping at the first provider whose call succeeds": when the call of
    the first eligible provider succeeds, no other provider is asked. *)
Definition stops_at_first_successful_call {W Tx} (E : Env W Tx)
    (providers : list (SwapProvider W Tx)) (ctx : WalletContext)
    (from to : string) (amount : number) (s : St W) : Prop :=
  forall p rest r w',
    filter available providers = p :: rest ->
    getSwap p from to (Math_floor (amount * LAMPORTS_PER_SOL)%float) (keypair ctx)
      (agent ctx) (world s) = (inr r, w') ->
    invoked (new_events s (snd (executeSwap E providers ctx from to amount s))) = [name p].



(** "Never mutates the trading-session state": both fields are after the
    call what they were before. *)
Definition leaves_session_untouched {W Tx} (E : Env W Tx)
    (providers : list (SwapProvider W Tx)) (ctx : WalletContext)
    (from to : string) (amount : number) (s : St W) : Prop :=
  dailyTxCount (snd (executeSwap E providers ctx from to amount s)) = dailyTxCount s /\
  lastResetDate (snd (executeSwap E providers ctx from to amount s)) = lastResetDate s.

(** "No swap attempt occurs while the hour is outside the window." *)
Definition attempts_inside_window (tr : list (Z * Event)) : Prop :=
  Forall (fun t => in_window t = true) (attempt_times tr).

(** ** A scripted world, to run the bot on concrete inputs *)

Module Script.

Inductive Answer : Type :=
| Resolve
| Reject (msg : string).

(** The clock, what the next library calls answer (HTTP exchanges and
    broadcasts alike, [Resolve] once the script is over) and the next values
    of [Math.random()] (0 once they are over). Timers advance the clock by
    their delay; library calls take no time. *)
Record World : Type := mkWorld {
  clock : Z;
  answers : list Answer;
  draws : list number
}.

Definition next_answer (w : World) : Answer * World :=
  match answers w with
  | [] => (Resolve, w)
  | a :: rest => (a, mkWorld (clock w) rest (draws w))
  end.

(** A body every provider accepts. *)
Definition body : Json :=
  JObj [("success", JBool true); ("transaction", JStr "AQ==");
        ("swapTransaction", JStr "AQ==");
        ("data", JArr [JObj [("transaction", JStr "AQ==");
                             ("tx", JObj [("data", JStr "AQ==")])]])]%string.

Definition env : Env World string :=
  mkEnv World string
    clock
    (fun w => match draws w with
              | [] => (0%float, w)
              | r :: rest => (r, mkWorld (clock w) (answers w) rest)
              end)
    (fun ms w => mkWorld (clock w + ms) (answers w) (draws w))
    (fun _ w => match next_answer w with
                | (Resolve, w') => (inr body, w')
                | (Reject msg, w') => (inl (new_Error msg), w')
                end)
    (fun _ _ w => match next_answer w with
                  | (Resolve, w') => (inr "txid"%string, w')
                  | (Reject msg, w') => (inl (new_Error msg), w')
                  end)
    (fun j => match j with
              | JStr s => inr s
              | _ => inl (new_Error "not a transaction")
              end)
    (fun tx _ => inr tx)
    (fun tx => tx)
    (fun _ => "{}"%string)
    (fun _ => "0"%string)
    (fun _ => ""%string)
    (fun _ => "1970-01-01T00:00:00.000Z"%string)
    (fun _ _ => ""%string).

(** No variable set: the defaults everywhere, OKX DEX not configured. *)
Definition no_env : string -> option string := fun _ => None.

Definition providers : list (SwapProvider World string) := bot_providers env no_env.

Definition alice : WalletContext :=
  mkWallet "A1iceWa11etPubKey" None "https://rpc.example" "A1iceW".

Definition bob : WalletContext :=
  mkWallet "B0bWa11etPubKey" (Some "socks5://u:p@10.0.0.2:1080"%string)
    "https://rpc.example" "B0bWa1".

(** 2024-10-04 at 10:00 and at 23:59 in Shanghai. *)
Definition morning : Z := 1728007200000.
Definition before_midnight : Z := 1728057540000.

(** The same day at 03:00. *)
Definition three_am : Z := 1727982000000.

(** The bot just built, in a world. *)
Definition fresh (t : Z) (script : list Answer) (rnd : list number) : St World :=
  construct env no_env (mkWorld t script rnd).

(** Three providers that answer without the network. *)
Definition failing (n : string) : SwapProvider World string :=
  mkProvider n true (fun _ _ _ _ _ => io_throw (new_Error (n ++ " is down"))).

Definition succeeding (n : string) : SwapProvider World string :=
  mkProvider n true (fun _ _ _ _ _ => io_ret (mkSwapResult "AQ=="%string n)).

Definition ABC : list (SwapProvider World string) :=
  [failing "A"; failing "B"; succeeding "C"].

(** The states of the examples below. DFlow answers, the broadcast of its
    transaction is refused. *)
Definition broadcast_refused : St World :=
  fresh morning [Resolve; Reject "blockhash not found"] [].


(** Every provider times out; every provider answers 503. *)
Definition all_time_out : St World :=
  fresh morning (repeat (Reject "timeout of 15000ms exceeded") 3) [].


(** The bot at 119 transactions on the day of [morning]. *)
Definition one_below_cap : St World :=
  mkSt (mkWorld morning [] []) 119 (iso_date_of morning) [].

End Script.


(** ** More readings of the clock and of a trace *)


(** The counts printed on the success lines, in order. *)
Definition success_counts : list (Z * Event) -> list Z :=
  pick (fun ev => match ev with EvLog (LogOk _ _ c _) => [c] | _ => [] end).

(** Whether the last thing a run did was to wait for a timer. *)
Definition ends_with_sleep (tr : list (Z * Event)) : Prop :=
  exists before t ms, tr = before ++ [(t, EvSleep ms)].

(** The three variables the OKX DEX provider needs. *)
Definition OKX_variables : list string :=
  ["OKX_API_KEY"; "OKX_SECRET_KEY"; "OKX_PASSPHRASE"]%string.

(** ** The ends of a round

    The state a round leaves when it does not trade ([closing], after the
    line that says why and the ten minutes), and when it has gone through
    the identities ([ending], after the draw of the pause, the line and the
    pause). *)

Definition closing {W Tx} (E : Env W Tx) (line : LogLine) (s : St W) : St W :=
  mkSt (setTimeout E (timer_delay 600000%float) (world s)) (dailyTxCount s)
    (lastResetDate s)
    ((trace s ++ [(Date_now E (world s), EvLog line)]) ++
     [(Date_now E (world s), EvSleep (timer_delay 600000%float))]).

Definition ending {W Tx} (E : Env W Tx) (s : St W) : St W :=
  let (r, w) := Math_random E (world s) in
  let loopWait := (Math_floor (r * 120) + 480)%float in
  mkSt (setTimeout E (timer_delay (loopWait * 1000)%float) w) (dailyTxCount s)
    (lastResetDate s)
    ((trace s ++ [(Date_now E w, EvLog (LogRoundEnd (dailyTxCount s) loopWait))]) ++
     [(Date_now E w, EvSleep (timer_delay (loopWait * 1000)%float))]).

(** ** Reading the trace of the single-provider variant *)

(** What [fetchWithRetry] itself does: calls of the operation, retry lines,
    waits. *)
Definition retry_event (ev : Event) : bool :=
  match ev with
  | EvOperation _ | EvSleep _ | EvLog (LogRetry _ _ _ _) => true
  | _ => false
  end.

(** The success lines and the final failure lines of the single-provider
    [executeSwap]. *)
Definition interactions : list (Z * Event) -> list string :=
  pick (fun ev => match ev with EvLog (LogInteraction _ txid) => [txid] | _ => [] end).

Definition final_failures : list (Z * Event) -> list string :=
  pick (fun ev => match ev with EvLog (LogFinalFailure _ msg) => [msg] | _ => [] end).

(** The words [fetchWithRetry] looks for. *)
Definition network_words : list string :=
  ["socket"; "timeout"; "proxy"; "network"; "econnreset"; "econnrefused"]%string.

(** ** Listening to the HTTP exchanges

    [recording E] is the world of [E] with a tape beside it: every field
    answers as in [E], and each call of [axios] also writes its argument at
    the end of the tape. What holds of the tape for every [E] holds of the
    requests the code makes. *)

Definition recording {W Tx} (E : Env W Tx) : Env (W * list HttpRequest) Tx :=
  mkEnv (W * list HttpRequest) Tx
    (fun w => Date_now E (fst w))
    (fun w => let (r, w') := Math_random E (fst w) in (r, (w', snd w)))
    (fun ms w => (setTimeout E ms (fst w), snd w))
    (fun req w => let (r, w') := axios E req (fst w) in (r, (w', snd w ++ [req])))
    (fun ctx bytes w =>
       let (r, w') := sendRawTransaction E ctx bytes (fst w) in (r, (w', snd w)))
    (deserialize E) (sign E) (serialize E) (JSON_stringify E) (Number_toString E)
    (URLSearchParams_toString E) (Date_toISOString E) (hmac_sha256_base64 E).





(** The header of a request, [undefined] ([None]) when it has none of that
    name. *)
Fixpoint header (hs : list (string * string)) (k : string) : option string :=
  match hs with
  | [] => None
  | (k', v) :: rest => if (k' =? k)%string then Some v else header rest k
  end.



(** ** [initWallets]

    [process.env] is the list of its variables in the order of
    [Object.keys]. The three constructors of the libraries may throw (a
    proxy URL that does not parse, a secret key that is not one, an endpoint
    that is not an HTTP URL); they are parameters. The strings split here
    are split on ASCII characters, and the label is cut from a base-58
    text, so bytes and UTF-16 units agree. *)

(** [s.split(sep)] for a separator of one character. *)
Fixpoint str_split (sep : ascii) (s : string) : list string :=
  match s with
  | EmptyString => [EmptyString]
  | String c rest =>
      if Ascii.eqb c sep then EmptyString :: str_split sep rest
      else match str_split sep rest with
           | [] => [String c EmptyString]
           | part :: parts => String c part :: parts
           end
  end.

(** [`${x}`] *)
Definition template (x : option string) : string :=
  match x with
  | Some v => v
  | None => "undefined"
  end.

(** [`socks5://${user}:${pass}@${ip}:${port}`] for
    [[ip, port, user, pass] = proxyStr.split(':')]. *)
Definition proxy_url (proxyStr : string) : string :=
  let parts := str_split ":" proxyStr in
  ("socks5://" ++ template (nth_error parts 2) ++ ":" ++ template (nth_error parts 3)
   ++ "@" ++ template (nth_error parts 0) ++ ":" ++ template (nth_error parts 1))%string.

(** [process.env[k]] *)
Fixpoint getenv (vars : list (string * string)) (k : string) : option string :=
  match vars with
  | [] => None
  | (k', v) :: rest => if (k' =? k)%string then Some v else getenv rest k
  end.

Section InitWallets.

Variable new_SocksProxyAgent : string -> Error + Agent.
(** [Keypair.fromSecretKey(bs58.decode(pk))], known by its public key in
    base 58 *)
Variable Keypair_fromSecretKey : string -> Error + string.
(** [new Connection(endpoint, { commitment: 'confirmed', fetch: createAxiosFetch(agent) })] *)
Variable new_Connection : option string -> option Agent -> Error + string.

Variable vars : list (string * string).

(** The body of the callback, for a variable whose name starts with
    [WALLET_]. *)
Definition wallet_of (raw : string) : Error + WalletContext :=
  let parts := str_split "|" raw in
  let pk := nth 0 parts EmptyString in
  let proxyStr := nth_error parts 1 in
  let made :=
    match proxyStr with
    | Some p =>
        if (p =? "")%string then inr None
        else match new_SocksProxyAgent (proxy_url p) with
             | inl e => inl e
             | inr a => inr (Some a)
             end
    | None => inr None
    end in
  match made with
  | inl e => inl e
  | inr agent =>
      match Keypair_fromSecretKey pk with
      | inl e => inl e
      | inr kp =>
          match new_Connection (getenv vars "RPC_URL") agent with
          | inl e => inl e
          | inr connection => inr (mkWallet kp agent connection (substring 0 6 kp))
          end
      end
  end.

(** [keys.forEach(key => { ... this.wallets.push(...) })] over the keys
    left, [wallets] being [this.wallets] so far. *)
Fixpoint forEach_key (entries : list (string * string)) (wallets : list WalletContext)
    : Error + list WalletContext :=
  match entries with
  | [] => inr wallets
  | (key, raw) :: rest =>
      if negb (String.prefix "WALLET_" key) then forEach_key rest wallets
      else match wallet_of raw with
           | inl e => inl e
           | inr wallet => forEach_key rest (wallets ++ [wallet])
           end
  end.

Definition initWallets : Error + list WalletContext := forEach_key vars [].

End InitWallets.

(** The variables [initWallets] turns into wallets. *)
Definition wallet_variables (vars : list (string * string)) : list (string * string) :=
  filter (fun entry => String.prefix "WALLET_" (fst entry)) vars.

(** ** The amounts of six decimals

    The amounts the loop draws are written with six decimals; [grid k] is
    the test, for the amount [k / 10^6], that printing it with six decimals
    gives it back, and that the lamports of the forward and of the hedge
    swap are the exact products or one less. *)

Definition on_the_grid (k : Z) : bool :=
  let amount := nearest_fraction k 1000000 in
  let lamports := Math_floor (amount * LAMPORTS_PER_SOL)%float in
  let hedge := Math_floor ((amount * 0.995) * LAMPORTS_PER_SOL)%float in
  (PrimFloat.Leibniz.eqb (Number_toFixed6 amount) amount &&
   (PrimFloat.Leibniz.eqb lamports (of_Z (1000 * k)) ||
    PrimFloat.Leibniz.eqb lamports (of_Z (1000 * k - 1))) &&
   (PrimFloat.Leibniz.eqb hedge (of_Z (995 * k)) ||
    PrimFloat.Leibniz.eqb hedge (of_Z (995 * k - 1))))%bool.

(** [a, a + 1, ...], [n] of them. *)
Definition zrange (a : Z) (n : nat) : list Z := map (fun i => a + Z.of_nat i) (seq 0 n).

(** ** What a run swaps *)

(** A swap of SOL against one of the three mints of the table, or back,
    for a wallet of the pool. *)
Definition SOL_against_a_mint (wallets : list WalletContext)
    (swap : string * string * string * number) : Prop :=
  let '(wallet, from, to, _) := swap in
  In wallet (map label wallets) /\
  ((from = MINTS.SOL /\ In to (map mint PROTOCOL_MINTS)) \/
   (In from (map mint PROTOCOL_MINTS) /\ to = MINTS.SOL)).
(** * Properties *)

Lemma array_get_In {A} (arr : list A) (x : number) (a : A) :
  array_get arr x = Some a -> In a arr.
Proof.
  unfold array_get. destruct (to_index x); [|discriminate].
  apply nth_error_In.
Qed.

Local Opaque Math_floor Number_toFixed6 timer_delay array_get.

Lemma IsoDate_eqb_eq (a b : IsoDate) : IsoDate_eqb a b = true <-> a = b.
Proof.
  destruct a, b; simpl; split; intro H; try congruence; try discriminate.
  - apply Z.eqb_eq in H. now subst.
  - inversion H. apply Z.eqb_refl.
Qed.

Lemma pick_app {A} (f : Event -> list A) (a b : list (Z * Event)) :
  pick f (a ++ b) = pick f a ++ pick f b.
Proof. unfold pick. apply flat_map_app. Qed.

Lemma invoked_app a b : invoked (a ++ b) = invoked a ++ invoked b.
Proof. apply pick_app. Qed.

Lemma failures_app a b : failures (a ++ b) = failures a ++ failures b.
Proof. apply pick_app. Qed.

Lemma failed_app a b : failed (a ++ b) = failed a ++ failed b.
Proof. unfold failed. rewrite failures_app. apply map_app. Qed.

Lemma succeeded_app a b : succeeded (a ++ b) = succeeded a ++ succeeded b.
Proof. apply pick_app. Qed.

Lemma exhausted_app a b : exhausted (a ++ b) = exhausted a ++ exhausted b.
Proof. apply pick_app. Qed.

Lemma swaps_app a b : swaps (a ++ b) = swaps a ++ swaps b.
Proof. apply pick_app. Qed.

Lemma sleeps_app a b : sleeps (a ++ b) = sleeps a ++ sleeps b.
Proof. apply pick_app. Qed.

Lemma operations_app a b : operations (a ++ b) = operations a ++ operations b.
Proof. apply pick_app. Qed.

Lemma attempt_times_app a b : attempt_times (a ++ b) = attempt_times a ++ attempt_times b.
Proof. unfold attempt_times. rewrite filter_app. apply map_app. Qed.

Lemma new_events_app {W} (s s' : St W) new :
  trace s' = trace s ++ new -> new_events s s' = new.
Proof.
  intro H. unfold new_events. rewrite H.
  rewrite skipn_app, skipn_all, Nat.sub_diag. reflexivity.
Qed.

Lemma same_bot_refl {W} (s : St W) : same_bot s s.
Proof. repeat split. Qed.

Lemma same_bot_trans {W} (a b c : St W) : same_bot a b -> same_bot b c -> same_bot a c.
Proof. unfold same_bot. intros (?&?&?) (?&?&?). repeat split; congruence. Qed.

(** Splits every reading of a trace along its appends. *)
Ltac split_trace :=
  rewrite ?invoked_app, ?failed_app, ?failures_app, ?succeeded_app, ?exhausted_app,
    ?swaps_app, ?sleeps_app, ?operations_app, ?attempt_times_app.

(** Closes [trace s' = trace s ++ ?new] when the left side is [trace s] with
    events appended. *)
Ltac trace_eq := rewrite <- ?app_assoc; reflexivity.

(** ** One provider's turn *)

Section Chain.

Context {W Tx : Type} (E : Env W Tx).
Variables (ctx : WalletContext) (from to : string) (amountLamports : number)
  (signer : string).

Lemma guarded_attempt (p : SwapProvider W Tx) (s : St W) :
  let b := submits E ctx p from to amountLamports signer (world s) in
  exists s' new,
    try_catch (attempt E ctx p from to amountLamports signer) (on_failure E ctx p) s
      = (Ok b, s') /\
    trace s' = trace s ++ new /\
    lastResetDate s' = lastResetDate s /\
    dailyTxCount s' = dailyTxCount s + (if b then 1 else 0) /\
    invoked new = [name p] /\
    failed new = (if b then [] else [name p]) /\
    (if b then exists r w',
                 getSwap p from to amountLamports signer (agent ctx) (world s) = (inr r, w') /\
                 succeeded new = [provider r]
     else succeeded new = []) /\
    exhausted new = [] /\ swaps new = [] /\ sleeps new = [] /\ operations new = [] /\
    (if b then True else broadcasts new = [] \/ broadcasts new = [label ctx]).
Proof.
  unfold submits, try_catch, attempt, on_failure, bind, console_log, emit, call,
    of_sum, get_dailyTxCount, set_dailyTxCount, ret, throw. simpl.
  destruct (getSwap p from to amountLamports signer (agent ctx) (world s))
    as [[e|r] w1]; simpl.
  - do 2 eexists. split; [reflexivity|]. split; [simpl; trace_eq|].
    repeat split; try reflexivity; try (simpl; lia). left; reflexivity.
  - destruct (sign E (transaction r) (keypair ctx)) as [e|tx]; simpl.
    + do 2 eexists. split; [reflexivity|]. split; [simpl; trace_eq|].
      repeat split; try reflexivity; try (simpl; lia). left; reflexivity.
    + destruct (sendRawTransaction E ctx (serialize E tx) w1) as [[e|txid] w2]; simpl.
      * do 2 eexists. split; [reflexivity|]. split; [simpl; trace_eq|].
        repeat split; try reflexivity; try (simpl; lia). right; reflexivity.
      * do 2 eexists. split; [reflexivity|]. split; [simpl; trace_eq|].
        repeat split; try reflexivity.
        exists r, w1. split; reflexivity.
Qed.

(** ** The chain *)

Lemma tryProviders_cons (p : SwapProvider W Tx) (rest : list (SwapProvider W Tx))
    (s : St W) :
  tryProviders E ctx from to amountLamports signer (p :: rest) s =
  if available p then
    match try_catch (attempt E ctx p from to amountLamports signer)
                    (on_failure E ctx p) s with
    | (Ok true, s') => (Ok true, s')
    | (Ok false, s') => tryProviders E ctx from to amountLamports signer rest s'
    | (Throw t, s') => (Throw t, s')
    end
  else tryProviders E ctx from to amountLamports signer rest s.
Proof.
  cbn [tryProviders]. destruct (available p); cbn [negb]; [|reflexivity].
  unfold bind.
  destruct (try_catch (attempt E ctx p from to amountLamports signer)
                      (on_failure E ctx p) s) as [[[|]|t] s']; reflexivity.
Qed.

Lemma tryProviders_spec (ps : list (SwapProvider W Tx)) : forall s : St W,
  exists ok s' new,
    tryProviders E ctx from to amountLamports signer ps s = (Ok ok, s') /\
    trace s' = trace s ++ new /\
    lastResetDate s' = lastResetDate s /\
    dailyTxCount s' = dailyTxCount s + (if ok then 1 else 0) /\
    chain_shape E ctx from to amountLamports signer ps ok new /\
    exhausted new = (if ok then [] else [label ctx]) /\
    swaps new = [] /\ sleeps new = [] /\ operations new = [].
Proof.
  induction ps as [|p rest IH]; intro s.
  - exists false. unfold tryProviders, bind, console_log, emit, ret. simpl.
    do 2 eexists. split; [reflexivity|]. split; [simpl; reflexivity|].
    repeat split; try reflexivity; try (simpl; lia).
    exists []. split; [reflexivity|]. split; [constructor|]. right. repeat split.
  - rewrite tryProviders_cons. destruct (available p) eqn:Hav.
    + destruct (guarded_attempt p s)
        as (s1 & new1 & Hrun & Htr & Hd & Hc & Hinv & Hfail & Hsucc & Hex & Hsw & Hsl & Hop & _).
      rewrite Hrun.
      destruct (submits E ctx p from to amountLamports signer (world s)) eqn:Hsub.
      * exists true, s1, new1. split; [reflexivity|].
        repeat split; try assumption.
        exists []. split; [exact Hfail|]. split; [constructor|].
        left. split; [reflexivity|].
        destruct Hsucc as (r & w' & Hget & Hs).
        exists p, (filter available rest), r, (world s), w'. simpl. rewrite Hav.
        repeat split; assumption.
      * destruct (IH s1)
          as (ok & s2 & new2 & Hrun2 & Htr2 & Hd2 & Hc2 & Hshape & Hex2 & Hsw2 & Hsl2 & Hop2).
        exists ok, s2, (new1 ++ new2). split; [exact Hrun2|].
        split; [rewrite Htr2, Htr; trace_eq|].
        split; [congruence|]. split; [lia|].
        split.
        { destruct Hshape as (pre & Hf & Hall & Hcase). exists (p :: pre).
          split; [split_trace; rewrite Hfail, Hf; reflexivity|].
          split; [constructor; [exists (world s); exact Hsub|exact Hall]|].
          simpl filter. rewrite Hav.
          destruct Hcase as [(Hok & q & post & r & w & w' & Hfil & Hin & Hq & Hget & Hs)
                            |(Hok & Hfil & Hin & Hs)].
          - left. split; [exact Hok|]. exists q, post, r, w, w'.
            split; [rewrite Hfil; reflexivity|].
            split_trace. rewrite Hinv, Hin, Hsucc, Hs. repeat split; try reflexivity;
              assumption.
          - right. split; [exact Hok|]. split; [rewrite Hfil; reflexivity|].
            split_trace. rewrite Hinv, Hin, Hsucc, Hs. split; reflexivity. }
        split_trace. rewrite Hex, Hex2, Hsw, Hsw2, Hsl, Hsl2, Hop, Hop2.
        repeat split; reflexivity.
    + destruct (IH s)
        as (ok & s2 & new2 & Hrun2 & Htr2 & Hd2 & Hc2 & Hshape & Hrest).
      exists ok, s2, new2. repeat split; try assumption; try apply Hrest.
      destruct Hshape as (pre & Hf & Hall & Hcase). exists pre. split; [exact Hf|].
      split; [exact Hall|].
      simpl filter. rewrite Hav. exact Hcase.
Qed.

End Chain.

Section Swap.

Context {W Tx : Type} (E : Env W Tx).

Lemma executeSwap_spec (providers : list (SwapProvider W Tx)) (ctx : WalletContext)
    (from to : string) (amount : number) (s : St W) :
  exists ok s' new,
    executeSwap E providers ctx from to amount s = (Ok ok, s') /\
    trace s' = trace s ++ new /\
    lastResetDate s' = lastResetDate s /\
    dailyTxCount s' = dailyTxCount s + (if ok then 1 else 0) /\
    chain_shape E ctx from to (Math_floor (amount * LAMPORTS_PER_SOL)%float) (keypair ctx)
      providers ok new /\
    exhausted new = (if ok then [] else [label ctx]) /\
    swaps new = [(label ctx, from, to, amount)] /\
    sleeps new = [] /\ operations new = [].
Proof.
  unfold executeSwap, bind at 1, emit.
  set (ev := (Date_now E (world s), EvExecuteSwap (label ctx) from to amount)).
  set (s0 := mkSt (world s) (dailyTxCount s) (lastResetDate s) (trace s ++ [ev])).
  destruct (tryProviders_spec E ctx from to
              (Math_floor (amount * LAMPORTS_PER_SOL)%float) (keypair ctx) providers s0)
    as (ok & s' & new & Hrun & Htr & Hd & Hc & Hshape & Hex & Hsw & Hsl & Hop).
  exists ok, s', ([ev] ++ new).
  split; [exact Hrun|].
  split; [rewrite Htr; subst s0; simpl; trace_eq|].
  split; [exact Hd|]. split; [exact Hc|].
  split.
  { destruct Hshape as (pre & Hf & Hall & Hcase). exists pre.
    split; [split_trace; exact Hf|]. split; [exact Hall|].
    destruct Hcase as [(Hok & q & post & r & w & w' & Hfil & Hin & Hq & Hget & Hs)
                      |(Hok & Hfil & Hin & Hs)].
    - left. split; [exact Hok|]. exists q, post, r, w, w'.
      split_trace. repeat split; assumption.
    - right. split_trace. repeat split; assumption. }
  split_trace. rewrite Hex, Hsw, Hsl, Hop. repeat split; reflexivity.
Qed.

(** [executeSwap] always returns, with the count raised by one exactly when
    it returns [true]. *)
Lemma executeSwap_count (providers : list (SwapProvider W Tx)) (ctx : WalletContext)
    (from to : string) (amount : number) (s : St W) :
  exists ok s',
    executeSwap E providers ctx from to amount s = (Ok ok, s') /\
    lastResetDate s' = lastResetDate s /\
    dailyTxCount s' = dailyTxCount s + (if ok then 1 else 0).
Proof.
  destruct (executeSwap_spec providers ctx from to amount s)
    as (ok & s' & new & Hrun & _ & Hd & Hc & _).
  exists ok, s'. auto.
Qed.

End Swap.
(** ** The shuffle *)

Section Shuffle.

Context {W Tx : Type} (E : Env W Tx).

Lemma random_frame (s : St W) :
  exists r s', random E s = (Ok r, s') /\ same_bot s s'.
Proof.
  unfold random. destruct (Math_random E (world s)) as [r w'].
  exists r. eexists. split; [reflexivity|]. repeat split.
Qed.

Lemma comparefn_frame (s : St W) :
  exists order s', comparefn E s = (Ok order, s') /\ same_bot s s'.
Proof.
  unfold comparefn, bind, ret.
  destruct (random_frame s) as (r & s' & Hr & Hs). rewrite Hr.
  do 2 eexists. split; [reflexivity|exact Hs].
Qed.

Lemma insert_left_perm {A} (element : A) (placed : list A) : forall s : St W,
  exists l s',
    insert_left E element placed s = (Ok l, s') /\
    Permutation (element :: placed) l /\ same_bot s s'.
Proof.
  induction placed as [|tmp rest IH]; intro s.
  - exists [element], s. repeat split. apply Permutation_refl.
  - cbn [insert_left]. unfold bind at 1.
    destruct (comparefn_frame s) as (order & s1 & Hc & Hs1). rewrite Hc.
    destruct (PrimFloat.ltb 0 order).
    + unfold bind, ret. destruct (IH s1) as (l & s2 & Hi & Hp & Hs2). rewrite Hi.
      exists (tmp :: l), s2. split; [reflexivity|]. split.
      * eapply perm_trans; [apply perm_swap|]. apply perm_skip. exact Hp.
      * eapply same_bot_trans; eassumption.
    + exists (element :: tmp :: rest), s1. split; [reflexivity|].
      split; [apply Permutation_refl|exact Hs1].
Qed.

Lemma insertion_sort_perm {A} (todo : list A) : forall (placed : list A) (s : St W),
  exists l s',
    insertion_sort E placed todo s = (Ok l, s') /\
    Permutation (placed ++ todo) l /\ same_bot s s'.
Proof.
  induction todo as [|element rest IH]; intros placed s.
  - exists (rev placed), s. split; [reflexivity|]. split.
    + rewrite app_nil_r. apply Permutation_rev.
    + apply same_bot_refl.
  - cbn [insertion_sort]. unfold bind.
    destruct (insert_left_perm element placed s) as (placed' & s1 & Hi & Hp & Hs1).
    rewrite Hi.
    destruct (IH placed' s1) as (l & s2 & Hrun & Hp2 & Hs2).
    exists l, s2. split; [exact Hrun|]. split.
    + eapply perm_trans; [|exact Hp2].
      eapply perm_trans; [apply Permutation_sym, Permutation_middle|].
      change (element :: placed ++ rest) with ((element :: placed) ++ rest).
      apply Permutation_app_tail. exact Hp.
    + eapply same_bot_trans; eassumption.
Qed.

Lemma shuffle_perm {A} (wallets : list A) (s : St W) :
  exists shuffled s',
    shuffle E wallets s = (Ok shuffled, s') /\
    Permutation wallets shuffled /\ same_bot s s'.
Proof. apply (insertion_sort_perm wallets [] s). Qed.

End Shuffle.
(** ** One identity's turn *)

Section Trade.

Context {W Tx : Type} (E : Env W Tx).
Variable providers : list (SwapProvider W Tx).

Lemma chain_shape_succeeded ctx from to lamports signer ok new :
  chain_shape E ctx from to lamports signer providers ok new ->
  List.length (succeeded new) = (if ok then 1 else 0)%nat.
Proof.
  intros (pre & _ & _ & [(Hok & p & post & r & w & w' & _ & _ & _ & _ & Hs)|(Hok & _ & _ & Hs)]);
    subst ok; rewrite Hs; reflexivity.
Qed.

(** The three ways the body of the loop over the identities can go. *)
Lemma trade_spec (wallet : WalletContext) (s : St W) :
  exists r s' new,
    trade E providers wallet s = (r, s') /\
    trace s' = trace s ++ new /\
    lastResetDate s' = lastResetDate s /\
    dailyTxCount s' = dailyTxCount s + Z.of_nat (List.length (succeeded new)) /\
    ((r = Throw (ThrowError (TypeError "undefined")) /\ new = []) \/
     (r = Ok tt /\
      exists target amount sf sf' ok,
        In target PROTOCOL_MINTS /\
        executeSwap E providers wallet MINTS.SOL (mint target) amount sf = (Ok ok, sf') /\
        if ok then
          exists sh sh' hedged,
            executeSwap E providers wallet (mint target) MINTS.SOL
              (amount * 0.995)%float sh = (Ok hedged, sh') /\
            swaps new = [(label wallet, MINTS.SOL, mint target, amount);
                         (label wallet, mint target, MINTS.SOL, (amount * 0.995)%float)] /\
            List.length (succeeded new) = (if hedged then 2 else 1)%nat /\
            exhausted new = (if hedged then [] else [label wallet]) /\
            List.length (sleeps new) = 2%nat
        else
          swaps new = [(label wallet, MINTS.SOL, mint target, amount)] /\
          succeeded new = [] /\ exhausted new = [label wallet] /\
          List.length (sleeps new) = 1%nat)).
Proof.
  destruct (trade E providers wallet s) as [r s'] eqn:Hrun.
  exists r, s'. unfold trade, bind in Hrun.
  destruct (random_frame E s) as (r1 & s1 & Hr1 & Ht1 & Hc1 & Hd1).
  rewrite Hr1 in Hrun.
  destruct (random_frame E s1) as (r2 & s2 & Hr2 & Ht2 & Hc2 & Hd2).
  rewrite Hr2 in Hrun.
  set (amount := Number_toFixed6 (r2 * (0.001 - 0.0001) + 0.0001)%float) in *.
  destruct (array_get PROTOCOL_MINTS (Math_floor (r1 * 3)%float)) as [target|] eqn:Htarget.
  2:{ unfold throw in Hrun. inversion Hrun; subst r s'. exists [].
      rewrite app_nil_r. repeat split; try congruence.
      - simpl. lia.
      - left. split; reflexivity. }
  apply array_get_In in Htarget.
  unfold console_log in Hrun at 1. unfold emit in Hrun at 1.
  set (s3 := mkSt (world s2) (dailyTxCount s2) (lastResetDate s2)
               (trace s2 ++ [(Date_now E (world s2),
                              EvLog (LogPlan (label wallet) (mint_name target) amount))]))
    in Hrun.
  destruct (executeSwap_spec E providers wallet MINTS.SOL (mint target) amount s3)
    as (ok & s4 & new4 & Hx4 & Ht4 & Hd4 & Hc4 & Hshape4 & Hex4 & Hsw4 & Hsl4 & _).
  apply chain_shape_succeeded in Hshape4.
  rewrite Hx4 in Hrun.
  assert (Ht3 : trace s3 = trace s ++
            [(Date_now E (world s2), EvLog (LogPlan (label wallet) (mint_name target) amount))])
    by (subst s3; simpl; congruence).
  assert (Hc3 : dailyTxCount s3 = dailyTxCount s) by (subst s3; simpl; congruence).
  assert (Hd3 : lastResetDate s3 = lastResetDate s) by (subst s3; simpl; congruence).
  clearbody s3.
  destruct ok.
  - (* the forward leg went through *)
    destruct (random_frame E s4) as (r3 & s5 & Hr3 & Ht5 & Hc5 & Hd5).
    rewrite Hr3 in Hrun.
    unfold console_log in Hrun at 1. unfold emit in Hrun at 1.
    unfold delay in Hrun at 1. unfold sleep in Hrun at 1.
    set (wait := (Math_floor (r3 * 240) + 120)%float) in *.
    set (s7 := mkSt _ _ _ _) in Hrun at 1.
    destruct (executeSwap_spec E providers wallet (mint target) MINTS.SOL
                (amount * 0.995)%float s7)
      as (hedged & s8 & new8 & Hx8 & Ht8 & Hd8 & Hc8 & Hshape8 & Hex8 & Hsw8 & Hsl8 & _).
    apply chain_shape_succeeded in Hshape8.
    rewrite Hx8 in Hrun. unfold ret in Hrun.
    destruct (random_frame E s8) as (r4 & s9 & Hr4 & Ht9 & Hc9 & Hd9).
    rewrite Hr4 in Hrun.
    unfold delay, sleep in Hrun. inversion Hrun; subst r s'. clear Hrun.
    assert (Ht7 : trace s7 = trace s5 ++
              [(Date_now E (world s5), EvLog (LogSellBack (label wallet) wait));
               (Date_now E (world s5), EvSleep (timer_delay (wait * 1000)%float))])
      by (subst s7; simpl; trace_eq).
    assert (Hc7 : dailyTxCount s7 = dailyTxCount s5) by (subst s7; reflexivity).
    assert (Hd7 : lastResetDate s7 = lastResetDate s5) by (subst s7; reflexivity).
    clearbody s7.
    eexists. split; [reflexivity|]. split.
    { cbn [trace]. rewrite Ht9, Ht8, Ht7, Ht5, Ht4, Ht3. trace_eq. }
    split; [cbn [lastResetDate]; congruence|].
    split.
    { cbn [dailyTxCount]. split_trace. rewrite !length_app, Hshape4, Hshape8.
      rewrite Hc9, Hc8, Hc7, Hc5, Hc4, Hc3. destruct hedged; simpl; lia. }
    right. split; [reflexivity|]. exists target, amount, s3, s4, true.
    split; [exact Htarget|]. split; [exact Hx4|].
    exists s7, s8, hedged. split; [exact Hx8|]. split_trace.
    rewrite Hsw4, Hsw8, Hex4, Hex8, Hsl4, Hsl8, !length_app, Hshape4, Hshape8.
    repeat split; destruct hedged; reflexivity.
  - (* the forward leg failed: no hedge *)
    unfold ret in Hrun.
    destruct (random_frame E s4) as (r4 & s5 & Hr4 & Ht5 & Hc5 & Hd5).
    rewrite Hr4 in Hrun.
    unfold delay, sleep in Hrun. inversion Hrun; subst r s'. clear Hrun.
    eexists. split; [reflexivity|]. split.
    { cbn [trace]. rewrite Ht5, Ht4, Ht3. trace_eq. }
    split; [cbn [lastResetDate]; congruence|].
    split.
    { cbn [dailyTxCount]. split_trace. rewrite !length_app, Hshape4.
      rewrite Hc5, Hc4, Hc3. simpl. lia. }
    right. split; [reflexivity|]. exists target, amount, s3, s4, false.
    split; [exact Htarget|]. split; [exact Hx4|].
    split_trace. rewrite Hsw4, Hex4, Hsl4.
    repeat split; try reflexivity.
    apply length_zero_iff_nil. split_trace. rewrite !length_app, Hshape4. reflexivity.
Qed.

(** The same, leg by leg: the forward swap always runs; the hedge runs once,
    with 0.995 of the forward amount and the assets swapped, exactly when the
    forward swap returned [true]; the turn ends normally whatever the legs
    returned. *)
Lemma trade_legs (wallet : WalletContext) (s : St W) target amount w2 :
  plan E s = (Some target, amount, w2) ->
  let run := trade E providers wallet s in
  let new := new_events s (snd run) in
  let forward := (label wallet, MINTS.SOL, mint target, amount) in
  let hedge := (label wallet, mint target, MINTS.SOL, (amount * 0.995)%float) in
  match executeSwap E providers wallet MINTS.SOL (mint target) amount
          (forward_state E wallet s target amount w2) with
  | (Ok true, sf) =>
      match executeSwap E providers wallet (mint target) MINTS.SOL (amount * 0.995)%float
              (hedge_state E wallet sf) with
      | (Ok hedged, _) =>
          fst run = Ok tt /\ swaps new = [forward; hedge] /\
          dailyTxCount (snd run) = dailyTxCount s + 1 + (if hedged then 1 else 0) /\
          lastResetDate (snd run) = lastResetDate s
      | (Throw _, _) => False
      end
  | (Ok false, _) =>
      fst run = Ok tt /\ swaps new = [forward] /\
      dailyTxCount (snd run) = dailyTxCount s /\
      lastResetDate (snd run) = lastResetDate s
  | (Throw _, _) => False
  end.
Proof.
  intros Hplan run new forward hedge. subst new run.
  destruct (trade E providers wallet s) as [r s'] eqn:Hrun. cbn [fst snd].
  unfold plan in Hplan. unfold trade, bind, random in Hrun.
  destruct (Math_random E (world s)) as [r1 w1]. cbn [world] in Hrun.
  destruct (Math_random E w1) as [r2 w2'].
  set (amt := Number_toFixed6 (r2 * (0.001 - 0.0001) + 0.0001)%float) in *.
  clearbody amt. inversion Hplan as [[Htarget Hamount Hw]].
  clear Hplan. subst w2' amt. rewrite Htarget in Hrun.
  unfold console_log in Hrun at 1. unfold emit in Hrun at 1.
  cbn [world dailyTxCount lastResetDate trace] in Hrun.
  change (mkSt w2 (dailyTxCount s) (lastResetDate s)
            (trace s ++ [(Date_now E w2,
                          EvLog (LogPlan (label wallet) (mint_name target) amount))]))
    with (forward_state E wallet s target amount w2) in Hrun.
  destruct (executeSwap_spec E providers wallet MINTS.SOL (mint target) amount
              (forward_state E wallet s target amount w2))
    as (ok & sf & new4 & Hx4 & Ht4 & Hd4 & Hc4 & _ & _ & Hsw4 & _).
  rewrite Hx4 in Hrun |- *.
  cbn [trace dailyTxCount lastResetDate forward_state] in Ht4, Hd4, Hc4.
  destruct ok.
  - unfold console_log, emit, delay, sleep in Hrun.
    unfold hedge_state. destruct (Math_random E (world sf)) as [r3 w3].
    cbn [world dailyTxCount lastResetDate trace] in Hrun |- *.
    match goal with
    | |- context [executeSwap E providers wallet (mint target) MINTS.SOL _ ?sh] =>
        destruct (executeSwap_spec E providers wallet (mint target) MINTS.SOL
                    (amount * 0.995)%float sh)
          as (hedged & sh' & new8 & Hx8 & Ht8 & Hd8 & Hc8 & _ & _ & Hsw8 & _)
    end.
    rewrite Hx8 in Hrun |- *. unfold ret in Hrun.
    cbn [trace dailyTxCount lastResetDate] in Ht8, Hd8, Hc8.
    destruct (Math_random E (world sh')) as [r4 w4].
    inversion Hrun; subst r s'. clear Hrun.
    cbn [world dailyTxCount lastResetDate trace].
    split; [reflexivity|].
    split.
    { erewrite new_events_app; [|cbn [trace]; rewrite Ht8, Ht4; trace_eq].
      split_trace. rewrite Hsw4, Hsw8. reflexivity. }
    split; [lia|congruence].
  - unfold ret, delay, sleep in Hrun. destruct (Math_random E (world sf)) as [r4 w4].
    inversion Hrun; subst r s'. clear Hrun.
    cbn [world dailyTxCount lastResetDate trace].
    split; [reflexivity|].
    split.
    { erewrite new_events_app; [|cbn [trace]; rewrite Ht4; trace_eq].
      split_trace. rewrite Hsw4. reflexivity. }
    split; [lia|congruence].
Qed.

End Trade.
(** ** A round *)

Section Round.

Context {W Tx : Type} (E : Env W Tx).
Variable providers : list (SwapProvider W Tx).

Lemma forward_wallets_app a b :
  forward_wallets (a ++ b) = forward_wallets a ++ forward_wallets b.
Proof. unfold forward_wallets. rewrite swaps_app, filter_app. apply map_app. Qed.

Lemma target_is_not_SOL (target : ProtocolMint) :
  In target PROTOCOL_MINTS -> (mint target =? MINTS.SOL)%string = false.
Proof.
  intros [H|[H|[H|[]]]]; subst target; reflexivity.
Qed.

(** The loop over the identities: every success raises the count by one, at
    most two per identity; when it ends normally, every identity had its
    forward swap, in the order of the list. *)
Lemma for_each_trade_spec (items : list WalletContext) : forall s : St W,
  exists r s' new,
    for_each items (trade E providers) s = (r, s') /\
    trace s' = trace s ++ new /\
    lastResetDate s' = lastResetDate s /\
    dailyTxCount s' = dailyTxCount s + Z.of_nat (List.length (succeeded new)) /\
    (List.length (succeeded new) <= 2 * List.length items)%nat /\
    (r = Ok tt -> forward_wallets new = map label items).
Proof.
  induction items as [|wallet rest IH]; intro s.
  - exists (Ok tt), s, []. rewrite app_nil_r. simpl. repeat split; lia.
  - cbn [for_each]. unfold bind.
    destruct (trade_spec E providers wallet s)
      as (r1 & s1 & new1 & Hrun1 & Ht1 & Hd1 & Hc1 & Hcase).
    rewrite Hrun1.
    assert (Hle : (List.length (succeeded new1) <= 2)%nat).
    { destruct Hcase as [(_ & Hn)|(_ & target & amount & sf & sf' & ok & _ & _ & Hok)].
      - subst new1. simpl. lia.
      - destruct ok.
        + destruct Hok as (sh & sh' & h & _ & _ & Hs & _). rewrite Hs. destruct h; lia.
        + destruct Hok as (_ & Hs & _). rewrite Hs. simpl. lia. }
    destruct Hcase as [(Hr & Hn)|(Hr & target & amount & sf & sf' & ok & Hin & _ & Hsw)];
      subst r1.
    + exists (Throw (ThrowError (TypeError "undefined"))), s1, new1.
      repeat split; try assumption; try (cbn [List.length]; lia).
      discriminate.
    + destruct (IH s1) as (r & s2 & new2 & Hrun2 & Ht2 & Hd2 & Hc2 & Hle2 & Hfw).
      exists r, s2, (new1 ++ new2). split; [exact Hrun2|].
      split; [rewrite Ht2, Ht1; trace_eq|].
      split; [congruence|].
      split; [split_trace; rewrite length_app, Hc2, Hc1; lia|].
      split; [split_trace; rewrite length_app; cbn [List.length]; lia|].
      intro Hr. rewrite forward_wallets_app, (Hfw Hr). cbn [map]. f_equal.
      unfold forward_wallets.
      destruct ok; [destruct Hsw as (sh & sh' & h & _ & Hs & _)|destruct Hsw as (Hs & _)];
        rewrite Hs; cbn [filter fst snd];
        rewrite String.eqb_refl, ?(target_is_not_SOL target Hin); reflexivity.
Qed.

Lemma resetDailyCounter_spec (s : St W) :
  let t := Date_now E (world s) in
  resetDailyCounter E s =
  (Ok tt,
   if IsoDate_eqb (iso_date_of t) (lastResetDate s) then s
   else mkSt (world s) 0 (iso_date_of t)
          (trace s ++ [(t, EvLog (LogDateSwitch (iso_date_of t) (dailyTxCount s)))])).
Proof.
  unfold resetDailyCounter, bind, now, get_lastResetDate, get_dailyTxCount,
    console_log, emit, set_dailyTxCount, set_lastResetDate, ret. cbv beta iota zeta.
  destruct (IsoDate_eqb (iso_date_of (Date_now E (world s))) (lastResetDate s)); reflexivity.
Qed.

Lemma isWorkTime_spec (s : St W) :
  isWorkTime E s = (Ok (in_window (Date_now E (world s))), s).
Proof. reflexivity. Qed.

Lemma round_spec (wallets : list WalletContext) (s : St W) :
  let t := Date_now E (world s) in
  let c0 := count_after_reset E s in
  exists r s' new,
    round E providers wallets s = (r, s') /\
    trace s' = trace s ++ new /\
    lastResetDate s' = iso_date_of t /\
    dailyTxCount s' = c0 + Z.of_nat (List.length (succeeded new)) /\
    (if (in_window t && (c0 <? 120))%bool
     then (List.length (succeeded new) <= 2 * List.length wallets)%nat
     else r = Ok tt /\ attempt_times new = [] /\ swaps new = [] /\ succeeded new = [] /\
          sleeps new = [timer_delay 600000%float]).
Proof.
  intros t c0.
  destruct (round E providers wallets s) as [r s'] eqn:Hrun. exists r, s'.
  unfold round, bind in Hrun.
  rewrite resetDailyCounter_spec in Hrun. fold t in Hrun.
  set (s1 := if IsoDate_eqb (iso_date_of t) (lastResetDate s) then s else _) in Hrun.
  assert (Hw1 : world s1 = world s) by (subst s1; destruct (IsoDate_eqb _ _); reflexivity).
  assert (Hd1 : lastResetDate s1 = iso_date_of t).
  { subst s1. destruct (IsoDate_eqb _ _) eqn:Heq; [|reflexivity].
    apply IsoDate_eqb_eq in Heq. congruence. }
  assert (Hc1 : dailyTxCount s1 = c0).
  { subst s1 c0. unfold count_after_reset. fold t. destruct (IsoDate_eqb _ _); reflexivity. }
  assert (Ht1 : exists new1, trace s1 = trace s ++ new1 /\ attempt_times new1 = [] /\
                             swaps new1 = [] /\ succeeded new1 = [] /\ sleeps new1 = []).
  { subst s1. destruct (IsoDate_eqb _ _).
    - exists []. rewrite app_nil_r. repeat split.
    - eexists. split; [reflexivity|]. repeat split. }
  destruct Ht1 as (new1 & Ht1 & Ha1 & Hsw1 & Hsu1 & Hsl1).
  clearbody s1.
  rewrite isWorkTime_spec, Hw1 in Hrun. fold t in Hrun.
  destruct (in_window t); cbn [negb andb] in *.
  - (* inside the window *)
    unfold get_dailyTxCount in Hrun at 1. rewrite Hc1 in Hrun.
    destruct (120 <=? c0) eqn:Hcap.
    + (* the cap is reached *)
      apply Z.leb_le in Hcap.
      replace (c0 <? 120) with false by (symmetry; apply Z.ltb_ge; exact Hcap).
      unfold console_log, emit, delay, sleep in Hrun. inversion Hrun; subst r s'.
      eexists. split; [reflexivity|].
      split; [cbn [trace world]; rewrite Ht1; trace_eq|].
      split; [exact Hd1|].
      split_trace. rewrite Ha1, Hsw1, Hsu1, Hsl1. cbn [dailyTxCount].
      repeat split; try reflexivity. rewrite Hc1. simpl. lia.
    + apply Z.leb_gt in Hcap.
      replace (c0 <? 120) with true by (symmetry; apply Z.ltb_lt; exact Hcap).
      destruct (shuffle_perm E wallets s1) as (shuffled & s2 & Hsh & Hperm & Htr2 & Hc2 & Hd2).
      rewrite Hsh in Hrun.
      destruct (for_each_trade_spec shuffled s2)
        as (r3 & s3 & new3 & Hrun3 & Ht3 & Hd3 & Hc3 & Hle3 & _).
      rewrite Hrun3 in Hrun.
      rewrite <- (Permutation_length Hperm) in Hle3.
      destruct r3 as [[]|thrown].
      * destruct (random_frame E s3) as (r4 & s4 & Hr4 & Ht4 & Hc4 & Hd4).
        rewrite Hr4 in Hrun.
        unfold get_dailyTxCount, console_log, emit, delay, sleep in Hrun.
        inversion Hrun; subst r s'.
        eexists. split; [reflexivity|].
        split; [cbn [trace world]; rewrite Ht4, Ht3, Htr2, Ht1; trace_eq|].
        split; [cbn [lastResetDate]; congruence|].
        split_trace. rewrite Hsu1. cbn [dailyTxCount app].
        rewrite Hc4, Hc3, Hc2, Hc1, !length_app.
        cbn [List.length succeeded pick flat_map snd app].
        split; lia.
      * inversion Hrun; subst r s'.
        exists (new1 ++ new3).
        split; [reflexivity|].
        split; [rewrite Ht3, Htr2, Ht1; trace_eq|].
        split; [congruence|].
        split_trace. rewrite Hsu1. cbn [app].
        rewrite Hc3, Hc2, Hc1. split; [reflexivity|exact Hle3].
  - (* outside the window *)
    unfold console_log, emit, delay, sleep in Hrun. inversion Hrun; subst r s'.
    eexists. split; [reflexivity|].
    split; [cbn [trace world]; rewrite Ht1; trace_eq|].
    split; [exact Hd1|].
    split_trace. rewrite Ha1, Hsw1, Hsu1, Hsl1. cbn [dailyTxCount].
    repeat split; try reflexivity. rewrite Hc1. simpl. lia.
Qed.

End Round.
(** ** [fetchWithRetry] *)

Section Retry.

Context {W Tx : Type} (E : Env W Tx).
Variables (T : Type) (ctx : WalletContext) (operation : IO W T) (maxRetries : Z).

(** The loop from turn [i] with [k] turns left: it calls the operation at
    [i, i+1, ...], [n] times, and waits [backoff] after each failed call that
    was a network error. It ends on a result or on an error that is not a
    network error ([n - 1] waits), or with its turns used up ([n = k]
    waits). *)
Lemma retry_from_spec (k : nat) : forall (i : Z) (last : Thrown) (s : St W),
  exists r s' new n,
    SingleProtocol.retry_from E ctx operation maxRetries k i last s = (r, s') /\
    trace s' = trace s ++ new /\
    dailyTxCount s' = dailyTxCount s /\ lastResetDate s' = lastResetDate s /\
    (n <= k)%nat /\
    operations new = indices i n /\
    (((1 <= n)%nat /\ sleeps new = map backoff (indices i (n - 1)) /\
      ((exists v, r = Ok v) \/
       (exists e, r = Throw (ThrowError e) /\
                  is_network_error (toLowerCase (message e)) = false))) \/
     (n = k /\ sleeps new = map backoff (indices i k) /\
      (r = Throw last \/
       exists e, r = Throw (ThrowError e) /\
                 is_network_error (toLowerCase (message e)) = true))).
Proof.
  induction k as [|k IH]; intros i last s.
  - exists (Throw last), s, [], 0%nat. rewrite app_nil_r.
    repeat split; try reflexivity. right. repeat split. left. reflexivity.
  - cbn [SingleProtocol.retry_from].
    unfold bind, emit, try_catch, call. cbn beta iota. cbn [world].
    destruct (operation (world s)) as [[e|v] w1].
    + destruct (is_network_error (toLowerCase (message e))) eqn:Hnet.
      * unfold bind, console_log, emit, sleep. cbn beta iota.
        match goal with
        | |- context [SingleProtocol.retry_from E ctx operation maxRetries k ?i' ?l ?s1] =>
            destruct (IH i' l s1)
              as (r & s' & new & n & Hrun & Htr & Hc & Hd & Hle & Hops & Hcase)
        end.
        exists r, s'. eexists. exists (S n). split; [exact Hrun|].
        split; [rewrite Htr; cbn [trace world]; trace_eq|].
        split; [exact Hc|]. split; [exact Hd|]. split; [lia|].
        split_trace. rewrite Hops. split; [reflexivity|].
        destruct Hcase as [(Hn & Hsl & Hr)|(Hn & Hsl & Hr)].
        -- left. split; [lia|]. rewrite Hsl. split; [|exact Hr].
           destruct n as [|n]; [lia|]. cbn [Nat.sub]. rewrite Nat.sub_0_r. reflexivity.
        -- right. split; [lia|]. rewrite Hsl. split; [reflexivity|].
           right. destruct Hr as [Hr|Hr]; [|exact Hr].
           exists e. split; assumption.
      * unfold throw. do 2 eexists. eexists. exists 1%nat.
        split; [reflexivity|]. split; [cbn [trace]; trace_eq|].
        repeat split; try reflexivity; try lia.
        left. repeat split; try lia. right. exists e. split; [reflexivity|exact Hnet].
    + do 2 eexists. eexists. exists 1%nat.
      split; [reflexivity|]. split; [cbn [trace]; trace_eq|].
      repeat split; try reflexivity; try lia.
      left. repeat split; try lia. left. exists v. reflexivity.
Qed.

(** One turn of the loop, by what the operation answers. *)
Lemma retry_from_S (k : nat) (i : Z) (last : Thrown) (s : St W) :
  SingleProtocol.retry_from E ctx operation maxRetries (S k) i last s =
  let t := Date_now E (world s) in
  match operation (world s) with
  | (inr v, w1) =>
      (Ok v, mkSt w1 (dailyTxCount s) (lastResetDate s) (trace s ++ [(t, EvOperation i)]))
  | (inl e, w1) =>
      if is_network_error (toLowerCase (message e)) then
        SingleProtocol.retry_from E ctx operation maxRetries k (i + 1) (ThrowError e)
          (mkSt (setTimeout E (backoff i) w1) (dailyTxCount s) (lastResetDate s)
             (((trace s ++ [(t, EvOperation i)]) ++
               [(Date_now E w1,
                 EvLog (LogRetry (label ctx) (message e) (i + 1) maxRetries))]) ++
              [(Date_now E w1, EvSleep (backoff i))]))
      else
        (Throw (ThrowError e),
         mkSt w1 (dailyTxCount s) (lastResetDate s) (trace s ++ [(t, EvOperation i)]))
  end.
Proof.
  cbn [SingleProtocol.retry_from].
  unfold bind at 1. unfold emit at 1. unfold try_catch at 1. unfold call at 1.
  cbn beta iota zeta. cbn [world].
  destruct (operation (world s)) as [[e|v] w1]; [|reflexivity].
  destruct (is_network_error (toLowerCase (message e))); reflexivity.
Qed.



End Retry.
(** ** The four providers *)

Section BotProviders.

Context {W Tx : Type} (E : Env W Tx).
Variable process_env : string -> option string.

(** Takes a successful run of a provider's [getSwap] apart, call by call. *)
Ltac io_cases H :=
  repeat match type of H with
         | context [match ?x with _ => _ end] => destruct x eqn:?; try discriminate H
         | context [if ?x then _ else _] => destruct x eqn:?; try discriminate H
         end.

Lemma bot_providers_name_themselves (p : SwapProvider W Tx) from to lam signer a w r w' :
  In p (bot_providers E process_env) ->
  getSwap p from to lam signer a w = (inr r, w') ->
  provider r = name p.
Proof.
  intros [Hp|[Hp|[Hp|[Hp|[]]]]] H; subst p;
    unfold DFlowProvider, RaydiumProvider, JupiterProvider, OKXDexProvider in *;
    cbn [getSwap name] in *.
  - unfold DFlow_getSwap, io_bind, io_throw, io_of_sum, io_ret in H.
    io_cases H. inversion H. reflexivity.
  - unfold Raydium_getSwap, random_slippage, io_bind, io_throw, io_of_sum, io_ret in H.
    io_cases H. inversion H. reflexivity.
  - unfold Jupiter_getSwap, random_slippage, io_bind, io_throw, io_of_sum, io_ret in H.
    io_cases H; inversion H; reflexivity.
  - unfold OKX_getSwap, okxHeaders, io_bind, io_throw, io_of_sum, io_ret in H.
    io_cases H. inversion H. reflexivity.
Qed.

End BotProviders.

Lemma timer_delay_ten_minutes : timer_delay 600000%float = 600000.
Proof. vm_compute. reflexivity. Qed.

(** ** The claims *)

(** C1 (as amended). Every swap request walks the chain in the order of the
    list, skipping the providers that are not available: the providers asked
    are a prefix of the eligible ones, each asked once; all but the last of
    them are recorded as failed, in order, and on success the last is the
    first whose whole turn went through (call, signature and broadcast), the
    success line naming it. The chain the constructor builds is DFlow,
    Raydium, Jupiter, OKX DEX, the first three always available. With
    [A(fail), B(fail), C(succeed)] the run succeeds via C with the failures
    of A and B recorded in that order. *)
Theorem executeSwap_tries_chain_in_order :
  (forall W Tx (E : Env W Tx) (providers : list (SwapProvider W Tx)) ctx from to amount
          (s : St W),
     exists ok,
       fst (executeSwap E providers ctx from to amount s) = Ok ok /\
       chain_shape E ctx from to (Math_floor (amount * LAMPORTS_PER_SOL)%float)
         (keypair ctx) providers ok
         (new_events s (snd (executeSwap E providers ctx from to amount s)))) /\
  (forall W Tx (E : Env W Tx) process_env,
     map name (bot_providers E process_env)
       = ["DFlow"; "Raydium"; "Jupiter"; "OKX DEX"]%string /\
     map available (bot_providers E process_env)
       = [true; true; true; OKX_available process_env] /\
     forall p from to lam signer a w r w',
       In p (bot_providers E process_env) ->
       getSwap p from to lam signer a w = (inr r, w') -> provider r = name p) /\
  (let s := Script.fresh Script.morning [] [] in
   let run := executeSwap Script.env Script.ABC Script.alice MINTS.SOL MINTS.mSOL
                0.0005%float s in
   fst run = Ok true /\
   invoked (new_events s (snd run)) = ["A"; "B"; "C"]%string /\
   failures (new_events s (snd run)) = [("A", "A is down"); ("B", "B is down")]%string /\
   succeeded (new_events s (snd run)) = ["C"]%string).
Proof.
  split; [|split].
  - intros W Tx E providers ctx from to amount s.
    destruct (executeSwap_spec E providers ctx from to amount s)
      as (ok & s' & new & Hrun & Htr & _ & _ & Hshape & _).
    exists ok. rewrite Hrun. cbn [fst snd].
    rewrite (new_events_app _ _ _ Htr). split; [reflexivity|exact Hshape].
  - intros W Tx E process_env. split; [reflexivity|]. split; [reflexivity|].
    intros p from to lam signer a w r w'. apply bot_providers_name_themselves.
  - vm_compute. repeat split; reflexivity.
Qed.

(** C1, counterexample. DFlow's call succeeds and the broadcast of its
    transaction is refused: the chain goes on to Raydium, so it did not stop
    at the first provider whose call succeeded. *)
Lemma broadcast_refused_moves_chain_on :
  ~ stops_at_first_successful_call Script.env Script.providers Script.alice
      MINTS.SOL MINTS.mSOL 0.0005%float Script.broadcast_refused.
Proof.
  intro H.
  pose proof (H (DFlowProvider Script.env Script.no_env)
                [RaydiumProvider Script.env Script.no_env;
                 JupiterProvider Script.env Script.no_env]
                (mkSwapResult "AQ=="%string "DFlow"%string)
                (Script.mkWorld Script.morning
                   [Script.Reject "blockhash not found"] [])) as Hc.
  vm_compute in Hc. specialize (Hc eq_refl eq_refl). discriminate Hc.
Qed.


(** C3. The counter moves in two places only. [resetDailyCounter] sets it to
    0 when the date it reads differs from [lastResetDate], which it then sets
    to that date, and changes nothing when the date is the same. A provider's
    turn adds one exactly when its broadcast resolved, and nothing when the
    call, the signature or the broadcast failed; so [executeSwap] adds one
    when it returns [true] and nothing otherwise. A round ends with the count
    it started from after the look at the date plus one per success line, and
    with [lastResetDate] at the date it read. *)
Theorem dailyTxCount_grows_on_submission_only :
  forall W Tx (E : Env W Tx) (providers : list (SwapProvider W Tx))
         (wallets : list WalletContext) ctx p from to lam signer amount (s : St W),
    (let today := iso_date_of (Date_now E (world s)) in
     fst (resetDailyCounter E s) = Ok tt /\
     (today = lastResetDate s -> snd (resetDailyCounter E s) = s) /\
     (today <> lastResetDate s ->
      dailyTxCount (snd (resetDailyCounter E s)) = 0 /\
      lastResetDate (snd (resetDailyCounter E s)) = today)) /\
    (let turn := try_catch (attempt E ctx p from to lam signer) (on_failure E ctx p) s in
     dailyTxCount (snd turn)
       = dailyTxCount s + (if submits E ctx p from to lam signer (world s) then 1 else 0) /\
     lastResetDate (snd turn) = lastResetDate s) /\
    (let run := executeSwap E providers ctx from to amount s in
     exists ok, fst run = Ok ok /\
       dailyTxCount (snd run) = dailyTxCount s + (if ok then 1 else 0) /\
       lastResetDate (snd run) = lastResetDate s) /\
    (let run := round E providers wallets s in
     count_after_reset E s <= dailyTxCount (snd run) /\
     dailyTxCount (snd run)
       = count_after_reset E s
         + Z.of_nat (List.length (succeeded (new_events s (snd run)))) /\
     lastResetDate (snd run) = iso_date_of (Date_now E (world s))).
Proof.
  intros W Tx E providers wallets ctx p from to lam signer amount s.
  split; [|split; [|split]].
  - cbv zeta. rewrite resetDailyCounter_spec. cbn [fst snd].
    split; [reflexivity|]. split.
    + intro Heq. apply IsoDate_eqb_eq in Heq. rewrite Heq. reflexivity.
    + intro Hne.
      destruct (IsoDate_eqb (iso_date_of (Date_now E (world s))) (lastResetDate s)) eqn:Heq.
      * apply IsoDate_eqb_eq in Heq. contradiction.
      * split; reflexivity.
  - cbv zeta.
    destruct (guarded_attempt E ctx from to lam signer p s)
      as (s' & new & Hrun & _ & Hd & Hc & _).
    rewrite Hrun. cbn [snd]. split; assumption.
  - cbv zeta.
    destruct (executeSwap_count E providers ctx from to amount s) as (ok & s' & Hrun & Hd & Hc).
    exists ok. rewrite Hrun. cbn [fst snd]. repeat split; assumption.
  - cbv zeta.
    destruct (round_spec E providers wallets s) as (r & s' & new & Hrun & Htr & Hd & Hc & _).
    rewrite Hrun. cbn [snd]. rewrite (new_events_app _ _ _ Htr).
    split; [lia|]. split; assumption.
Qed.



(** C5 (as amended). [executeSwap] is itself the writer of the counter: it
    adds one when the swap was broadcast and leaves the counter alone
    otherwise, and it never touches [lastResetDate]. The loop adds nothing of
    its own: after an identity's turn the counter is up by the number of
    success lines of its swaps, and [lastResetDate] is as it was. *)
Theorem executeSwap_writes_the_counter_itself :
  forall W Tx (E : Env W Tx) (providers : list (SwapProvider W Tx)) ctx from to amount
         (s : St W),
    (let run := executeSwap E providers ctx from to amount s in
     exists ok, fst run = Ok ok /\
       dailyTxCount (snd run) = dailyTxCount s + (if ok then 1 else 0) /\
       lastResetDate (snd run) = lastResetDate s /\
       List.length (succeeded (new_events s (snd run))) = (if ok then 1 else 0)%nat) /\
    (let run := trade E providers ctx s in
     dailyTxCount (snd run)
       = dailyTxCount s + Z.of_nat (List.length (succeeded (new_events s (snd run)))) /\
     lastResetDate (snd run) = lastResetDate s).
Proof.
  intros W Tx E providers ctx from to amount s. split; cbv zeta.
  - destruct (executeSwap_spec E providers ctx from to amount s)
      as (ok & s' & new & Hrun & Htr & Hd & Hc & Hshape & _).
    exists ok. rewrite Hrun. cbn [fst snd]. rewrite (new_events_app _ _ _ Htr).
    repeat split; try assumption.
    eapply chain_shape_succeeded; exact Hshape.
  - destruct (trade_spec E providers ctx s) as (r & s' & new & Hrun & Htr & Hd & Hc & _).
    rewrite Hrun. cbn [snd]. rewrite (new_events_app _ _ _ Htr). split; assumption.
Qed.

(** C5, counterexample. One successful swap on the bot just built: the
    counter was 0 before [executeSwap] and is 1 after it. *)
Lemma executeSwap_increments_the_counter :
  ~ leaves_session_untouched Script.env Script.providers Script.alice
      MINTS.SOL MINTS.mSOL 0.0005%float (Script.fresh Script.morning [] []).
Proof.
  intros [H _]. vm_compute in H. discriminate H.
Qed.
(** C6 (as amended). The window is looked at once per round, at its start: a
    round that starts with the hour outside [8, 24) makes no swap attempt at
    all, prints the rest line, waits ten minutes and ends, the counter as the
    look at the date left it. (Inside a round that started in the window the
    hour is not looked at again.) *)
Theorem closed_window_round_makes_no_attempt :
  forall W Tx (E : Env W Tx) (providers : list (SwapProvider W Tx))
         (wallets : list WalletContext) (s : St W),
    in_window (Date_now E (world s)) = false ->
    let run := round E providers wallets s in
    let new := new_events s (snd run) in
    fst run = Ok tt /\ attempt_times new = [] /\ swaps new = [] /\
    sleeps new = [600000] /\ dailyTxCount (snd run) = count_after_reset E s.
Proof.
  intros W Tx E providers wallets s Hout run new. subst new run.
  destruct (round_spec E providers wallets s)
    as (r & s' & new & Hrun & Htr & _ & Hc & Hcase).
  rewrite Hout in Hcase. cbn [andb] in Hcase.
  destruct Hcase as (Hr & Ha & Hsw & Hsu & Hsl).
  rewrite Hrun. cbn [fst snd]. rewrite (new_events_app _ _ _ Htr).
  rewrite Hsl, timer_delay_ten_minutes. repeat split; try assumption.
  rewrite Hc, Hsu. simpl. lia.
Qed.

(** C6, witness: the round that starts at 03:00, with two identities. *)
Lemma closed_window_round_at_three_am :
  let s := Script.fresh Script.three_am [] [] in
  let run := round Script.env Script.providers [Script.alice; Script.bob] s in
  in_window (Date_now Script.env (world s)) = false /\
  fst run = Ok tt /\ attempt_times (new_events s (snd run)) = [] /\
  swaps (new_events s (snd run)) = [] /\ sleeps (new_events s (snd run)) = [600000] /\
  dailyTxCount (snd run) = count_after_reset Script.env s.
Proof.
  cbv zeta. split; [reflexivity|].
  apply (closed_window_round_makes_no_attempt Script.World string Script.env
           Script.providers [Script.alice; Script.bob]
           (Script.fresh Script.three_am [] [])).
  reflexivity.
Defined.

(** C6, counterexample. The bot starts at 23:59 with one identity: the round
    passes the window check, the forward swap goes through, and after the
    dwell of two minutes the hedge swap is attempted at 00:01. *)
Lemma hedge_attempted_after_midnight :
  ~ attempts_inside_window
      (trace (snd (start Script.env 1 Script.providers [Script.alice]
                     (Script.fresh Script.before_midnight [] [])))).
Proof.
  unfold attempts_inside_window. rewrite Forall_forall. intro H.
  assert (Hin : In 1728057660000
                  (attempt_times
                     (trace (snd (start Script.env 1 Script.providers [Script.alice]
                                    (Script.fresh Script.before_midnight [] []))))))
    by (vm_compute; tauto).
  apply H in Hin. vm_compute in Hin. discriminate Hin.
Qed.

(** C7. When the forward swap of an identity's turn returns [true], the
    turn makes exactly one more swap: the same wallet, the two assets
    swapped, and as amount the product (in binary64, as the code computes
    it) of the forward amount by 0.995. *)
Theorem hedge_is_0995_of_the_forward_amount :
  forall W Tx (E : Env W Tx) (providers : list (SwapProvider W Tx)) wallet (s : St W)
         target amount w2 sf,
    plan E s = (Some target, amount, w2) ->
    executeSwap E providers wallet MINTS.SOL (mint target) amount
      (forward_state E wallet s target amount w2) = (Ok true, sf) ->
    swaps (new_events s (snd (trade E providers wallet s)))
    = [(label wallet, MINTS.SOL, mint target, amount);
       (label wallet, mint target, MINTS.SOL, (amount * 0.995)%float)].
Proof.
  intros W Tx E providers wallet s target amount w2 sf Hplan Hfwd.
  pose proof (trade_legs E providers wallet s target amount w2 Hplan) as H.
  cbv zeta in H. rewrite Hfwd in H.
  destruct (executeSwap E providers wallet (mint target) MINTS.SOL (amount * 0.995)%float
              (hedge_state E wallet sf)) as [[hedged|t] sh]; [|contradiction].
  apply H.
Qed.

(** C7, witness: the first turn of a bot just built, every call resolving. *)
Lemma hedge_of_the_first_turn :
  let s := Script.fresh Script.morning [] [] in
  let target := mkMint MINTS.JitoSOL "JitoSOL" in
  let w2 := Script.mkWorld Script.morning [] [] in
  let sf := snd (executeSwap Script.env Script.providers Script.alice MINTS.SOL
                   (mint target) 0.0001%float
                   (forward_state Script.env Script.alice s target 0.0001%float w2)) in
  plan Script.env s = (Some target, 0.0001%float, w2) /\
  executeSwap Script.env Script.providers Script.alice MINTS.SOL (mint target) 0.0001%float
    (forward_state Script.env Script.alice s target 0.0001%float w2) = (Ok true, sf) /\
  swaps (new_events s (snd (trade Script.env Script.providers Script.alice s)))
  = [(label Script.alice, MINTS.SOL, mint target, 0.0001%float);
     (label Script.alice, mint target, MINTS.SOL, (0.0001 * 0.995)%float)].
Proof.
  cbv zeta.
  assert (H1 : plan Script.env (Script.fresh Script.morning [] [])
               = (Some (mkMint MINTS.JitoSOL "JitoSOL"), 0.0001%float,
                  Script.mkWorld Script.morning [] []))
    by (vm_compute; reflexivity).
  split; [exact H1|].
  match goal with |- ?A /\ _ => assert (H2 : A) by (vm_compute; reflexivity) end.
  split; [exact H2|].
  exact (hedge_is_0995_of_the_forward_amount _ _ _ _ _ _ _ _ _ _ H1 H2).
Defined.

(** C8. An identity's turn, leg by leg. If the forward swap returns [false]
    the turn makes no other swap. If it returns [true] the hedge swap is made
    once; whatever the hedge returns, the turn makes no further swap and
    keeps nothing of the outcome but the counter. In both cases the turn
    ends normally, and the loop goes on with the next identity from the
    state the turn left: a loop over the identities that ends normally has
    made the forward swap of each of them, in order. (A turn is cut short
    only when the index drawn misses the table of targets, before any
    swap.) *)
Theorem hedge_leg_is_best_effort :
  forall W Tx (E : Env W Tx) (providers : list (SwapProvider W Tx)) wallet rest (s : St W),
    let run := trade E providers wallet s in
    let new := new_events s (snd run) in
    (let '(target, amount, w2) := plan E s in
     match target with
     | None => fst run = Throw (ThrowError (TypeError "undefined")) /\ swaps new = []
     | Some target =>
         let forward := (label wallet, MINTS.SOL, mint target, amount) in
         let hedge := (label wallet, mint target, MINTS.SOL, (amount * 0.995)%float) in
         match executeSwap E providers wallet MINTS.SOL (mint target) amount
                 (forward_state E wallet s target amount w2) with
         | (Ok false, _) =>
             fst run = Ok tt /\ swaps new = [forward] /\
             dailyTxCount (snd run) = dailyTxCount s
         | (Ok true, sf) =>
             match executeSwap E providers wallet (mint target) MINTS.SOL
                     (amount * 0.995)%float (hedge_state E wallet sf) with
             | (Ok hedged, _) =>
                 fst run = Ok tt /\ swaps new = [forward; hedge] /\
                 dailyTxCount (snd run) = dailyTxCount s + 1 + (if hedged then 1 else 0)
             | (Throw _, _) => False
             end
         | (Throw _, _) => False
         end
     end) /\
    (fst run = Ok tt ->
     for_each (wallet :: rest) (trade E providers) s
     = for_each rest (trade E providers) (snd run)) /\
    (fst (for_each (wallet :: rest) (trade E providers) s) = Ok tt ->
     forward_wallets
       (new_events s (snd (for_each (wallet :: rest) (trade E providers) s)))
     = map label (wallet :: rest)).
Proof.
  intros W Tx E providers wallet rest s run new. split; [|split].
  - destruct (plan E s) as [[[target|] amount] w2] eqn:Hplan.
    + pose proof (trade_legs E providers wallet s target amount w2 Hplan) as H.
      cbv zeta in H. subst new run.
      destruct (executeSwap E providers wallet MINTS.SOL (mint target) amount
                  (forward_state E wallet s target amount w2)) as [[[|]|t] sf];
        [|destruct H as (H1 & H2 & H3 & _); repeat split; assumption|exact H].
      destruct (executeSwap E providers wallet (mint target) MINTS.SOL
                  (amount * 0.995)%float (hedge_state E wallet sf)) as [[hedged|t] sh];
        [destruct H as (H1 & H2 & H3 & _); repeat split; assumption|exact H].
    + subst new run. unfold plan in Hplan. unfold trade, bind, random.
      destruct (Math_random E (world s)) as [r1 w1]. cbn [world].
      destruct (Math_random E w1) as [r2 w2'].
      set (amt := Number_toFixed6 (r2 * (0.001 - 0.0001) + 0.0001)%float) in *.
      clearbody amt. inversion Hplan as [[Htarget Hamount Hw]]. rewrite Htarget.
      unfold throw. cbn [fst snd]. split; [reflexivity|].
      rewrite (new_events_app _ _ []); [reflexivity|].
      cbn [trace]. rewrite app_nil_r. reflexivity.
  - subst run. intro Hok. cbn [for_each]. unfold bind.
    destruct (trade E providers wallet s) as [[[]|t] s']; [reflexivity|discriminate Hok].
  - destruct (for_each_trade_spec E providers (wallet :: rest) s)
      as (r & s' & ev & Hrun & Htr & _ & _ & _ & Hfw).
    rewrite Hrun. cbn [fst snd]. rewrite (new_events_app _ _ _ Htr). exact Hfw.
Qed.


(** C10. The cap is looked at once per round, after the look at the date: a
    round that finds the count at 120 or more makes no swap and leaves it
    there; a round that finds it below 120 runs every identity, each success
    of either leg adding one, so it can end anywhere up to two per identity
    above the count it started from. From 119 with two identities and every
    call resolving, the round makes four swaps and ends at 123. *)
Theorem cap_is_checked_at_round_start_only :
  (forall W Tx (E : Env W Tx) (providers : list (SwapProvider W Tx))
          (wallets : list WalletContext) (s : St W),
     let run := round E providers wallets s in
     let new := new_events s (snd run) in
     let c0 := count_after_reset E s in
     (120 <= c0 -> dailyTxCount (snd run) = c0 /\ swaps new = []) /\
     dailyTxCount (snd run) = c0 + Z.of_nat (List.length (succeeded new)) /\
     dailyTxCount (snd run) <= c0 + 2 * Z.of_nat (List.length wallets)) /\
  (let run := round Script.env Script.providers [Script.alice; Script.bob]
                Script.one_below_cap in
   count_after_reset Script.env Script.one_below_cap = 119 /\
   fst run = Ok tt /\
   List.length (swaps (new_events Script.one_below_cap (snd run))) = 4%nat /\
   dailyTxCount (snd run) = 123).
Proof.
  split; [|vm_compute; repeat split; reflexivity].
  intros W Tx E providers wallets s run new c0. subst new run.
  destruct (round_spec E providers wallets s)
    as (r & s' & new & Hrun & Htr & _ & Hc & Hcase).
  fold c0 in Hc, Hcase.
  rewrite Hrun. cbn [snd]. rewrite (new_events_app _ _ _ Htr).
  split; [|split; [exact Hc|]].
  - intro Hcap.
    replace (c0 <? 120) with false in Hcase by (symmetry; apply Z.ltb_ge; exact Hcap).
    rewrite andb_false_r in Hcase. destruct Hcase as (_ & _ & Hsw & Hsu & _).
    split; [rewrite Hc, Hsu; simpl; lia|exact Hsw].
  - destruct (in_window (Date_now E (world s)) && (c0 <? 120))%bool.
    + rewrite Hc. clearbody c0. apply Nat2Z.inj_le in Hcase.
      rewrite Nat2Z.inj_mul in Hcase. change (Z.of_nat 2) with 2 in Hcase.
      apply Z.add_le_mono_l. exact Hcase.
    + destruct Hcase as (_ & _ & _ & Hsu & _). rewrite Hc, Hsu.
      change (Z.of_nat (List.length (@nil string))) with 0.
      pose proof (Nat2Z.is_nonneg (List.length wallets)). clearbody c0. lia.
Qed.

(** * More of the code *)

(** ** Availability *)

Lemma OKX_available_iff (process_env : string -> option string) :
  OKX_available process_env = true <->
  forall k, In k OKX_variables ->
    exists v, process_env k = Some v /\ v <> ""%string.
Proof.
  unfold OKX_available, env_set, OKX_variables. split.
  - intros H k Hk. apply andb_true_iff in H. destruct H as [H H3].
    apply andb_true_iff in H. destruct H as [H1 H2].
    destruct Hk as [Hk|[Hk|[Hk|[]]]]; subst k;
      [destruct (process_env "OKX_API_KEY"%string) as [v|]
      |destruct (process_env "OKX_SECRET_KEY"%string) as [v|]
      |destruct (process_env "OKX_PASSPHRASE"%string) as [v|]];
      try discriminate; exists v; (split; [reflexivity|]); intro Hv; subst v;
      discriminate.
  - intro H.
    destruct (H "OKX_API_KEY"%string) as (v1 & H1 & N1); [simpl; tauto|].
    destruct (H "OKX_SECRET_KEY"%string) as (v2 & H2 & N2); [simpl; tauto|].
    destruct (H "OKX_PASSPHRASE"%string) as (v3 & H3 & N3); [simpl; tauto|].
    rewrite H1, H2, H3.
    apply String.eqb_neq in N1, N2, N3. rewrite N1, N2, N3. reflexivity.
Qed.

(** X1. A swap request only ever asks providers that are in the list and
    available. When one of the three OKX variables is unset or empty, the
    OKX DEX provider is not available: no swap request of the bot asks it,
    the line the constructor prints lists the three others, and a direct
    call of its [getSwap] rejects with its own error without any exchange
    (the world is the one it was given). *)
Theorem unconfigured_OKX_is_never_asked :
  forall W Tx (E : Env W Tx) process_env k,
    In k OKX_variables ->
    process_env k = None \/ process_env k = Some ""%string ->
    (forall (providers : list (SwapProvider W Tx)) ctx from to amount (s : St W) n,
       In n (invoked (new_events s (snd (executeSwap E providers ctx from to amount s)))) ->
       exists p, In p providers /\ available p = true /\ name p = n) /\
    (forall ctx from to amount (s : St W),
       ~ In "OKX DEX"%string
           (invoked (new_events s
              (snd (executeSwap E (bot_providers E process_env) ctx from to amount s))))) /\
    (forall w, map snd (trace (construct E process_env w))
               = [EvLog (LogChannels ["DFlow"; "Raydium"; "Jupiter"]%string)]) /\
    (forall from to amountLamports signer a w,
       getSwap (OKXDexProvider E process_env) from to amountLamports signer a w
       = (inl (new_Error "OKX DEX 未配置 API Key"), w)).
Proof.
  intros W Tx E process_env k Hk Hunset.
  assert (Hoff : OKX_available process_env = false).
  { destruct (OKX_available process_env) eqn:Hon; [|reflexivity].
    destruct (proj1 (OKX_available_iff process_env) Hon k Hk) as (v & Hv & Hne).
    destruct Hunset as [Hu|Hu]; rewrite Hu in Hv; [discriminate|].
    inversion Hv. subst v. contradiction. }
  assert (Hgen : forall (providers : list (SwapProvider W Tx)) ctx from to amount (s : St W) n,
       In n (invoked (new_events s (snd (executeSwap E providers ctx from to amount s)))) ->
       In n (map name (filter available providers))).
  { intros providers ctx from to amount s n Hin.
    destruct (executeSwap_spec E providers ctx from to amount s)
      as (ok & s' & new & Hrun & Htr & _ & _ & Hshape & _).
    rewrite Hrun in Hin. cbn [snd] in Hin. rewrite (new_events_app _ _ _ Htr) in Hin.
    destruct Hshape as (pre & _ & _ & [(_ & p & post & r & w & w' & Hfil & Hinv & _)
                                      |(_ & Hfil & Hinv & _)]).
    - rewrite Hinv in Hin. rewrite Hfil, map_app. apply in_app_or in Hin.
      apply in_or_app. destruct Hin as [Hin|[Hin|[]]]; [left; exact Hin|].
      right. left. exact Hin.
    - rewrite Hinv in Hin. rewrite Hfil. exact Hin. }
  split; [|split; [|split]].
  - intros providers ctx from to amount s n Hin.
    apply Hgen in Hin. apply in_map_iff in Hin. destruct Hin as (p & Hn & Hp).
    apply filter_In in Hp. exists p. tauto.
  - intros ctx from to amount s Hin. apply Hgen in Hin.
    unfold bot_providers in Hin. cbn [filter available DFlowProvider RaydiumProvider
      JupiterProvider OKXDexProvider] in Hin. rewrite Hoff in Hin.
    cbn [map name] in Hin.
    destruct Hin as [H|[H|[H|[]]]]; discriminate H.
  - intro w. unfold construct, bot_providers.
    cbn [filter available DFlowProvider RaydiumProvider JupiterProvider OKXDexProvider
         trace map snd]. rewrite Hoff. reflexivity.
  - intros from to amountLamports signer a w.
    unfold OKXDexProvider. cbn [getSwap]. unfold OKX_getSwap. rewrite Hoff. reflexivity.
Qed.

(** X1, witness: no variable is set at all. *)
Lemma OKX_is_never_asked_without_variables :
  In "OKX_SECRET_KEY"%string OKX_variables /\
  (Script.no_env "OKX_SECRET_KEY"%string = None \/
   Script.no_env "OKX_SECRET_KEY"%string = Some ""%string) /\
  ~ In "OKX DEX"%string
      (invoked (new_events Script.all_time_out
         (snd (executeSwap Script.env Script.providers Script.alice MINTS.SOL MINTS.mSOL
                 0.0005%float Script.all_time_out)))).
Proof.
  assert (H1 : In "OKX_SECRET_KEY"%string OKX_variables) by (simpl; tauto).
  assert (H2 : Script.no_env "OKX_SECRET_KEY"%string = None \/
               Script.no_env "OKX_SECRET_KEY"%string = Some ""%string)
    by (left; reflexivity).
  split; [exact H1|]. split; [exact H2|].
  exact (proj1 (proj2 (unconfigured_OKX_is_never_asked Script.World string Script.env
                         Script.no_env _ H1 H2))
           Script.alice MINTS.SOL MINTS.mSOL 0.0005%float Script.all_time_out).
Defined.

(** ** The window and the day *)





(** ** The loop, round after round *)

Section Loop.

Context {W Tx : Type} (E : Env W Tx).
Variable providers : list (SwapProvider W Tx).

Lemma success_counts_app a b :
  success_counts (a ++ b) = success_counts a ++ success_counts b.
Proof. apply pick_app. Qed.

Lemma broadcasts_app a b : broadcasts (a ++ b) = broadcasts a ++ broadcasts b.
Proof. apply pick_app. Qed.

(** A round, by the case it falls in. *)
Lemma round_unfold (wallets : list WalletContext) (s : St W) :
  round E providers wallets s =
  let s1 := snd (resetDailyCounter E s) in
  if in_window (Date_now E (world s)) then
    if 120 <=? dailyTxCount s1 then (Ok tt, closing E (LogCap (dailyTxCount s1)) s1)
    else
      match shuffle E wallets s1 with
      | (Ok shuffled, s2) =>
          match for_each shuffled (trade E providers) s2 with
          | (Ok _, s3) => (Ok tt, ending E s3)
          | (Throw t, s3) => (Throw t, s3)
          end
      | (Throw t, s2) => (Throw t, s2)
      end
  else (Ok tt, closing E LogRest s1).
Proof.
  unfold round, bind. rewrite resetDailyCounter_spec. cbn [snd]. cbv zeta.
  set (s1 := if IsoDate_eqb _ _ then s else _).
  assert (Hw1 : world s1 = world s) by (subst s1; destruct (IsoDate_eqb _ _); reflexivity).
  clearbody s1. rewrite isWorkTime_spec, Hw1.
  destruct (in_window (Date_now E (world s))); cbn [negb].
  - unfold get_dailyTxCount at 1.
    destruct (120 <=? dailyTxCount s1); [reflexivity|].
    destruct (shuffle E wallets s1) as [[shuffled|t] s2]; [|reflexivity].
    destruct (for_each shuffled (trade E providers) s2) as [[[]|t] s3]; [|reflexivity].
    unfold random, ending. destruct (Math_random E (world s3)) as [r w]. reflexivity.
  - reflexivity.
Qed.

Lemma resetDailyCounter_frame (s : St W) :
  let s1 := snd (resetDailyCounter E s) in
  world s1 = world s /\
  exists new, trace s1 = trace s ++ new /\ swaps new = [] /\ invoked new = [] /\
              sleeps new = [] /\ succeeded new = [] /\ success_counts new = [].
Proof.
  cbv zeta. rewrite resetDailyCounter_spec. cbn [snd].
  destruct (IsoDate_eqb _ _).
  - split; [reflexivity|]. exists []. rewrite app_nil_r. repeat split.
  - split; [reflexivity|]. eexists. split; [reflexivity|]. repeat split.
Qed.

(** The loop over the identities ends normally or on the error of a missing
    target, and each turn that ends waits at least once. *)
Lemma for_each_trade_outcome (items : list WalletContext) : forall s : St W,
  exists r s' new,
    for_each items (trade E providers) s = (r, s') /\
    trace s' = trace s ++ new /\
    (r = Ok tt \/ r = Throw (ThrowError (TypeError "undefined"))) /\
    (r = Ok tt -> (List.length items <= List.length (sleeps new))%nat).
Proof.
  induction items as [|wallet rest IH]; intro s.
  - exists (Ok tt), s, []. rewrite app_nil_r. repeat split; auto.
  - cbn [for_each]. unfold bind.
    destruct (trade_spec E providers wallet s)
      as (r1 & s1 & new1 & Hrun1 & Ht1 & _ & _ & Hcase).
    rewrite Hrun1.
    destruct Hcase as [(Hr & Hn)|(Hr & target & amount & sf & sf' & ok & _ & _ & Hok)];
      subst r1.
    + exists (Throw (ThrowError (TypeError "undefined"))), s1, new1.
      repeat split; auto. discriminate.
    + destruct (IH s1) as (r & s2 & new2 & Hrun2 & Ht2 & Hr2 & Hsl2).
      exists r, s2, (new1 ++ new2). split; [exact Hrun2|].
      split; [rewrite Ht2, Ht1; trace_eq|]. split; [exact Hr2|].
      intro Hr. specialize (Hsl2 Hr). rewrite sleeps_app, length_app. cbn [List.length].
      assert (1 <= List.length (sleeps new1))%nat.
      { destruct ok.
        - destruct Hok as (sh & sh' & h & _ & _ & _ & _ & Hs). rewrite Hs. lia.
        - destruct Hok as (_ & _ & _ & Hs). rewrite Hs. lia. }
      lia.
Qed.

(** What every round is: it ends normally after a wait, or it is cut by the
    error of a missing target. *)
Lemma round_outcome (wallets : list WalletContext) (s : St W) :
  exists r s' new,
    round E providers wallets s = (r, s') /\
    trace s' = trace s ++ new /\
    (r = Throw (ThrowError (TypeError "undefined")) \/
     r = Ok tt /\ ends_with_sleep new /\ (1 <= List.length (sleeps new))%nat /\
     (in_window (Date_now E (world s)) = true ->
      count_after_reset E s < 120 ->
      (List.length wallets + 1 <= List.length (sleeps new))%nat)).
Proof.
  rewrite round_unfold. cbv zeta.
  destruct (resetDailyCounter_frame s) as (Hw1 & new1 & Ht1 & _ & _ & Hsl1 & _).
  assert (Hc1 : dailyTxCount (snd (resetDailyCounter E s)) = count_after_reset E s).
  { rewrite resetDailyCounter_spec. cbn [snd]. unfold count_after_reset.
    destruct (IsoDate_eqb _ _); reflexivity. }
  set (s1 := snd (resetDailyCounter E s)) in *. clearbody s1.
  assert (Hclosing : forall line,
             exists new, trace (closing E line s1) = trace s ++ new /\
                         ends_with_sleep new /\ (1 <= List.length (sleeps new))%nat).
  { intro line. eexists. split; [unfold closing; cbn [trace]; rewrite Ht1; trace_eq|].
    split.
    - eexists (new1 ++ [_]), _, _. rewrite <- app_assoc. reflexivity.
    - rewrite !sleeps_app, !length_app. cbn. lia. }
  destruct (in_window (Date_now E (world s))) eqn:Hwin.
  - destruct (Z.leb_spec 120 (dailyTxCount s1)) as [Hcap|Hcap].
    + destruct (Hclosing (LogCap (dailyTxCount s1))) as (new & Ht & He & Hl).
      exists (Ok tt), (closing E (LogCap (dailyTxCount s1)) s1), new.
      split; [reflexivity|]. split; [exact Ht|]. right.
      repeat split; try assumption. intros _ Hlow. rewrite Hc1 in Hcap. lia.
    + destruct (shuffle_perm E wallets s1) as (shuffled & s2 & Hsh & Hperm & Htr2 & _).
      rewrite Hsh.
      destruct (for_each_trade_outcome shuffled s2) as (r3 & s3 & new3 & Hrun3 & Ht3 & Hr3 & Hsl3).
      rewrite Hrun3. destruct Hr3 as [Hr3|Hr3]; subst r3.
      * exists (Ok tt), (ending E s3). unfold ending.
        destruct (Math_random E (world s3)) as [r w]. cbn [trace].
        eexists. split; [reflexivity|].
        split; [rewrite Ht3, Htr2, Ht1; trace_eq|]. right.
        split; [reflexivity|]. split.
        { eexists (new1 ++ new3 ++ [_]), _, _. rewrite <- !app_assoc. reflexivity. }
        specialize (Hsl3 eq_refl). rewrite (Permutation_length Hperm).
        rewrite !sleeps_app, !length_app. cbn [sleeps pick flat_map snd List.length app].
        split; [lia|]. intros _ _. lia.
      * exists (Throw (ThrowError (TypeError "undefined"))), s3, (new1 ++ new3).
        split; [reflexivity|]. split; [rewrite Ht3, Htr2, Ht1; trace_eq|]. left. reflexivity.
  - destruct (Hclosing LogRest) as (new & Ht & He & Hl).
    exists (Ok tt), (closing E LogRest s1), new.
    split; [reflexivity|]. split; [exact Ht|]. right.
    repeat split; try assumption. intro Hc. discriminate Hc.
Qed.

Lemma rounds_S (n : nat) (wallets : list WalletContext) (s : St W) :
  rounds E (S n) providers wallets s =
  match round E providers wallets s with
  | (Ok _, s') => rounds E n providers wallets s'
  | (Throw t, s') => (Throw t, s')
  end.
Proof.
  cbn [rounds]. unfold bind.
  destruct (round E providers wallets s) as [[[]|t] s']; reflexivity.
Qed.

(** [n] turns of the loop end normally after at least [n] waits, or are cut
    by the error of a missing target. *)
Lemma rounds_outcome (wallets : list WalletContext) (n : nat) : forall s : St W,
  exists r s' new,
    rounds E n providers wallets s = (r, s') /\
    trace s' = trace s ++ new /\
    (r = Throw (ThrowError (TypeError "undefined")) \/
     r = Ok tt /\ (n <= List.length (sleeps new))%nat).
Proof.
  induction n as [|n IH]; intro s.
  - exists (Ok tt), s, []. rewrite app_nil_r. split; [reflexivity|].
    split; [reflexivity|]. right. split; [reflexivity|]. simpl. lia.
  - rewrite rounds_S.
    destruct (round_outcome wallets s) as (r1 & s1 & new1 & Hrun1 & Ht1 & Hcase).
    rewrite Hrun1. destruct Hcase as [Hr|(Hr & _ & Hsl & _)]; subst r1.
    + exists (Throw (ThrowError (TypeError "undefined"))), s1, new1.
      split; [reflexivity|]. split; [exact Ht1|]. left. reflexivity.
    + destruct (IH s1) as (r & s2 & new2 & Hrun2 & Ht2 & Hcase2).
      exists r, s2, (new1 ++ new2). split; [exact Hrun2|].
      split; [rewrite Ht2, Ht1; trace_eq|].
      destruct Hcase2 as [Hr|(Hr & Hsl2)]; [left; exact Hr|right].
      split; [exact Hr|]. rewrite sleeps_app, length_app. lia.
Qed.

(** The counter over the rounds. *)
Lemma rounds_count_bound (wallets : list WalletContext) (n : nat) : forall s : St W,
  0 <= dailyTxCount s <= 119 + 2 * Z.of_nat (List.length wallets) ->
  0 <= dailyTxCount (snd (rounds E n providers wallets s))
    <= 119 + 2 * Z.of_nat (List.length wallets).
Proof.
  induction n as [|n IH]; intros s Hs.
  - exact Hs.
  - rewrite rounds_S.
    destruct (round_spec E providers wallets s)
      as (r1 & s1 & new1 & Hrun1 & _ & _ & Hc & Hcase).
    rewrite Hrun1.
    assert (Hc0 : 0 <= count_after_reset E s <= 119 + 2 * Z.of_nat (List.length wallets)).
    { unfold count_after_reset. destruct (IsoDate_eqb _ _); lia. }
    assert (Hs1 : 0 <= dailyTxCount s1 <= 119 + 2 * Z.of_nat (List.length wallets)).
    { rewrite Hc.
      destruct (in_window (Date_now E (world s))); cbn [andb] in Hcase.
      - destruct (Z.ltb_spec (count_after_reset E s) 120) as [Hlow|Hhigh].
        + apply Nat2Z.inj_le in Hcase. rewrite Nat2Z.inj_mul in Hcase.
          change (Z.of_nat 2) with 2 in Hcase. lia.
        + destruct Hcase as (_ & _ & _ & Hsu & _). rewrite Hsu.
          change (Z.of_nat (List.length (@nil string))) with 0. lia.
      - destruct Hcase as (_ & _ & _ & Hsu & _). rewrite Hsu.
        change (Z.of_nat (List.length (@nil string))) with 0. lia. }
    destruct r1 as [[]|t]; [apply IH; exact Hs1|exact Hs1].
Qed.

End Loop.

(** X4. Nothing a provider, a signature or a broadcast does can stop the
    loop: whatever number of turns it is cut after, [start] has either ended
    all of them normally or been stopped by the one error the loop itself can
    raise, reading the name of a target that the index drawn did not find. *)
Theorem start_survives_every_swap_failure :
  forall W Tx (E : Env W Tx) (providers : list (SwapProvider W Tx))
         (wallets : list WalletContext) (n : nat) (s : St W),
    fst (start E n providers wallets s) = Ok tt \/
    fst (start E n providers wallets s) = Throw (ThrowError (TypeError "undefined")).
Proof.
  intros W Tx E providers wallets n s. unfold start, bind, console_log, emit.
  cbv beta iota.
  match goal with
  | |- context [rounds E n providers wallets ?s0] =>
      destruct (rounds_outcome E providers wallets n s0) as (r & s' & new & Hrun & _ & Hcase)
  end.
  rewrite Hrun. cbn [fst]. destruct Hcase as [Hr|(Hr & _)]; auto.
Qed.

(** X5. From the bot as the constructor leaves it, the counter stays between
    0 and 119 plus two per identity, after any number of turns of the
    loop. *)
Theorem dailyTxCount_stays_within_cap_and_one_round :
  forall W Tx (E : Env W Tx) process_env (wallets : list WalletContext) (n : nat) (w : W),
    let s' := snd (start E n (bot_providers E process_env) wallets
                     (construct E process_env w)) in
    0 <= dailyTxCount s' <= 119 + 2 * Z.of_nat (List.length wallets).
Proof.
  intros W Tx E process_env wallets n w. cbv zeta.
  unfold start, bind, console_log, emit. cbv beta iota.
  apply rounds_count_bound. cbn [dailyTxCount construct]. lia.
Qed.

(** X6. The loop never spins: a turn that ends normally ends on a timer, at
    least one per turn, and a turn that trades waits at least once per
    identity and once more before the next turn; so [n] turns that end
    normally have waited for at least [n] timers. *)
Theorem every_turn_of_the_loop_waits :
  forall W Tx (E : Env W Tx) (providers : list (SwapProvider W Tx))
         (wallets : list WalletContext) (n : nat) (s : St W),
    (let run := round E providers wallets s in
     fst run = Ok tt ->
     ends_with_sleep (new_events s (snd run)) /\
     (in_window (Date_now E (world s)) = true -> count_after_reset E s < 120 ->
      (List.length wallets + 1 <= List.length (sleeps (new_events s (snd run))))%nat)) /\
    (let run := rounds E n providers wallets s in
     fst run = Ok tt -> (n <= List.length (sleeps (new_events s (snd run))))%nat).
Proof.
  intros W Tx E providers wallets n s. split; cbv zeta.
  - destruct (round_outcome E providers wallets s) as (r & s' & new & Hrun & Ht & Hcase).
    rewrite Hrun. cbn [fst snd]. rewrite (new_events_app _ _ _ Ht). intro Hr.
    destruct Hcase as [Hthrow|(_ & He & _ & Hn)]; [congruence|]. split; assumption.
  - destruct (rounds_outcome E providers wallets n s) as (r & s' & new & Hrun & Ht & Hcase).
    rewrite Hrun. cbn [fst snd]. rewrite (new_events_app _ _ _ Ht). intro Hr.
    destruct Hcase as [Hthrow|(_ & Hn)]; [congruence|exact Hn].
Qed.

(** ** More on [fetchWithRetry] and the single-provider [executeSwap] *)

Lemma interactions_app a b : interactions (a ++ b) = interactions a ++ interactions b.
Proof. apply pick_app. Qed.

Lemma final_failures_app a b :
  final_failures (a ++ b) = final_failures a ++ final_failures b.
Proof. apply pick_app. Qed.

Lemma pick_none {A} (f : Event -> list A) (P : Event -> bool) (tr : list (Z * Event)) :
  (forall ev, P ev = true -> f ev = []) ->
  Forall (fun te => P (snd te) = true) tr -> pick f tr = [].
Proof.
  intros Hf Htr. induction Htr as [|te tr Hte _ IH]; [reflexivity|].
  unfold pick in *. cbn [flat_map]. rewrite (Hf _ Hte), IH. reflexivity.
Qed.

Lemma indices_length (n : nat) : forall i, List.length (indices i n) = n.
Proof. induction n as [|n IH]; intro i; cbn [indices List.length]; [|rewrite IH]; reflexivity. Qed.

Section RetryCeiling.

Context {W Tx : Type} (E : Env W Tx).
Variables (T : Type) (ctx : WalletContext) (operation : IO W T) (maxRetries : Z).

(** The loop never rejects with [undefined] once it has a turn to run, and
    does nothing but call, print retry lines and wait. *)
Lemma retry_from_outcome (k : nat) : forall (i : Z) (last : Thrown) (s : St W),
  (k = 0%nat -> last <> ThrowUndefined) ->
  exists r s' new,
    SingleProtocol.retry_from E ctx operation maxRetries k i last s = (r, s') /\
    trace s' = trace s ++ new /\
    dailyTxCount s' = dailyTxCount s /\ lastResetDate s' = lastResetDate s /\
    (List.length (operations new) <= k)%nat /\
    (List.length (sleeps new) <= List.length (operations new))%nat /\
    Forall (fun te => retry_event (snd te) = true) new /\
    ((exists v, r = Ok v) \/ (exists e, r = Throw (ThrowError e))).
Proof.
  induction k as [|k IH]; intros i last s Hlast.
  - exists (Throw last), s, []. rewrite app_nil_r.
    repeat split; try reflexivity; try (simpl; lia); [constructor|].
    right. destruct last as [|e]; [exfalso; apply Hlast; reflexivity|].
    exists e. reflexivity.
  - rewrite retry_from_S. cbv zeta.
    destruct (operation (world s)) as [[e|v] w1].
    + destruct (is_network_error (toLowerCase (message e))).
      * match goal with
        | |- context [SingleProtocol.retry_from E ctx operation maxRetries k ?i' ?l ?s1] =>
            destruct (IH i' l s1 ltac:(intros _; discriminate))
              as (r & s' & new & Hrun & Htr & Hc & Hd & Hops & Hsl & Hev & Hr)
        end.
        exists r, s'. eexists. split; [exact Hrun|].
        split; [rewrite Htr; cbn [trace]; trace_eq|].
        split; [exact Hc|]. split; [exact Hd|].
        split_trace. rewrite !length_app. cbn [operations sleeps pick flat_map snd app List.length].
        split; [lia|]. split; [lia|]. split; [|exact Hr].
        repeat (apply Forall_cons; [reflexivity|]). exact Hev.
      * do 2 eexists. eexists. split; [reflexivity|]. split; [cbn [trace]; trace_eq|].
        repeat split; try (simpl; lia).
        -- repeat constructor.
        -- right. exists e. reflexivity.
    + do 2 eexists. eexists. split; [reflexivity|]. split; [cbn [trace]; trace_eq|].
      repeat split; try (simpl; lia).
      * repeat constructor.
      * left. exists v. reflexivity.
Qed.

(** When every call fails with a network error, every turn is used, and
    each is followed by its wait. *)
Lemma retry_from_exhausted (k : nat) : forall (i : Z) (last : Thrown) (s : St W),
  (forall w, exists e w', operation w = (inl e, w') /\
                          is_network_error (toLowerCase (message e)) = true) ->
  exists r s' new,
    SingleProtocol.retry_from E ctx operation maxRetries k i last s = (r, s') /\
    trace s' = trace s ++ new /\
    operations new = indices i k /\
    sleeps new = map backoff (indices i k) /\
    (k = 0%nat /\ r = Throw last \/
     exists e, r = Throw (ThrowError e) /\
               is_network_error (toLowerCase (message e)) = true).
Proof.
  induction k as [|k IH]; intros i last s Hop.
  - exists (Throw last), s, []. rewrite app_nil_r.
    repeat split; try reflexivity. left. split; reflexivity.
  - rewrite retry_from_S. cbv zeta.
    destruct (Hop (world s)) as (e & w1 & Hcall & Hnet). rewrite Hcall, Hnet.
    match goal with
    | |- context [SingleProtocol.retry_from E ctx operation maxRetries k ?i' ?l ?s1] =>
        destruct (IH i' l s1 Hop) as (r & s' & new & Hrun & Htr & Hops & Hsl & Hr)
    end.
    exists r, s'. eexists. split; [exact Hrun|].
    split; [rewrite Htr; cbn [trace]; trace_eq|].
    split_trace. rewrite Hops, Hsl. split; [reflexivity|]. split; [reflexivity|].
    right. destruct Hr as [(_ & Hr)|Hr]; [|exact Hr].
    exists e. split; assumption.
Qed.

End RetryCeiling.

(** *** The words looked for *)

Lemma toLowerCase_app (a b : string) :
  toLowerCase (a ++ b) = (toLowerCase a ++ toLowerCase b)%string.
Proof.
  induction a as [|c a IH]; [reflexivity|].
  cbn [String.append toLowerCase]. rewrite IH. reflexivity.
Qed.

Lemma prefix_app (w rest : string) : String.prefix w (w ++ rest) = true.
Proof.
  induction w as [|c w IH]; cbn [String.append String.prefix].
  - destruct rest; reflexivity.
  - destruct (ascii_dec c c) as [_|Hne]; [exact IH|exfalso; apply Hne; reflexivity].
Qed.

Lemma includes_app (pre w post : string) : includes (pre ++ w ++ post) w = true.
Proof.
  induction pre as [|c pre IH].
  - cbn [String.append]. destruct (w ++ post)%string eqn:Heq.
    + cbn [includes]. rewrite <- Heq, prefix_app. reflexivity.
    + cbn [includes]. rewrite <- Heq, prefix_app. reflexivity.
  - cbn [String.append includes]. rewrite IH. apply orb_true_r.
Qed.

Lemma network_word_found (msg word : string) :
  In word network_words -> includes msg word = true -> is_network_error msg = true.
Proof.
  intros Hin Hinc. unfold is_network_error.
  cbn [network_words In] in Hin.
  destruct Hin as [H|[H|[H|[H|[H|[H|[]]]]]]]; subst word; rewrite Hinc;
    rewrite ?orb_true_r; reflexivity.
Qed.

(** *** The single-provider [executeSwap] *)

Section SingleSwap.

Context {W Tx : Type} (E : Env W Tx).
Variable process_env : string -> option string.

Lemma fetchWithRetry_default T (ctx : WalletContext) (operation : IO W T) (s : St W) :
  exists r s' new,
    SingleProtocol.fetchWithRetry E ctx operation SingleProtocol.default_maxRetries s
      = (r, s') /\
    trace s' = trace s ++ new /\
    dailyTxCount s' = dailyTxCount s /\ lastResetDate s' = lastResetDate s /\
    (List.length (operations new) <= 3)%nat /\
    (List.length (sleeps new) <= List.length (operations new))%nat /\
    broadcasts new = [] /\ interactions new = [] /\ final_failures new = [] /\
    ((exists v, r = Ok v) \/ (exists e, r = Throw (ThrowError e))).
Proof.
  unfold SingleProtocol.fetchWithRetry, SingleProtocol.default_maxRetries.
  change (Z.to_nat 3) with 3%nat.
  destruct (retry_from_outcome E T ctx operation 3 3 0 ThrowUndefined s
              ltac:(intro H; discriminate H))
    as (r & s' & new & Hrun & Htr & Hc & Hd & Hops & Hsl & Hev & Hr).
  exists r, s', new. repeat split; try assumption.
  - apply (pick_none _ retry_event); [|exact Hev].
    intros [[]| | | | |]; try discriminate; reflexivity.
  - apply (pick_none _ retry_event); [|exact Hev].
    intros [[]| | | | |]; try discriminate; reflexivity.
  - apply (pick_none _ retry_event); [|exact Hev].
    intros [[]| | | | |]; try discriminate; reflexivity.
Qed.

Lemma single_executeSwap_spec (ctx : WalletContext) (from to : string) (amount : number)
    (s : St W) :
  exists ok s' new,
    SingleProtocol.executeSwap E process_env ctx from to amount s = (Ok ok, s') /\
    trace s' = trace s ++ new /\
    dailyTxCount s' = dailyTxCount s /\ lastResetDate s' = lastResetDate s /\
    (List.length (operations new) <= 6)%nat /\
    (List.length (sleeps new) <= List.length (operations new))%nat /\
    (if ok
     then broadcasts new = [label ctx] /\ List.length (interactions new) = 1%nat /\
          final_failures new = []
     else (List.length (broadcasts new) <= 1)%nat /\ interactions new = [] /\
          List.length (final_failures new) = 1%nat).
Proof.
  unfold SingleProtocol.executeSwap, try_catch.
  match goal with
  | |- context [match ?b s with _ => _ end] => destruct (b s) as [rb sb] eqn:Hbody
  end.
  assert (Hb : exists new,
             trace sb = trace s ++ new /\
             dailyTxCount sb = dailyTxCount s /\ lastResetDate sb = lastResetDate s /\
             (List.length (operations new) <= 6)%nat /\
             (List.length (sleeps new) <= List.length (operations new))%nat /\
             final_failures new = [] /\
             (rb = Ok true /\ broadcasts new = [label ctx] /\
              List.length (interactions new) = 1%nat \/
              (exists e, rb = Throw (ThrowError e)) /\
              (List.length (broadcasts new) <= 1)%nat /\ interactions new = [])).
  { unfold bind at 1 in Hbody. unfold call at 1 in Hbody. unfold random_slippage in Hbody.
    destruct (Math_random E (world s)) as [r0 w0].
    set (s0 := mkSt w0 (dailyTxCount s) (lastResetDate s) (trace s)) in Hbody.
    unfold bind at 1 in Hbody.
    match type of Hbody with
    | context [SingleProtocol.fetchWithRetry E ctx ?op _ s0] =>
        destruct (fetchWithRetry_default Json ctx op s0)
          as (r1 & s1 & new1 & Hrun1 & Ht1 & Hc1 & Hd1 & Hops1 & Hsl1 & Hb1 & Hi1 & Hf1 & Hr1)
    end.
    rewrite Hrun1 in Hbody.
    destruct Hr1 as [(quoteRes & Hr1)|(e & Hr1)]; subst r1.
    2:{ inversion Hbody; subst rb sb. exists new1.
        split; [exact Ht1|]. split; [exact Hc1|]. split; [exact Hd1|].
        split; [lia|]. split; [exact Hsl1|]. split; [exact Hf1|].
        right. split; [exists e; reflexivity|]. rewrite Hb1, Hi1. split; [simpl; lia|reflexivity]. }
    unfold bind at 1 in Hbody.
    match type of Hbody with
    | context [SingleProtocol.fetchWithRetry E ctx ?op _ s1] =>
        destruct (fetchWithRetry_default Json ctx op s1)
          as (r2 & s2 & new2 & Hrun2 & Ht2 & Hc2 & Hd2 & Hops2 & Hsl2 & Hb2 & Hi2 & Hf2 & Hr2)
    end.
    rewrite Hrun2 in Hbody.
    assert (Ht : trace s2 = trace s ++ new1 ++ new2)
      by (rewrite Ht2, Ht1; subst s0; cbn [trace]; trace_eq).
    assert (Hc : dailyTxCount s2 = dailyTxCount s) by (rewrite Hc2, Hc1; reflexivity).
    assert (Hd : lastResetDate s2 = lastResetDate s) by (rewrite Hd2, Hd1; reflexivity).
    assert (Hops : (List.length (operations (new1 ++ new2)) <= 6)%nat)
      by (split_trace; rewrite length_app; lia).
    assert (Hsl : (List.length (sleeps (new1 ++ new2))
                   <= List.length (operations (new1 ++ new2)))%nat)
      by (split_trace; rewrite !length_app; lia).
    assert (Hbr : broadcasts (new1 ++ new2) = [])
      by (rewrite broadcasts_app, Hb1, Hb2; reflexivity).
    assert (Hin : interactions (new1 ++ new2) = [])
      by (rewrite interactions_app, Hi1, Hi2; reflexivity).
    assert (Hff : final_failures (new1 ++ new2) = [])
      by (rewrite final_failures_app, Hf1, Hf2; reflexivity).
    set (new := new1 ++ new2) in *. clearbody new.
    clear Hrun1 Hrun2 Ht1 Ht2 Hc1 Hc2 Hd1 Hd2 Hops1 Hops2 Hsl1 Hsl2 Hb1 Hb2 Hi1 Hi2 Hf1 Hf2.
    destruct Hr2 as [(swapRes & Hr2)|(e & Hr2)]; subst r2.
    2:{ inversion Hbody; subst rb sb. exists new.
        repeat split; try assumption.
        right. split; [exists e; reflexivity|]. rewrite Hbr, Hin.
        split; [simpl; lia|reflexivity]. }
    unfold bind, of_sum, emit, console_log, emit, call, ret, throw in Hbody.
    destruct (field swapRes "swapTransaction") as [e|swapTransaction].
    { inversion Hbody; subst rb sb. exists new. repeat split; try assumption.
      right. split; [exists e; reflexivity|]. rewrite Hbr, Hin.
      split; [simpl; lia|reflexivity]. }
    destruct (deserialize E swapTransaction) as [e|transaction].
    { inversion Hbody; subst rb sb. exists new. repeat split; try assumption.
      right. split; [exists e; reflexivity|]. rewrite Hbr, Hin.
      split; [simpl; lia|reflexivity]. }
    destruct (sign E transaction (keypair ctx)) as [e|tx].
    { inversion Hbody; subst rb sb. exists new. repeat split; try assumption.
      right. split; [exists e; reflexivity|]. rewrite Hbr, Hin.
      split; [simpl; lia|reflexivity]. }
    cbn [world trace dailyTxCount lastResetDate] in Hbody.
    destruct (sendRawTransaction E ctx (serialize E tx) (world s2)) as [[e|txid] w3].
    - inversion Hbody; subst rb sb. eexists.
      split; [cbn [trace]; rewrite Ht; rewrite <- app_assoc; reflexivity|].
      cbn [dailyTxCount lastResetDate].
      split; [exact Hc|]. split; [exact Hd|].
      rewrite operations_app, sleeps_app, final_failures_app, broadcasts_app,
        interactions_app, Hff, Hbr, Hin, !length_app.
      cbn [operations sleeps final_failures broadcasts interactions pick flat_map snd app
           List.length].
      split; [lia|]. split; [lia|]. split; [reflexivity|].
      right. split; [exists e; reflexivity|]. split; [lia|reflexivity].
    - inversion Hbody; subst rb sb. eexists.
      split; [cbn [trace]; rewrite Ht; rewrite <- !app_assoc; reflexivity|].
      cbn [dailyTxCount lastResetDate].
      split; [exact Hc|]. split; [exact Hd|].
      rewrite operations_app, sleeps_app, final_failures_app, broadcasts_app,
        interactions_app, Hff, Hbr, Hin, !length_app.
      cbn [operations sleeps final_failures broadcasts interactions pick flat_map snd app
           List.length].
      split; [lia|]. split; [lia|]. split; [reflexivity|].
      left. repeat split; reflexivity. }
  destruct Hb as (new & Ht & Hc & Hd & Hops & Hsl & Hff & Hcase).
  destruct Hcase as [(Hr & Hbr & Hin)|((e & Hr) & Hbr & Hin)]; subst rb.
  - exists true, sb, new. repeat split; assumption.
  - unfold bind, console_log, emit, ret. eexists false, _, _.
    split; [reflexivity|]. split; [cbn [trace]; rewrite Ht; trace_eq|].
    cbn [dailyTxCount lastResetDate].
    split; [exact Hc|]. split; [exact Hd|].
    rewrite operations_app, sleeps_app, final_failures_app, broadcasts_app,
      interactions_app, Hff, Hin, !length_app.
    cbn [operations sleeps final_failures broadcasts interactions pick flat_map snd app
         List.length].
    repeat split; try lia; reflexivity.
Qed.

End SingleSwap.

(** X7. [fetchWithRetry] under any ceiling: the operation is called at the
    turns 0, 1, ... and never more than [maxRetries] times, each wait follows
    a call, and the counter and the date are not touched. With a ceiling of
    zero or less the operation is never called and the promise rejects with
    [undefined], the initial value of [lastError]; with a positive ceiling it
    never rejects with [undefined]. *)
Theorem fetchWithRetry_respects_any_ceiling :
  forall W Tx (E : Env W Tx) T ctx (operation : IO W T) (maxRetries : Z) (s : St W),
    let run := SingleProtocol.fetchWithRetry E ctx operation maxRetries s in
    let new := new_events s (snd run) in
    (exists n, (Z.of_nat n <= Z.max 0 maxRetries) /\ operations new = indices 0 n /\
               (sleeps new = map backoff (indices 0 (n - 1)) \/
                sleeps new = map backoff (indices 0 n))) /\
    dailyTxCount (snd run) = dailyTxCount s /\
    lastResetDate (snd run) = lastResetDate s /\
    (maxRetries <= 0 -> fst run = Throw ThrowUndefined /\ new = []) /\
    (0 < maxRetries -> fst run <> Throw ThrowUndefined).
Proof.
  intros W Tx E T ctx operation maxRetries s. cbv zeta.
  unfold SingleProtocol.fetchWithRetry.
  destruct (retry_from_spec E T ctx operation maxRetries (Z.to_nat maxRetries) 0
              ThrowUndefined s)
    as (r & s' & new & n & Hrun & Htr & Hc & Hd & Hle & Hops & Hcase).
  rewrite Hrun. cbn [fst snd]. rewrite (new_events_app _ _ _ Htr).
  split; [|split; [exact Hc|split; [exact Hd|split]]].
  - exists n. split; [lia|]. split; [exact Hops|].
    destruct Hcase as [(_ & Hsl & _)|(Hn & Hsl & _)]; [left; exact Hsl|right].
    rewrite Hsl, Hn. reflexivity.
  - intro Hmax. replace (Z.to_nat maxRetries) with 0%nat in Hrun by lia.
    cbn [SingleProtocol.retry_from] in Hrun. unfold throw in Hrun.
    inversion Hrun; subst r s'. split; [reflexivity|].
    apply (app_inv_head (trace s)). rewrite <- Htr, app_nil_r. reflexivity.
  - intro Hmax.
    destruct (retry_from_outcome E T ctx operation maxRetries (Z.to_nat maxRetries) 0
                ThrowUndefined s ltac:(lia))
      as (r' & s'' & new' & Hrun' & _ & _ & _ & _ & _ & _ & Hr).
    rewrite Hrun in Hrun'. inversion Hrun'; subst r' s''.
    destruct Hr as [(v & Hr)|(e & Hr)]; rewrite Hr; discriminate.
Qed.

(** X8. When every call of the operation fails with a network error,
    [fetchWithRetry] uses every turn it has and waits after each of them,
    the last one included: the error is rethrown only after a final wait
    that no call follows. *)
Theorem fetchWithRetry_waits_before_giving_up :
  forall W Tx (E : Env W Tx) T ctx (operation : IO W T) (maxRetries : Z) (s : St W),
    0 < maxRetries ->
    (forall w, exists e w', operation w = (inl e, w') /\
                            is_network_error (toLowerCase (message e)) = true) ->
    let run := SingleProtocol.fetchWithRetry E ctx operation maxRetries s in
    let new := new_events s (snd run) in
    operations new = indices 0 (Z.to_nat maxRetries) /\
    sleeps new = map backoff (indices 0 (Z.to_nat maxRetries)) /\
    List.length (sleeps new) = List.length (operations new) /\
    exists e, fst run = Throw (ThrowError e) /\
              is_network_error (toLowerCase (message e)) = true.
Proof.
  intros W Tx E T ctx operation maxRetries s Hmax Hop. cbv zeta.
  unfold SingleProtocol.fetchWithRetry.
  destruct (retry_from_exhausted E T ctx operation maxRetries (Z.to_nat maxRetries) 0
              ThrowUndefined s Hop)
    as (r & s' & new & Hrun & Htr & Hops & Hsl & Hr).
  rewrite Hrun. cbn [fst snd]. rewrite (new_events_app _ _ _ Htr).
  split; [exact Hops|]. split; [exact Hsl|].
  split; [rewrite Hops, Hsl, length_map; reflexivity|].
  destruct Hr as [(Hk & _)|Hr]; [lia|exact Hr].
Qed.

(** X8, witness: a socket that hangs up every time, under a ceiling of 2:
    two calls, the waits of 2000 and 4000 ms, then the rejection. *)
Lemma fetchWithRetry_on_a_dead_socket :
  let operation : IO Script.World Json := io_throw (new_Error "socket hang up") in
  let s := Script.fresh Script.morning [] [] in
  let run := SingleProtocol.fetchWithRetry Script.env Script.alice operation 2 s in
  operations (new_events s (snd run)) = [0; 1] /\
  sleeps (new_events s (snd run)) = [2000; 4000] /\
  List.length (sleeps (new_events s (snd run)))
    = List.length (operations (new_events s (snd run))) /\
  exists e, fst run = Throw (ThrowError e) /\
            is_network_error (toLowerCase (message e)) = true.
Proof.
  apply (fetchWithRetry_waits_before_giving_up Script.World string Script.env Json
           Script.alice (io_throw (new_Error "socket hang up")) 2
           (Script.fresh Script.morning [] [])).
  - lia.
  - intro w. exists (new_Error "socket hang up"), w. split; reflexivity.
Defined.

(** X9. The test of [fetchWithRetry] is a search for a word anywhere in the
    message, whatever the case of its letters: a message in which one of the
    six words occurs, in any mix of upper and lower case, is a network
    error. *)
Theorem network_words_are_found_in_any_case :
  forall (pre word post : string),
    In (toLowerCase word) network_words ->
    is_network_error (toLowerCase (pre ++ word ++ post)) = true.
Proof.
  intros pre word post Hin. rewrite !toLowerCase_app.
  apply (network_word_found _ (toLowerCase word) Hin). apply includes_app.
Qed.

(** X9, witness: the reset of a connection as Node reports it. *)
Lemma ECONNRESET_is_a_network_error :
  In (toLowerCase "ECONNRESET") network_words /\
  is_network_error (toLowerCase ("read " ++ "ECONNRESET" ++ "")) = true.
Proof.
  split.
  - vm_compute. tauto.
  - apply (network_words_are_found_in_any_case "read " "ECONNRESET" "").
    vm_compute. tauto.
Defined.

(** X10. The single-provider [executeSwap] always returns a boolean: every
    failure of a request, of the signature or of the broadcast is caught and
    printed. It calls the two operations at most six times in all, waits at
    most once per call, leaves the counter and the date alone, and prints
    exactly one closing line: the success line, after the one broadcast, when
    it returns [true]; the failure line, after at most one broadcast, when it
    returns [false]. *)
Theorem single_executeSwap_always_returns :
  forall W Tx (E : Env W Tx) process_env ctx from to amount (s : St W),
    let run := SingleProtocol.executeSwap E process_env ctx from to amount s in
    let new := new_events s (snd run) in
    exists ok,
      fst run = Ok ok /\
      dailyTxCount (snd run) = dailyTxCount s /\
      lastResetDate (snd run) = lastResetDate s /\
      (List.length (operations new) <= 6)%nat /\
      (List.length (sleeps new) <= List.length (operations new))%nat /\
      (if ok
       then broadcasts new = [label ctx] /\ List.length (interactions new) = 1%nat /\
            final_failures new = []
       else (List.length (broadcasts new) <= 1)%nat /\ interactions new = [] /\
            List.length (final_failures new) = 1%nat).
Proof.
  intros W Tx E process_env ctx from to amount s. cbv zeta.
  destruct (single_executeSwap_spec E process_env ctx from to amount s)
    as (ok & s' & new & Hrun & Htr & Hc & Hd & Hrest).
  rewrite Hrun. cbn [fst snd]. rewrite (new_events_app _ _ _ Htr).
  exists ok. repeat split; try assumption; apply Hrest.
Qed.

(** ** The requests the providers make *)

Section Tape.

Context {W Tx : Type} (E : Env W Tx).
Variable P : HttpRequest -> Prop.
























End Tape.


Section ProviderRequests.

Context {W Tx : Type} (E : Env W Tx).
Variable process_env : string -> option string.








End ProviderRequests.


(** *** Listening changes nothing

    Under [recording E] each provider of the bot answers what it answers
    under [E], and leaves the world of [E] as it leaves it under [E]. *)

Section Transparent.

Context {W Tx : Type} (E : Env W Tx).
Variable process_env : string -> option string.

Ltac run_both :=
  repeat
    (cbn [fst snd axios Math_random Date_now deserialize JSON_stringify Number_toString
          URLSearchParams_toString Date_toISOString hmac_sha256_base64 recording];
     match goal with
     | |- context [Math_random E ?w] => destruct (Math_random E w)
     | |- context [axios E ?req ?w] => destruct (axios E req w) as [[?|?] ?]
     | |- context [if ?b then _ else _] => destruct b
     | |- context [match deserialize E ?j with _ => _ end] => destruct (deserialize E j)
     | |- context [match field ?j ?k with _ => _ end] => destruct (field j k)
     end);
  cbn [fst snd]; split; reflexivity.

Lemma recording_is_transparent (i : nat) (p : SwapProvider W Tx)
    (pr : SwapProvider (W * list HttpRequest) Tx) from to lam signer a w tape :
  nth_error (bot_providers E process_env) i = Some p ->
  nth_error (bot_providers (recording E) process_env) i = Some pr ->
  name pr = name p /\ available pr = available p /\
  fst (getSwap pr from to lam signer a (w, tape)) = fst (getSwap p from to lam signer a w) /\
  fst (snd (getSwap pr from to lam signer a (w, tape)))
    = snd (getSwap p from to lam signer a w).
Proof.
  intros Hp Hpr. unfold bot_providers in Hp, Hpr.
  destruct i as [|[|[|[|i]]]]; cbn [nth_error] in Hp, Hpr;
    try (destruct i; discriminate Hp);
    injection Hp as <-; injection Hpr as <-;
    (split; [reflexivity|]); (split; [reflexivity|]);
    cbn [getSwap DFlowProvider RaydiumProvider JupiterProvider OKXDexProvider].
  - unfold DFlow_getSwap, io_bind, axios_get, io_throw, io_of_sum, io_ret. run_both.
  - unfold Raydium_getSwap, io_bind, axios_get, axios_post, random_slippage, io_throw,
      io_of_sum, io_ret. run_both.
  - unfold Jupiter_getSwap, io_bind, axios_get, axios_post, random_slippage, io_throw,
      io_of_sum, io_ret. run_both.
  - unfold OKX_getSwap, okxHeaders, okxSign, io_bind, axios_get, io_throw, io_of_sum,
      io_ret. run_both.
Qed.

End Transparent.

(** *** The tape of a turn and of a round *)

Section TapeOfARound.

Context {W Tx : Type} (E : Env W Tx).
Variable process_env : string -> option string.











End TapeOfARound.


(** X13. Raydium: the request that builds the transaction is sent only
    after the quote request was answered with a truthy [success], and it
    hands that answer back as [swapResponse], for the signer as [wallet];
    when the quote is the only request made, the call has rejected. *)
Theorem Raydium_builds_only_on_a_quote_that_succeeded :
  forall W Tx (E : Env W Tx) process_env from to lam signer a (w : W) tape,
    let run := Raydium_getSwap (recording E) process_env from to lam signer a (w, tape) in
    exists quote,
      method quote = GET /\
      url quote = (RAYDIUM_API process_env ++ "/compute/swap-base-in")%string /\
      (snd (snd run) = tape ++ [quote] /\ (exists e, fst run = inl e)
       \/
       exists build answer w1 w2,
         snd (snd run) = tape ++ [quote; build] /\
         axios E quote w1 = (inr answer, w2) /\
         truthy (opt_field answer "success") = true /\
         method build = POST /\
         url build = (RAYDIUM_API process_env ++ "/transaction/swap-base-in")%string /\
         opt_field (data build) "swapResponse" = answer /\
         opt_field (data build) "wallet" = JStr signer).
Proof.
  intros W Tx E process_env from to lam signer a w tape. cbv zeta.
  unfold Raydium_getSwap, io_bind, random_slippage, axios_get, axios_post.
  cbn [Math_random axios recording fst snd].
  destruct (Math_random E w) as [r w1].
  eexists (mkRequest GET _ _ JUndefined [] a 15000).
  split; [reflexivity|]. split; [reflexivity|].
  cbn [fst snd].
  destruct (axios E _ w1) as [[e|answer] w2] eqn:Hquote.
  { left. cbn [fst snd]. split; [reflexivity|]. exists e. reflexivity. }
  cbn [fst snd].
  destruct (truthy (opt_field answer "success")) eqn:Hsuccess; cbn [negb].
  2:{ left. unfold io_throw. cbn [fst snd]. split; [reflexivity|]. eexists. reflexivity. }
  right. eexists (mkRequest POST _ [] _ [] a 15000), answer, w1, w2.
  split.
  { cbn [fst snd].
    match goal with
    | |- context [axios E ?req w2] => destruct (axios E req w2) as [[e|swapRes] w3]
    end; cbn [fst snd]; [rewrite <- app_assoc; reflexivity|].
    destruct (negb (truthy (opt_field swapRes "success")));
      [unfold io_throw; cbn [snd]; rewrite <- app_assoc; reflexivity|].
    cbv zeta.
    destruct (negb (truthy _));
      [unfold io_throw; cbn [snd]; rewrite <- app_assoc; reflexivity|].
    unfold io_of_sum, io_throw, io_ret.
    destruct (deserialize (recording E) _); cbn [snd]; rewrite <- app_assoc; reflexivity. }
  split; [exact Hquote|]. split; [exact Hsuccess|].
  repeat split; reflexivity.
Qed.

(** X14. Jupiter: the swap request is sent whenever the quote request is
    answered, whatever the answer says, and hands the answer back as
    [quoteResponse]; only a quote that rejects stops the call there. Both
    requests carry the [x-api-key] header exactly when [JUP_API_KEY] is set
    and not empty. *)
Theorem Jupiter_posts_whatever_the_quote_says :
  forall W Tx (E : Env W Tx) process_env from to lam signer a (w : W) tape,
    let run := Jupiter_getSwap (recording E) process_env from to lam signer a (w, tape) in
    let key := JUP_API_KEY process_env in
    exists quote w1,
      method quote = GET /\
      url quote = (JUP_API process_env ++ "/quote")%string /\
      header (headers quote) "x-api-key"
        = (if (key =? "")%string then None else Some key) /\
      match axios E quote w1 with
      | (inl e, _) => snd (snd run) = tape ++ [quote] /\ fst run = inl e
      | (inr answer, _) =>
          exists swap,
            snd (snd run) = tape ++ [quote; swap] /\
            method swap = POST /\
            url swap = (JUP_API process_env ++ "/swap")%string /\
            opt_field (data swap) "quoteResponse" = answer /\
            opt_field (data swap) "userPublicKey" = JStr signer /\
            headers swap = headers quote
      end.
Proof.
  intros W Tx E process_env from to lam signer a w tape. cbv zeta.
  unfold Jupiter_getSwap, io_bind, random_slippage, axios_get, axios_post.
  cbn [Math_random axios recording fst snd].
  destruct (Math_random E w) as [r w1].
  cbn [fst snd].
  match goal with
  | |- context [axios E ?req w1] => exists req, w1
  end.
  split; [reflexivity|]. split; [reflexivity|].
  split.
  { cbn [headers]. destruct (JUP_API_KEY process_env =? "")%string; reflexivity. }
  cbn [fst snd].
  destruct (axios E _ w1) as [[e|answer] w2].
  { cbn [fst snd]. split; reflexivity. }
  cbn [fst snd]. eexists (mkRequest POST _ [] _ _ a 15000).
  split.
  { cbn [fst snd].
    match goal with
    | |- context [axios E ?req w2] => destruct (axios E req w2) as [[e|swapRes] w3]
    end; cbn [fst snd]; [rewrite <- app_assoc; reflexivity|].
    unfold io_of_sum, io_throw, io_ret.
    destruct (field swapRes "swapTransaction");
      [cbn [snd]; rewrite <- app_assoc; reflexivity|].
    destruct (deserialize (recording E) _); cbn [snd]; rewrite <- app_assoc; reflexivity. }
  repeat split; reflexivity.
Qed.

(** X15. OKX DEX, once configured, makes one request, and signs what it
    requests: the signature header is the HMAC, under [OKX_SECRET_KEY], of
    the timestamp header, the method and the very path and query string of
    the URL, with an empty body; the timestamp is the clock at the call. *)
Theorem OKX_signs_the_path_it_requests :
  forall W Tx (E : Env W Tx) process_env from to lam signer a (w : W) tape,
    OKX_available process_env = true ->
    let run := OKX_getSwap (recording E) process_env from to lam signer a (w, tape) in
    let ts := Date_toISOString E (Date_now E w) in
    exists req path,
      snd (snd run) = tape ++ [req] /\
      method req = GET /\ params req = [] /\
      url req = ("https://www.okx.com" ++ path)%string /\
      path = ("/api/v5/dex/aggregator/swap" ++ "?" ++
              URLSearchParams_toString E
                [("chainId", "501"); ("fromTokenAddress", from); ("toTokenAddress", to);
                 ("amount", Number_toString E lam); ("slippage", "0.005");
                 ("userWalletAddress", signer)])%string /\
      header (headers req) "OK-ACCESS-TIMESTAMP" = Some ts /\
      header (headers req) "OK-ACCESS-SIGN"
        = Some (hmac_sha256_base64 E (env_or process_env "OKX_SECRET_KEY" "")
                  (ts ++ "GET" ++ path ++ "")) /\
      header (headers req) "OK-ACCESS-KEY" = Some (env_or process_env "OKX_API_KEY" "") /\
      header (headers req) "OK-ACCESS-PASSPHRASE"
        = Some (env_or process_env "OKX_PASSPHRASE" "").
Proof.
  intros W Tx E process_env from to lam signer a w tape Hon. cbv zeta.
  unfold OKX_getSwap. rewrite Hon. cbn [negb]. cbv zeta.
  unfold io_bind, okxHeaders, okxSign, axios_get.
  cbn [axios Date_now Date_toISOString hmac_sha256_base64 URLSearchParams_toString
       Number_toString recording fst snd].
  eexists (mkRequest GET _ [] JUndefined _ a 15000), _.
  split.
  { cbn [fst snd].
    match goal with
    | |- context [axios E ?req w] => destruct (axios E req w) as [[e|res] w1]
    end; cbn [fst snd]; [reflexivity|].
    destruct (negb (truthy _)); [reflexivity|].
    unfold io_of_sum, io_throw, io_ret.
    destruct (deserialize (recording E) _); reflexivity. }
  repeat split; reflexivity.
Qed.

(** X15, witness: the three variables set. *)
Lemma OKX_signs_with_the_three_variables_set :
  let process_env : string -> option string := fun _ => Some "k"%string in
  let w := Script.mkWorld Script.morning [] [] in
  OKX_available process_env = true /\
  exists req path,
    snd (snd (OKX_getSwap (recording Script.env) process_env MINTS.SOL MINTS.mSOL
                100000%float "signer" None (w, []))) = [] ++ [req] /\
    method req = GET /\ params req = [] /\
    url req = ("https://www.okx.com" ++ path)%string /\
    path = ("/api/v5/dex/aggregator/swap" ++ "?" ++
            URLSearchParams_toString Script.env
              [("chainId", "501"); ("fromTokenAddress", MINTS.SOL);
               ("toTokenAddress", MINTS.mSOL);
               ("amount", Number_toString Script.env 100000%float); ("slippage", "0.005");
               ("userWalletAddress", "signer")])%string /\
    header (headers req) "OK-ACCESS-TIMESTAMP"
      = Some (Date_toISOString Script.env (Date_now Script.env w)) /\
    header (headers req) "OK-ACCESS-SIGN"
      = Some (hmac_sha256_base64 Script.env (env_or process_env "OKX_SECRET_KEY" "")
                (Date_toISOString Script.env (Date_now Script.env w)
                 ++ "GET" ++ path ++ "")) /\
    header (headers req) "OK-ACCESS-KEY" = Some (env_or process_env "OKX_API_KEY" "") /\
    header (headers req) "OK-ACCESS-PASSPHRASE"
      = Some (env_or process_env "OKX_PASSPHRASE" "").
Proof.
  split; [reflexivity|].
  apply (OKX_signs_the_path_it_requests Script.World string Script.env
           (fun _ => Some "k"%string) MINTS.SOL MINTS.mSOL 100000%float "signer"%string None
           (Script.mkWorld Script.morning [] []) []).
  reflexivity.
Defined.


(** ** Broadcasts and the numbers on the success lines *)

Section Broadcasts.

Context {W Tx : Type} (E : Env W Tx).
Variables (ctx : WalletContext) (from to : string) (amountLamports : number)
  (signer : string).

(** One provider's turn: the transaction is broadcast once when the call
    and the signature went through, and the success line carries the count
    after the increment. *)
Lemma guarded_attempt_sends (p : SwapProvider W Tx) (s : St W) :
  let b := submits E ctx p from to amountLamports signer (world s) in
  exists s' new,
    try_catch (attempt E ctx p from to amountLamports signer) (on_failure E ctx p) s
      = (Ok b, s') /\
    trace s' = trace s ++ new /\
    dailyTxCount s' = dailyTxCount s + (if b then 1 else 0) /\
    invoked new = [name p] /\
    (broadcasts new = [] \/ broadcasts new = [label ctx]) /\
    (b = true -> broadcasts new = [label ctx]) /\
    success_counts new = (if b then [dailyTxCount s + 1] else []).
Proof.
  unfold submits, try_catch, attempt, on_failure, bind, console_log, emit, call,
    of_sum, get_dailyTxCount, set_dailyTxCount, ret, throw. simpl.
  destruct (getSwap p from to amountLamports signer (agent ctx) (world s))
    as [[e|r] w1]; simpl.
  - do 2 eexists. split; [reflexivity|]. split; [simpl; trace_eq|].
    repeat split; try reflexivity; try (simpl; lia); try discriminate. left; reflexivity.
  - destruct (sign E (transaction r) (keypair ctx)) as [e|tx]; simpl.
    + do 2 eexists. split; [reflexivity|]. split; [simpl; trace_eq|].
      repeat split; try reflexivity; try (simpl; lia); try discriminate. left; reflexivity.
    + destruct (sendRawTransaction E ctx (serialize E tx) w1) as [[e|txid] w2]; simpl.
      * do 2 eexists. split; [reflexivity|]. split; [simpl; trace_eq|].
        repeat split; try reflexivity; try (simpl; lia); try discriminate.
        right; reflexivity.
      * do 2 eexists. split; [reflexivity|]. split; [simpl; trace_eq|].
        repeat split; try reflexivity. right; reflexivity.
Qed.

Lemma tryProviders_sends (ps : list (SwapProvider W Tx)) : forall s : St W,
  exists ok s' new,
    tryProviders E ctx from to amountLamports signer ps s = (Ok ok, s') /\
    trace s' = trace s ++ new /\
    (List.length (broadcasts new) <= List.length (invoked new))%nat /\
    Forall (eq (label ctx)) (broadcasts new) /\
    (ok = true -> broadcasts new <> []) /\
    success_counts new = (if ok then [dailyTxCount s'] else []).
Proof.
  induction ps as [|p rest IH]; intro s.
  - cbn [tryProviders]. unfold bind, console_log, emit, ret.
    do 2 eexists. eexists. split; [reflexivity|]. split; [cbn [trace]; reflexivity|].
    repeat split; try (simpl; lia); try discriminate; try reflexivity. constructor.
  - rewrite tryProviders_cons. destruct (available p); [|apply IH].
    destruct (guarded_attempt_sends p s)
      as (s1 & new1 & Hrun1 & Ht1 & Hc1 & Hinv1 & Hbr1 & Hok1 & Hsc1).
    rewrite Hrun1.
    destruct (submits E ctx p from to amountLamports signer (world s)).
    + exists true, s1, new1. split; [reflexivity|]. split; [exact Ht1|].
      rewrite Hinv1, Hsc1, Hc1, (Hok1 eq_refl).
      repeat split; try (simpl; lia); try discriminate; try reflexivity.
      repeat constructor.
    + destruct (IH s1) as (ok & s2 & new2 & Hrun2 & Ht2 & Hlen2 & Hall2 & Hok2 & Hsc2).
      exists ok, s2, (new1 ++ new2). split; [exact Hrun2|].
      split; [rewrite Ht2, Ht1; trace_eq|].
      rewrite broadcasts_app, invoked_app, success_counts_app, !length_app, Hinv1, Hsc1, Hsc2.
      split.
      { destruct Hbr1 as [Hb|Hb]; rewrite Hb; simpl; lia. }
      split.
      { apply Forall_app. split; [|exact Hall2].
        destruct Hbr1 as [Hb|Hb]; rewrite Hb; repeat constructor. }
      split; [|reflexivity].
      intros Hok Hnil. apply app_eq_nil in Hnil. destruct Hnil as (_ & Hnil).
      exact (Hok2 Hok Hnil).
Qed.

End Broadcasts.

(** X17. In a swap request a transaction is broadcast only after a provider
    was asked, never more than once per provider asked, and always for the
    wallet of the request; when the request returns [true] at least one
    broadcast was made, and the number on its success line is the counter as
    the request leaves it; when it returns [false] no success line is
    printed. *)
Theorem broadcasts_follow_provider_calls :
  forall W Tx (E : Env W Tx) (providers : list (SwapProvider W Tx)) ctx from to amount
         (s : St W),
    let run := executeSwap E providers ctx from to amount s in
    let new := new_events s (snd run) in
    exists ok,
      fst run = Ok ok /\
      (List.length (broadcasts new) <= List.length (invoked new))%nat /\
      Forall (eq (label ctx)) (broadcasts new) /\
      (ok = true -> broadcasts new <> []) /\
      success_counts new = (if ok then [dailyTxCount (snd run)] else []).
Proof.
  intros W Tx E providers ctx from to amount s. cbv zeta.
  destruct (executeSwap E providers ctx from to amount s) as [r s'] eqn:Hrun.
  unfold executeSwap, bind, emit in Hrun. cbv beta iota zeta in Hrun.
  match type of Hrun with
  | context [tryProviders E ctx from to ?lam ?signer providers ?s0] =>
      destruct (tryProviders_sends E ctx from to lam signer providers s0)
        as (ok & s1 & new & Hrun1 & Htr & Hlen & Hall & Hok & Hsc)
  end.
  rewrite Hrun1 in Hrun. inversion Hrun; subst r s1. clear Hrun Hrun1.
  cbn [fst snd]. cbn [trace] in Htr.
  rewrite (new_events_app s s' (_ :: new) ltac:(rewrite Htr, <- app_assoc; reflexivity)).
  exists ok. split; [reflexivity|].
  change (broadcasts (?x :: new)) with (broadcasts new).
  change (invoked (?x :: new)) with (invoked new).
  change (success_counts (?x :: new)) with (success_counts new).
  repeat split; assumption.
Qed.

(** ** [initWallets] *)

Lemma str_split_one (sep : ascii) (a : string) :
  includes a (String sep "") = false -> str_split sep a = [a].
Proof.
  induction a as [|c a IH]; intro Hno; [reflexivity|].
  cbn [includes String.prefix] in Hno. apply orb_false_iff in Hno.
  destruct Hno as (Hc & Ha).
  cbn [str_split]. destruct (Ascii.eqb_spec c sep) as [->|Hne].
  - destruct (ascii_dec sep sep) as [_|Hn]; [|exfalso; apply Hn; reflexivity].
    destruct a; discriminate Hc.
  - rewrite (IH Ha). reflexivity.
Qed.

Lemma str_split_app (sep : ascii) (a b : string) :
  includes a (String sep "") = false ->
  str_split sep (a ++ String sep b) = a :: str_split sep b.
Proof.
  induction a as [|c a IH]; intro Hno.
  - cbn [String.append str_split]. rewrite Ascii.eqb_refl. reflexivity.
  - cbn [includes String.prefix] in Hno. apply orb_false_iff in Hno.
    destruct Hno as (Hc & Ha).
    cbn [String.append str_split]. destruct (Ascii.eqb_spec c sep) as [->|Hne].
    + destruct (ascii_dec sep sep) as [_|Hn]; [|exfalso; apply Hn; reflexivity].
      destruct a; discriminate Hc.
    + rewrite (IH Ha). reflexivity.
Qed.

Lemma str_split_sep (sep : ascii) (a b : string) :
  includes a (String sep "") = false ->
  str_split sep (a ++ String sep "" ++ b) = a :: str_split sep b.
Proof. apply str_split_app. Qed.

Lemma substring_0_prefix (n : nat) : forall s : string,
  String.prefix (substring 0 n s) s = true /\ (String.length (substring 0 n s) <= n)%nat.
Proof.
  induction n as [|n IH]; intros [|c s]; cbn [substring String.prefix String.length];
    try (split; [reflexivity|lia]).
  destruct (IH s) as (Hp & Hl).
  destruct (ascii_dec c c) as [_|Hn]; [|exfalso; apply Hn; reflexivity].
  split; [exact Hp|lia].
Qed.

Section InitWalletsFacts.

Variable new_SocksProxyAgent : string -> Error + Agent.
Variable Keypair_fromSecretKey : string -> Error + string.
Variable new_Connection : option string -> option Agent -> Error + string.
Variable vars : list (string * string).

Lemma forEach_key_spec (entries : list (string * string)) : forall wallets,
  match forEach_key new_SocksProxyAgent Keypair_fromSecretKey new_Connection vars
          entries wallets with
  | inr result =>
      exists added,
        result = wallets ++ added /\
        Forall2 (fun entry wallet => wallet_of new_SocksProxyAgent Keypair_fromSecretKey new_Connection vars (snd entry) = inr wallet)
          (wallet_variables entries) added
  | inl e =>
      exists before entry after added,
        wallet_variables entries = before ++ entry :: after /\
        Forall2 (fun entry wallet => wallet_of new_SocksProxyAgent Keypair_fromSecretKey new_Connection vars (snd entry) = inr wallet) before added /\
        wallet_of new_SocksProxyAgent Keypair_fromSecretKey new_Connection vars (snd entry) = inl e
  end.
Proof.
  induction entries as [|[key raw] rest IH]; intro wallets.
  - cbn [forEach_key]. exists []. rewrite app_nil_r. split; [reflexivity|constructor].
  - cbn [forEach_key]. unfold wallet_variables. cbn [filter fst].
    destruct (String.prefix "WALLET_" key); cbn [negb]; [|apply IH].
    destruct (wallet_of new_SocksProxyAgent Keypair_fromSecretKey new_Connection vars raw)
      as [e|wallet] eqn:Hw.
    + exists [], (key, raw), (wallet_variables rest), [].
      split; [reflexivity|]. split; [constructor|exact Hw].
    + specialize (IH (wallets ++ [wallet])).
      destruct (forEach_key _ _ _ _ rest (wallets ++ [wallet])) as [e|result].
      * destruct IH as (before & entry & after & added & Hsplit & Hbefore & Hbad).
        exists ((key, raw) :: before), entry, after, (wallet :: added).
        fold (wallet_variables rest). rewrite Hsplit.
        split; [reflexivity|]. split; [constructor; [exact Hw|exact Hbefore]|exact Hbad].
      * destruct IH as (added & Hres & Hall).
        exists (wallet :: added). rewrite Hres, <- app_assoc.
        split; [reflexivity|]. constructor; [exact Hw|exact Hall].
Qed.

End InitWalletsFacts.

(** X18. [initWallets] is all or nothing, in the order of the variables:
    when it returns, [this.wallets] holds one wallet for each variable whose
    name starts with [WALLET_], in their order, each built from the value of
    its own variable, and no other variable gives a wallet; when it throws,
    it is the error of the first wallet variable whose wallet cannot be
    built, and the bot is not constructed. *)
Theorem initWallets_is_all_or_nothing :
  forall new_SocksProxyAgent Keypair_fromSecretKey new_Connection
         (vars : list (string * string)),
    let build := wallet_of new_SocksProxyAgent Keypair_fromSecretKey new_Connection vars in
    match initWallets new_SocksProxyAgent Keypair_fromSecretKey new_Connection vars with
    | inr wallets =>
        Forall2 (fun entry wallet => build (snd entry) = inr wallet)
          (wallet_variables vars) wallets /\
        List.length wallets = List.length (wallet_variables vars)
    | inl e =>
        exists before entry after,
          wallet_variables vars = before ++ entry :: after /\
          Forall (fun entry => exists wallet, build (snd entry) = inr wallet) before /\
          build (snd entry) = inl e
    end.
Proof.
  intros new_SocksProxyAgent Keypair_fromSecretKey new_Connection vars. cbv zeta.
  unfold initWallets.
  pose proof (forEach_key_spec new_SocksProxyAgent Keypair_fromSecretKey new_Connection
                vars vars []) as H.
  destruct (forEach_key _ _ _ vars vars []) as [e|wallets].
  - destruct H as (before & entry & after & added & Hsplit & Hbefore & Hbad).
    exists before, entry, after. split; [exact Hsplit|]. split; [|exact Hbad].
    clear Hsplit. induction Hbefore as [|x y xs ys Hxy _ IH]; constructor;
      [exists y; exact Hxy|exact IH].
  - destruct H as (added & Hres & Hall). cbn [app] in Hres. subst added.
    split; [exact Hall|]. symmetry. exact (Forall2_length Hall).
Qed.

(** X19. The proxy part of a wallet variable is read as [ip:port:user:pass]
    and turned into [socks5://user:pass@ip:port]; what follows a fourth
    colon is dropped, and a part with two fields only gives the user and the
    password [undefined]. *)
Theorem proxy_url_reorders_the_fields :
  forall ip port user pass more : string,
    includes ip ":" = false -> includes port ":" = false ->
    includes user ":" = false -> includes pass ":" = false ->
    proxy_url (ip ++ ":" ++ port ++ ":" ++ user ++ ":" ++ pass)
      = ("socks5://" ++ user ++ ":" ++ pass ++ "@" ++ ip ++ ":" ++ port)%string /\
    proxy_url (ip ++ ":" ++ port ++ ":" ++ user ++ ":" ++ pass ++ ":" ++ more)
      = ("socks5://" ++ user ++ ":" ++ pass ++ "@" ++ ip ++ ":" ++ port)%string /\
    proxy_url (ip ++ ":" ++ port)
      = ("socks5://" ++ "undefined" ++ ":" ++ "undefined" ++ "@" ++ ip ++ ":" ++ port)%string.
Proof.
  intros ip port user pass more Hip Hport Huser Hpass. unfold proxy_url.
  split; [|split].
  - rewrite (str_split_sep _ _ _ Hip), (str_split_sep _ _ _ Hport),
      (str_split_sep _ _ _ Huser), (str_split_one _ _ Hpass). reflexivity.
  - rewrite (str_split_sep _ _ _ Hip), (str_split_sep _ _ _ Hport),
      (str_split_sep _ _ _ Huser), (str_split_sep _ _ _ Hpass).
    cbn [nth_error template]. reflexivity.
  - rewrite (str_split_sep _ _ _ Hip), (str_split_one _ _ Hport). reflexivity.
Qed.

(** X19, witness. *)
Lemma proxy_url_of_a_full_proxy_part :
  (includes "10.0.0.2" ":" = false /\ includes "1080" ":" = false /\
   includes "u" ":" = false /\ includes "p" ":" = false) /\
  proxy_url ("10.0.0.2" ++ ":" ++ "1080" ++ ":" ++ "u" ++ ":" ++ "p")
    = ("socks5://" ++ "u" ++ ":" ++ "p" ++ "@" ++ "10.0.0.2" ++ ":" ++ "1080")%string /\
  proxy_url ("10.0.0.2" ++ ":" ++ "1080" ++ ":" ++ "u" ++ ":" ++ "p" ++ ":" ++ "x")
    = ("socks5://" ++ "u" ++ ":" ++ "p" ++ "@" ++ "10.0.0.2" ++ ":" ++ "1080")%string /\
  proxy_url ("10.0.0.2" ++ ":" ++ "1080")
    = ("socks5://" ++ "undefined" ++ ":" ++ "undefined" ++ "@" ++ "10.0.0.2" ++ ":" ++ "1080")%string.
Proof.
  split; [repeat split; reflexivity|].
  apply (proxy_url_reorders_the_fields "10.0.0.2" "1080" "u" "p" "x"); reflexivity.
Defined.

(** X20. A wallet that [initWallets] builds: its key is made from what
    precedes the first bar of the value; its label is a prefix of its public
    key of six characters at most; its connection is built for [RPC_URL]
    with the wallet's own agent; and it has no agent, so that its requests
    go out directly, exactly when the value has no bar or nothing between
    the first bar and the next. *)
Theorem wallet_of_a_variable :
  forall new_SocksProxyAgent Keypair_fromSecretKey new_Connection
         (vars : list (string * string)) (raw : string) (wallet : WalletContext),
    wallet_of new_SocksProxyAgent Keypair_fromSecretKey new_Connection vars raw
      = inr wallet ->
    let parts := str_split "|" raw in
    Keypair_fromSecretKey (nth 0 parts ""%string) = inr (keypair wallet) /\
    String.prefix (label wallet) (keypair wallet) = true /\
    (String.length (label wallet) <= 6)%nat /\
    new_Connection (getenv vars "RPC_URL") (agent wallet) = inr (connection wallet) /\
    (agent wallet = None <->
     nth_error parts 1 = None \/ nth_error parts 1 = Some ""%string) /\
    (forall p a, nth_error parts 1 = Some p -> agent wallet = Some a ->
                 new_SocksProxyAgent (proxy_url p) = inr a).
Proof.
  intros new_SocksProxyAgent Keypair_fromSecretKey new_Connection vars raw wallet.
  unfold wallet_of. cbv zeta. intro Hw.
  destruct (nth_error (str_split "|" raw) 1) as [p|] eqn:Hp.
  - destruct (String.eqb_spec p "") as [->|Hne].
    + destruct (Keypair_fromSecretKey _) as [e|kp] eqn:Hkp; [discriminate Hw|].
      destruct (new_Connection _ None) as [e|c] eqn:Hc; [discriminate Hw|].
      injection Hw as <-. cbn [keypair label agent connection].
      destruct (substring_0_prefix 6 kp) as (Hpre & Hlen).
      repeat split; try assumption; try reflexivity; auto; try discriminate.
    + destruct (new_SocksProxyAgent (proxy_url p)) as [e|a] eqn:Ha; [discriminate Hw|].
      destruct (Keypair_fromSecretKey _) as [e|kp] eqn:Hkp; [discriminate Hw|].
      destruct (new_Connection _ (Some a)) as [e|c] eqn:Hc; [discriminate Hw|].
      injection Hw as <-. cbn [keypair label agent connection].
      destruct (substring_0_prefix 6 kp) as (Hpre & Hlen).
      repeat split; try assumption; try reflexivity; try discriminate.
      * intros [H|H]; [discriminate H|]. injection H as H. exfalso. apply Hne. exact H.
      * intros p' a' Hp' Ha'. injection Hp' as <-. injection Ha' as <-. exact Ha.
  - destruct (Keypair_fromSecretKey _) as [e|kp] eqn:Hkp; [discriminate Hw|].
    destruct (new_Connection _ None) as [e|c] eqn:Hc; [discriminate Hw|].
    injection Hw as <-. cbn [keypair label agent connection].
    destruct (substring_0_prefix 6 kp) as (Hpre & Hlen).
    repeat split; try assumption; try reflexivity; auto; try discriminate.
Qed.

(** X20, witness: a wallet variable with a proxy part, every constructor
    accepting its argument. *)
Lemma wallet_of_a_variable_with_a_proxy :
  let agent_of : string -> Error + Agent := fun u => inr u in
  let key_of : string -> Error + string := fun pk => inr ("Pub" ++ pk)%string in
  let connect : option string -> option Agent -> Error + string :=
    fun endpoint _ => inr (template endpoint) in
  let vars := [("RPC_URL", "https://rpc.example");
               ("WALLET_1", "secret|10.0.0.2:1080:u:p")]%string in
  let wallet := mkWallet "Pubsecret" (Some "socks5://u:p@10.0.0.2:1080"%string)
                  "https://rpc.example" "Pubsec" in
  wallet_of agent_of key_of connect vars "secret|10.0.0.2:1080:u:p" = inr wallet /\
  key_of (nth 0 (str_split "|" "secret|10.0.0.2:1080:u:p") ""%string) = inr (keypair wallet) /\
  String.prefix (label wallet) (keypair wallet) = true /\
  (String.length (label wallet) <= 6)%nat /\
  connect (getenv vars "RPC_URL") (agent wallet) = inr (connection wallet) /\
  (agent wallet = None <->
   nth_error (str_split "|" "secret|10.0.0.2:1080:u:p") 1 = None \/
   nth_error (str_split "|" "secret|10.0.0.2:1080:u:p") 1 = Some ""%string) /\
  (forall p a, nth_error (str_split "|" "secret|10.0.0.2:1080:u:p") 1 = Some p ->
               agent wallet = Some a -> agent_of (proxy_url p) = inr a).
Proof.
  split; [reflexivity|].
  apply (wallet_of_a_variable (fun u => inr u) (fun pk => inr ("Pub" ++ pk)%string)
           (fun endpoint _ => inr (template endpoint))
           [("RPC_URL", "https://rpc.example");
            ("WALLET_1", "secret|10.0.0.2:1080:u:p")]%string
           "secret|10.0.0.2:1080:u:p"
           (mkWallet "Pubsecret" (Some "socks5://u:p@10.0.0.2:1080"%string)
              "https://rpc.example" "Pubsec")).
  reflexivity.
Defined.

(** ** Amounts and lamports *)

Lemma zrange_In (a : Z) (n : nat) (k : Z) : a <= k < a + Z.of_nat n -> In k (zrange a n).
Proof.
  intro Hk. unfold zrange. apply in_map_iff. exists (Z.to_nat (k - a)).
  split; [lia|]. apply in_seq. lia.
Qed.

Lemma amounts_on_the_grid : forallb on_the_grid (zrange 100 901) = true.
Proof. vm_compute. reflexivity. Qed.

(** X21. For an amount of six decimals between 0.000100 and 0.001000 SOL
    (the amounts the loop draws): printing it with six decimals and reading
    it back gives the same number; the lamports [executeSwap] computes for
    it are the exact product by 10^9 or one lamport less, never more; and
    the lamports of the hedge amount are 995 times the millionths or one
    less. *)
Theorem lamports_are_the_decimal_amount_or_one_less :
  forall k : Z,
    100 <= k <= 1000 ->
    let amount := nearest_fraction k 1000000 in
    Number_toFixed6 amount = amount /\
    (Math_floor (amount * LAMPORTS_PER_SOL)%float = of_Z (1000 * k) \/
     Math_floor (amount * LAMPORTS_PER_SOL)%float = of_Z (1000 * k - 1)) /\
    (Math_floor ((amount * 0.995) * LAMPORTS_PER_SOL)%float = of_Z (995 * k) \/
     Math_floor ((amount * 0.995) * LAMPORTS_PER_SOL)%float = of_Z (995 * k - 1)).
Proof.
  intros k Hk. cbv zeta.
  pose proof amounts_on_the_grid as Hgrid.
  rewrite forallb_forall in Hgrid.
  specialize (Hgrid k (zrange_In 100 901 k ltac:(lia))).
  unfold on_the_grid in Hgrid. cbv zeta in Hgrid.
  apply andb_true_iff in Hgrid. destruct Hgrid as (Hgrid & Hhedge).
  apply andb_true_iff in Hgrid. destruct Hgrid as (Hfixed & Hlamports).
  apply Leibniz.eqb_spec in Hfixed.
  apply orb_true_iff in Hlamports. apply orb_true_iff in Hhedge.
  split; [exact Hfixed|]. split.
  - destruct Hlamports as [H|H]; apply Leibniz.eqb_spec in H; [left|right]; exact H.
  - destruct Hhedge as [H|H]; apply Leibniz.eqb_spec in H; [left|right]; exact H.
Qed.

(** X21, witness: 0.000129 SOL is sent as 128999 lamports. *)
Lemma lamports_of_129_millionths :
  100 <= 129 <= 1000 /\
  Math_floor (nearest_fraction 129 1000000 * LAMPORTS_PER_SOL)%float = 128999%float /\
  Number_toFixed6 (nearest_fraction 129 1000000) = nearest_fraction 129 1000000 /\
  (Math_floor (nearest_fraction 129 1000000 * LAMPORTS_PER_SOL)%float = of_Z (1000 * 129) \/
   Math_floor (nearest_fraction 129 1000000 * LAMPORTS_PER_SOL)%float
     = of_Z (1000 * 129 - 1)) /\
  (Math_floor ((nearest_fraction 129 1000000 * 0.995) * LAMPORTS_PER_SOL)%float
     = of_Z (995 * 129) \/
   Math_floor ((nearest_fraction 129 1000000 * 0.995) * LAMPORTS_PER_SOL)%float
     = of_Z (995 * 129 - 1)).
Proof.
  split; [lia|]. split; [vm_compute; reflexivity|].
  apply (lamports_are_the_decimal_amount_or_one_less 129). lia.
Defined.

(** ** What a provider that resolves has checked *)

(** X22. A [getSwap] that resolves hands back the transaction that
    [deserialize] made of one field of the last answer it got. DFlow,
    Raydium and OKX DEX have checked that the field is truthy (and Raydium
    that the answer says [success]); Jupiter has checked nothing but that
    the answer is not [undefined] or [null]: it passes the field on as it
    is. *)
Theorem a_resolved_getSwap_deserialized_the_answer :
  forall W Tx (E : Env W Tx) process_env from to lam signer a (w w' : W)
         (r : SwapResult Tx),
    (DFlow_getSwap E process_env from to lam signer a w = (inr r, w') ->
     exists req w0 res,
       axios E req w0 = (inr res, w') /\
       truthy (opt_field res "transaction") = true /\
       deserialize E (opt_field res "transaction") = inr (transaction r)) /\
    (Raydium_getSwap E process_env from to lam signer a w = (inr r, w') ->
     exists req w0 res,
       axios E req w0 = (inr res, w') /\ method req = POST /\
       truthy (opt_field res "success") = true /\
       let tx := opt_field (opt_first (opt_field res "data")) "transaction" in
       truthy tx = true /\ deserialize E tx = inr (transaction r)) /\
    (Jupiter_getSwap E process_env from to lam signer a w = (inr r, w') ->
     exists req w0 res,
       axios E req w0 = (inr res, w') /\ method req = POST /\
       res <> JUndefined /\ res <> JNull /\
       deserialize E (opt_field res "swapTransaction") = inr (transaction r)) /\
    (OKX_getSwap E process_env from to lam signer a w = (inr r, w') ->
     OKX_available process_env = true /\
     exists req w0 res,
       axios E req w0 = (inr res, w') /\
       let tx := opt_field (opt_field (opt_first (opt_field res "data")) "tx") "data" in
       truthy tx = true /\ deserialize E tx = inr (transaction r)).
Proof.
  intros W Tx E process_env from to lam signer a w w' r.
  split; [|split; [|split]]; intro H.
  - unfold DFlow_getSwap, io_bind, axios_get, io_throw, io_of_sum, io_ret in H.
    match type of H with
    | context [axios E ?req ?w0] =>
        destruct (axios E req w0) as [[e|res] w1] eqn:Hax; [discriminate H|];
        exists req, w0, res
    end.
    destruct (truthy (opt_field res "transaction")) eqn:Htx; cbn [negb] in H;
      [|discriminate H].
    destruct (deserialize E _) as [e|tx] eqn:Hde; [discriminate H|].
    injection H as <- <-. repeat split; assumption.
  - unfold Raydium_getSwap, io_bind, random_slippage, axios_get, axios_post, io_throw,
      io_of_sum, io_ret in H.
    destruct (Math_random E w) as [r0 w0].
    match type of H with
    | context [axios E ?req w0] =>
        destruct (axios E req w0) as [[e|quoteRes] w1]; [discriminate H|]
    end.
    destruct (truthy (opt_field quoteRes "success")); cbn [negb] in H; [|discriminate H].
    match type of H with
    | context [axios E ?req w1] =>
        destruct (axios E req w1) as [[e|res] w2] eqn:Hax; [discriminate H|];
        exists req, w1, res
    end.
    destruct (truthy (opt_field res "success")) eqn:Hsuccess; cbn [negb] in H;
      [|discriminate H].
    cbv zeta in H.
    destruct (truthy (opt_field (opt_first (opt_field res "data")) "transaction"))
      eqn:Htx; cbn [negb] in H; [|discriminate H].
    destruct (deserialize E _) as [e|tx] eqn:Hde; [discriminate H|].
    injection H as <- <-. cbv zeta. repeat split; try assumption; reflexivity.
  - unfold Jupiter_getSwap, io_bind, random_slippage, axios_get, axios_post, io_throw,
      io_of_sum, io_ret in H.
    destruct (Math_random E w) as [r0 w0]. cbv zeta in H.
    match type of H with
    | context [axios E ?req w0] =>
        destruct (axios E req w0) as [[e|quoteRes] w1]; [discriminate H|]
    end.
    match type of H with
    | context [axios E ?req w1] =>
        destruct (axios E req w1) as [[e|res] w2] eqn:Hax; [discriminate H|];
        exists req, w1, res
    end.
    destruct (field res "swapTransaction") as [e|swapTransaction] eqn:Hfield;
      [discriminate H|].
    destruct (deserialize E swapTransaction) as [e|tx] eqn:Hde; [discriminate H|].
    injection H as <- <-.
    assert (Hres : res <> JUndefined /\ res <> JNull /\
                   swapTransaction = opt_field res "swapTransaction").
    { destruct res; cbn [field] in Hfield; try discriminate Hfield;
        injection Hfield as <-; repeat split; discriminate. }
    destruct Hres as (Hu & Hn & ->).
    repeat split; try assumption; reflexivity.
  - unfold OKX_getSwap in H.
    destruct (OKX_available process_env); cbn [negb] in H; [|discriminate H].
    split; [reflexivity|].
    cbv zeta in H. unfold io_bind, okxHeaders, axios_get, io_throw, io_of_sum, io_ret in H.
    match type of H with
    | context [axios E ?req ?w0] =>
        destruct (axios E req w0) as [[e|res] w1] eqn:Hax; [discriminate H|];
        exists req, w0, res
    end.
    destruct (truthy (opt_field (opt_field (opt_first (opt_field res "data")) "tx") "data"))
      eqn:Htx; cbn [negb] in H; [|discriminate H].
    destruct (deserialize E _) as [e|tx] eqn:Hde; [discriminate H|].
    injection H as <- <-. cbv zeta. repeat split; assumption.
Qed.

(** ** What a whole run swaps *)

Section WholeRun.

Context {W Tx : Type} (E : Env W Tx).
Variable providers : list (SwapProvider W Tx).
Variable wallets : list WalletContext.

Lemma trade_swaps_the_table (wallet : WalletContext) (s : St W) :
  In wallet wallets ->
  exists r s' new,
    trade E providers wallet s = (r, s') /\ trace s' = trace s ++ new /\
    Forall (SOL_against_a_mint wallets) (swaps new).
Proof.
  intro Hin.
  destruct (trade_spec E providers wallet s)
    as (r & s' & new & Hrun & Htr & _ & _ & Hcase).
  exists r, s', new. split; [exact Hrun|]. split; [exact Htr|].
  assert (Hlabel : In (label wallet) (map label wallets)) by (apply in_map; exact Hin).
  destruct Hcase as [(_ & ->)|(_ & target & amount & sf & sf' & ok & Htarget & _ & Hok)];
    [constructor|].
  assert (Hmint : In (mint target) (map mint PROTOCOL_MINTS)) by (apply in_map; exact Htarget).
  destruct ok.
  - destruct Hok as (sh & sh' & hedged & _ & Hsw & _). rewrite Hsw.
    apply Forall_cons;
      [unfold SOL_against_a_mint; split;
       [exact Hlabel|left; split; [reflexivity|exact Hmint]]|].
    apply Forall_cons;
      [unfold SOL_against_a_mint; split;
       [exact Hlabel|right; split; [exact Hmint|reflexivity]]|].
    constructor.
  - destruct Hok as (Hsw & _). rewrite Hsw.
    apply Forall_cons;
      [unfold SOL_against_a_mint; split;
       [exact Hlabel|left; split; [reflexivity|exact Hmint]]|].
    constructor.
Qed.

Lemma for_each_swaps_the_table (items : list WalletContext) : forall s : St W,
  (forall wallet, In wallet items -> In wallet wallets) ->
  exists r s' new,
    for_each items (trade E providers) s = (r, s') /\ trace s' = trace s ++ new /\
    Forall (SOL_against_a_mint wallets) (swaps new).
Proof.
  induction items as [|wallet rest IH]; intros s Hsub.
  - exists (Ok tt), s, []. rewrite app_nil_r. repeat split. constructor.
  - cbn [for_each]. unfold bind.
    destruct (trade_swaps_the_table wallet s (Hsub wallet (or_introl eq_refl)))
      as (r1 & s1 & new1 & Hrun1 & Ht1 & Hsw1).
    rewrite Hrun1. destruct r1 as [[]|t].
    + destruct (IH s1 (fun w Hw => Hsub w (or_intror Hw)))
        as (r & s2 & new2 & Hrun2 & Ht2 & Hsw2).
      exists r, s2, (new1 ++ new2). split; [exact Hrun2|].
      split; [rewrite Ht2, Ht1; trace_eq|].
      rewrite swaps_app. apply Forall_app. split; assumption.
    + exists (Throw t), s1, new1. repeat split; assumption.
Qed.

Lemma round_swaps_the_table (s : St W) :
  exists r s' new,
    round E providers wallets s = (r, s') /\ trace s' = trace s ++ new /\
    Forall (SOL_against_a_mint wallets) (swaps new).
Proof.
  destruct (round_spec E providers wallets s)
    as (r & s' & new & Hrun & Htr & _ & _ & Hcase).
  exists r, s', new. split; [exact Hrun|]. split; [exact Htr|].
  rewrite round_unfold in Hrun. cbv zeta in Hrun.
  destruct (resetDailyCounter_frame E s) as (_ & new1 & Ht1 & Hsw1 & _).
  set (s1 := snd (resetDailyCounter E s)) in *. clearbody s1.
  destruct (in_window (Date_now E (world s))); cbn [andb] in Hcase;
    [|destruct Hcase as (_ & _ & -> & _); constructor].
  destruct (Z.leb_spec 120 (dailyTxCount s1)) as [Hcap|Hcap].
  - injection Hrun as <- <-. unfold closing in Htr. cbn [trace] in Htr.
    rewrite Ht1, <- !app_assoc in Htr. apply app_inv_head in Htr. subst new.
    rewrite !swaps_app, Hsw1. constructor.
  - destruct (shuffle_perm E wallets s1) as (shuffled & s2 & Hsh & Hperm & Htr2 & _).
    rewrite Hsh in Hrun.
    destruct (for_each_swaps_the_table shuffled s2
                (fun w Hw => Permutation_in _ (Permutation_sym Hperm) Hw))
      as (r3 & s3 & new3 & Hrun3 & Ht3 & Hsw3).
    rewrite Hrun3 in Hrun. destruct r3 as [[]|t].
    + injection Hrun as <- <-. unfold ending in Htr.
      destruct (Math_random E (world s3)) as [r0 w0]. cbn [trace] in Htr.
      rewrite Ht3, Htr2, Ht1, <- !app_assoc in Htr. apply app_inv_head in Htr. subst new.
      rewrite !swaps_app, Hsw1. cbn [app].
      apply Forall_app. split; [exact Hsw3|constructor].
    + injection Hrun as <- <-.
      rewrite Ht3, Htr2, Ht1, <- !app_assoc in Htr. apply app_inv_head in Htr. subst new.
      rewrite !swaps_app, Hsw1. exact Hsw3.
Qed.

Lemma rounds_swap_the_table (n : nat) : forall s : St W,
  exists r s' new,
    rounds E n providers wallets s = (r, s') /\ trace s' = trace s ++ new /\
    Forall (SOL_against_a_mint wallets) (swaps new).
Proof.
  induction n as [|n IH]; intro s.
  - exists (Ok tt), s, []. rewrite app_nil_r. repeat split. constructor.
  - rewrite rounds_S.
    destruct (round_swaps_the_table s) as (r1 & s1 & new1 & Hrun1 & Ht1 & Hsw1).
    rewrite Hrun1. destruct r1 as [[]|t].
    + destruct (IH s1) as (r & s2 & new2 & Hrun2 & Ht2 & Hsw2).
      exists r, s2, (new1 ++ new2). split; [exact Hrun2|].
      split; [rewrite Ht2, Ht1; trace_eq|].
      rewrite swaps_app. apply Forall_app. split; assumption.
    + exists (Throw t), s1, new1. repeat split; assumption.
Qed.

End WholeRun.

(** X23. Whatever number of turns the loop runs, every swap it asks for is
    for a wallet of the pool, and sells SOL for one of the three mints of the
    table or one of the three mints for SOL: nothing else is ever traded. *)
Theorem start_swaps_only_SOL_against_the_table :
  forall W Tx (E : Env W Tx) (providers : list (SwapProvider W Tx))
         (wallets : list WalletContext) (n : nat) (s : St W),
    let run := start E n providers wallets s in
    Forall (SOL_against_a_mint wallets) (swaps (new_events s (snd run))).
Proof.
  intros W Tx E providers wallets n s. cbv zeta.
  destruct (start E n providers wallets s) as [r s'] eqn:Hrun.
  unfold start, bind, console_log, emit in Hrun. cbv beta iota in Hrun.
  match type of Hrun with
  | context [rounds E n providers wallets ?s0] =>
      destruct (rounds_swap_the_table E providers wallets n s0)
        as (r1 & s1 & new & Hrun1 & Htr & Hsw)
  end.
  rewrite Hrun1 in Hrun. injection Hrun as <- <-. cbn [snd]. cbn [trace] in Htr.
  rewrite (new_events_app s s1 (_ :: _ :: new)
             ltac:(rewrite Htr, <- !app_assoc; reflexivity)).
  exact Hsw.
Qed.
